(** * Yosip API: cart, order and payment consistency core

    A shallow embedding of the request handlers of the Express application
    (catalog stock, carts, order ledger, payment reconciliation and the
    per-identity cart gate), with the properties of its design document
    stated and settled against the handlers.

    Conventions of the embedding.
    - A Mongo collection addressed by [_id] only (products) is a finite map;
      the order ledger is a list whose positions are the order identifiers;
      the cart collection is a list in insertion order, because
      [Cart.findOne] and [Cart.deleteOne] pick the first matching document.
    - Quantities, stock and money amounts are JavaScript numbers in the
      source; they are integers here ([Z], amounts in minor units).
    - What the handlers obtain from the outside world (the clock, the
      generated order number, mail delivery, processor answers) is passed in
      as an explicit argument.
    - The order documents are those of models/Order.js, the schema the
      application imports. [new Order(...)] keeps the keys of its argument
      that are paths of that schema and drops the others, and
      [order.save()] runs the schema's validators and throws when one
      refuses the document, as Mongoose does; the order handlers are
      modelled in full, also where a refused save keeps the code after it
      from running.
    - The cart schema of models/Cart.js ([quantity] at least 1, no product
      twice) is enforced by [cart.save()], as Mongoose does; the updates
      made with [findOneAndUpdate] and [deleteOne] skip validation. *)

From Stdlib Require Import ZArith String List Lia.
From stdpp Require Import gmap strings list fin_maps.

Local Open Scope Z_scope.

(** ** Identifiers *)

(** A Mongo [ObjectId]. *)
Definition ObjectId := nat.
Bind Scope nat_scope with ObjectId.

(** An identifier as it arrives in a request: either a string that
    [mongoose.Types.ObjectId.isValid] accepts (and that casts to an
    [ObjectId]), or any other truthy value. *)
Inductive RawId :=
| WellFormed (i : ObjectId)
| Malformed (s : string).

#[global] Instance RawId_eq_dec : EqDecision RawId.
Proof. solve_decision. Defined.

Definition isValid (r : RawId) : bool :=
  match r with WellFormed _ => true | Malformed _ => false end.

(** ** Documents *)

Record Product := mkProduct {
  name : string;
  price : Z;
  stock : Z;
  isActive : bool
}.

Record CartItem := mkCartItem {
  productId : ObjectId;
  quantity : Z;
  addedAt : Z
}.

Record Cart := mkCart {
  userId : option ObjectId;
  sessionId : option string;
  items : list CartItem;
  updatedAt : Z
}.

(** A line as the order handlers build it: the plain object they push on
    [orderItems]. *)
Record OrderItem := mkOrderItem {
  oi_productId : ObjectId;
  productName : string;
  oi_quantity : Z;
  oi_price : Z;
  subtotal : Z
}.

(** A line as the schema of models/Order.js stores it: [productId],
    [quantity] and [price]. *)
Record StoredItem := mkStoredItem {
  si_productId : ObjectId;
  si_quantity : Z;
  si_price : Z
}.

(** [customerInfo] of the object handed to [new Order]. *)
Record CustomerInfo := mkCustomerInfo {
  ci_name : option string;
  ci_email : option string;
  ci_phone : option string
}.

(** [shippingAddress] with the paths models/Order.js gives it, each one
    [None] where the object has no such key. It is also the shape in which a
    request's [shippingAddress] is read: other keys of the request are
    dropped by the schema and read by no handler. *)
Record Address := mkAddress {
  fullName : option string;
  address : option string;
  city : option string;
  state : option string;
  zipCode : option string;
  country : option string;
  phone : option string
}.

(** An order document: the paths of models/Order.js ([user], [items] and
    [subtotal] carry a prefix here). A path without a default is [None]
    while the document has no value for it; [createdAt] and [updatedAt] of
    [timestamps: true] are not represented. *)
Record Order := mkOrder {
  o_user : option ObjectId;
  o_items : list StoredItem;
  shippingAddress : Address;
  contactEmail : option string;
  paymentMethod : string;
  paymentStatus : string;
  stripePaymentIntentId : option string;
  stripeSessionId : option string;
  paypalOrderId : option string;
  paypalCaptureId : option string;
  orderStatus : string;
  o_subtotal : option Z;
  shipping : option Z;
  tax : option Z;
  total : option Z;
  orderNotes : option string;
  paidAt : option Z;
  shippedAt : option Z;
  deliveredAt : option Z
}.

(** The three collections. *)
Record Store := mkStore {
  products : gmap ObjectId Product;
  carts : list Cart;
  orders : list Order
}.

#[global] Instance CartItem_eq_dec : EqDecision CartItem.
Proof. solve_decision. Defined.

#[global] Instance Cart_eq_dec : EqDecision Cart.
Proof. solve_decision. Defined.

(** ** Responses *)

(** The [message] of a JSON reply; template literals keep their argument. *)
Inductive Message :=
| MissingRequiredFields            (* 'Missing required fields' *)
| ProductNotFoundId (r : RawId)    (* `Product not found: ${item.productId}` *)
| InsufficientStockFor (n : string)(* `Insufficient stock for ${product.name}` *)
| ServerError                      (* 'Server error occurred' *)
| IdentityRequired                 (* 'userId or sessionId required' *)
| ProductIdRequired                (* 'productId is required' *)
| ProductIdAndQuantityRequired     (* 'productId and quantity are required' *)
| InvalidUserId                    (* 'Invalid user ID format' *)
| InvalidProductId                 (* 'Invalid product ID format' *)
| ProductNotFound                  (* 'Product not found' *)
| ProductNotAvailable              (* 'Product is not available' *)
| OnlyInStock (s : Z)              (* `Only ${product.stock} items available in stock` *)
| QuantityNotNonNegativeInteger    (* 'Quantity must be a non-negative integer' *)
| CartNotFound                     (* 'Cart not found' *)
| ItemNotInCart                    (* 'Item not found in cart' *)
| NoActiveSession                  (* 'No active session found' *)
| BothIdsRequired                  (* 'Both userId and sessionId are required' *)
| CartIsEmpty                      (* 'Cart is empty' *)
| PaymentInitFailed                (* 'Payment initialization failed' *)
| InternalServerError              (* 'Internal server error' *)
| CartQuantityUpdated              (* 'Cart quantity updated' *)
| ItemAdded                        (* 'Item added to cart' *)
| ItemRemoved                      (* 'Item removed from cart' *)
| CartUpdated                      (* 'Cart updated' *)
| NoItemsToMerge                   (* 'No items to merge' *)
| CartMerged                       (* 'Cart merged successfully' *)
| OrderPlaced.                     (* 'Order placed successfully' *)

(** Where a browser is sent by [res.redirect]. *)
Inductive Destination :=
| OrderSuccessPage (orderId : option RawId)  (* /order-success?order_id=... *)
| PaymentFailedPage                          (* /checkout?payment_failed=true *)
| PaymentErrorPage.                          (* /checkout?payment_error=true *)

Inductive Response :=
| Rejected (code : Z) (m : Message)
    (* res.status(code).json({ success: false, message }) *)
| CartReply (m : Message) (shown : list CartItem) (itemCount : Z)
    (* res.json({ success: true, message, cart: { items, itemCount } }) *)
| OrderReply (id : nat) (pay : string) (mailC mailA : bool)
    (* res.json({ success: true, order: { id, paymentStatus, ... },
       emailStatus }); [orderNumber], [totalAmount] and [status] are read
       off the document, which has no such paths *)
| StripeReply (url : option string) (id : nat) (session : string)
| PaypalReply (url : string) (id : nat) (paypalId : string)
| Received
    (* res.json({ received: true }), status 200 *)
| WebhookError
    (* res.status(400).send(`Webhook Error: ...`) *)
| Redirected (d : Destination)
| Unanswered
    (* the handler returned without replying *)
| Threw.
    (* the promise of the handler rejected outside every [try]: nothing in
       the handler replies (Express 4 leaves the request open, Express 5
       hands the error to the application's error handler) *)

Definition succeeded (r : Response) : bool :=
  match r with
  | CartReply _ _ _ | OrderReply _ _ _ _ | StripeReply _ _ _
  | PaypalReply _ _ _ | Received => true
  | _ => false
  end.

(** ** The cart collection *)

(** A query filter of [Cart.findOne]: [{ userId }] or [{ sessionId }]. *)
Inductive CartFilter :=
| ByUser (u : ObjectId)
| BySession (s : string).

Definition matches (f : CartFilter) (c : Cart) : Prop :=
  match f with
  | ByUser u => userId c = Some u
  | BySession s => sessionId c = Some s
  end.

#[global] Instance matches_dec f c : Decision (matches f c).
Proof. destruct f; simpl; apply _. Defined.

(** [Cart.findOne(filter)]: position and content of the first match. *)
Definition findOne (f : CartFilter) (cs : list Cart) : option (nat * Cart) :=
  list_find (matches f) cs.

(** [Cart.deleteOne(filter)]: drops the first match, if any. *)
Definition deleteOne (f : CartFilter) (cs : list Cart) : list Cart :=
  match findOne f cs with
  | Some (i, _) => delete i cs
  | None => cs
  end.

(** The cart schema: every line has [quantity >= 1] ([min: 1]) and the
    [items] validator rejects two lines with the same product. *)
Definition cartValid (its : list CartItem) : bool :=
  forallb (fun it => 1 <=? quantity it) its
  && bool_decide (NoDup (productId <$> its)).

(** [cart.save()]: validation, then the [pre('save')] hook stamping
    [updatedAt], then the write. [slot] is the position the document was
    read from, [None] for a document made by [new Cart(...)]. A failed
    validation throws and nothing is written. *)
Definition saveCart (now : Z) (slot : option nat) (c : Cart) (cs : list Cart)
  : option (list Cart) :=
  if cartValid (items c) then
    let c' := mkCart (userId c) (sessionId c) (items c) now in
    Some (match slot with
          | Some i => <[i := c']> cs
          | None => cs ++ [c']
          end)
  else None.

(** [cart.items.findIndex(item => item.productId.toString() === id)]. *)
Definition findIndex (pid : ObjectId) (its : list CartItem) : option nat :=
  fst <$> list_find (fun it => productId it = pid) its.

(** [cart.items.reduce((sum, item) => sum + item.quantity, 0)]. *)
Definition itemCount (its : list CartItem) : Z :=
  fold_left (fun sum it => sum + quantity it) its 0.

(** ** Requests *)

(** An Express request once the application-level middleware has run.
    [B] is the shape of the JSON body the handler destructures. An absent
    or falsy field is [None]. *)
Record Req (B : Type) := mkReq {
  body : B;
  guestCookie : option string;     (* req.cookies?.guestSessionId *)
  req_sessionId : option string;   (* req.sessionId *)
  session_userId : option RawId;   (* req.session?.userId *)
  user_id : option RawId;          (* req.user?._id *)
  sessionID : option string        (* req.sessionID *)
}.

Arguments mkReq {B} _ _ _ _ _ _.
Arguments body {B} _.
Arguments guestCookie {B} _.
Arguments req_sessionId {B} _.
Arguments session_userId {B} _.
Arguments user_id {B} _.
Arguments sessionID {B} _.

(** The application-level middleware is [cors], [express.json],
    [express.urlencoded], [cookieParser] and [express.static]: the body and
    the cookies are parsed, and nothing defines [req.session], [req.user],
    [req.sessionID] or [req.sessionId]. *)
Definition incoming {B} (b : B) (cookie : option string) : Req B :=
  mkReq b cookie None None None None.

(** [middleware/ensureGuestSession.js]. [bodyUser] reads [req.body.userId];
    [stamp] stands for the clock-and-random part of a generated identifier.
    The [Set-Cookie] header it adds to the response is not represented. *)
Definition ensureGuestSession {B} (bodyUser : B -> option RawId)
    (stamp : string) (req : Req B) : Req B :=
  match bodyUser (body req) with
  | Some _ => req
  | None =>
    let session :=
      match guestCookie req with
      | Some s => if bool_decide (s = EmptyString) then append "session_" stamp else s
      | None => append "session_" stamp
      end in
    mkReq (body req) (guestCookie req) (Some session)
          (session_userId req) (user_id req) (sessionID req)
  end.

(** Outcome of the identity checks shared by the cart handlers:
    [userId ? { userId } : { sessionId }], with the two rejections. *)
Inductive Identity :=
| NoIdentity
| BadUser
| Known (f : CartFilter).

Definition identify (userId : option RawId) (sessionId : option string) : Identity :=
  match userId with
  | Some (WellFormed u) => Known (ByUser u)
  | Some (Malformed _) => BadUser
  | None =>
    match sessionId with
    | Some s => Known (BySession s)
    | None => NoIdentity
    end
  end.

(** [const userId = req.body.userId || null;
     const sessionId = userId ? null : req.sessionId;] followed by the checks. *)
Definition cartIdentity {B} (user : option RawId) (req : Req B) : Identity :=
  identify user (match user with Some _ => None | None => req_sessionId req end).

(** [const userId = req.session?.userId || req.user?._id;
     const sessionId = req.sessionID;] followed by the checks. *)
Definition sessionIdentity {B} (req : Req B) : Identity :=
  identify (match session_userId req with Some u => Some u | None => user_id req end)
           (sessionID req).

(** [new Cart({ ...filter, items: [] })]. *)
Definition newCart (f : CartFilter) (now : Z) : Cart :=
  match f with
  | ByUser u => mkCart (Some u) None [] now
  | BySession s => mkCart None (Some s) [] now
  end.

(** ** POST /cart/add *)

Record AddBody := mkAddBody {
  add_userId : option RawId;
  add_productId : option RawId;
  add_quantity : option Z          (* [quantity = 1] when undefined *)
}.

(** The body of the [try] block once [acquireLock] has returned; the gate
    around it is the subject of module [Gate]. *)
Definition cart_add (now : Z) (req : Req AddBody) (st : Store) : Response * Store :=
  let qty := default 1 (add_quantity (body req)) in
  match cartIdentity (add_userId (body req)) req with
  | NoIdentity => (Rejected 400 IdentityRequired, st)
  | who =>
    match add_productId (body req) with
    | None => (Rejected 400 ProductIdRequired, st)
    | Some rawProduct =>
      match who with
      | NoIdentity | BadUser => (Rejected 400 InvalidUserId, st)
      | Known query =>
        match rawProduct with
        | Malformed _ => (Rejected 400 InvalidProductId, st)
        | WellFormed pid =>
          match products st !! pid with
          | None => (Rejected 404 ProductNotFound, st)
          | Some product =>
            if negb (isActive product) then (Rejected 400 ProductNotAvailable, st)
            else if stock product <? qty then
              (Rejected 400 (OnlyInStock (stock product)), st)
            else
              let '(slot, cart) :=
                match findOne query (carts st) with
                | Some (i, c) => (Some i, c)
                | None => (None, newCart query now)
                end in
              let upsert :=
                match list_find (fun it => productId it = pid) (items cart) with
                | Some (k, line) =>
                  let newQuantity := quantity line + qty in
                  if stock product <? newQuantity then None
                  else Some (CartQuantityUpdated,
                             <[k := mkCartItem (productId line) newQuantity now]> (items cart))
                | None =>
                  Some (ItemAdded, items cart ++ [mkCartItem pid qty now])
                end in
              match upsert with
              | None => (Rejected 400 (OnlyInStock (stock product)), st)
              | Some (msg, items') =>
                let cart' := mkCart (userId cart) (sessionId cart) items' now in
                match saveCart now slot cart' (carts st) with
                | None => (Rejected 500 ServerError, st)
                | Some carts' =>
                  (CartReply msg items' (itemCount items'),
                   mkStore (products st) carts' (orders st))
                end
              end
          end
        end
      end
    end
  end.

(** ** PUT /cart/update *)

(** A defined JSON value in the place of a quantity: an integer number, or
    anything for which [Number.isInteger] is false. *)
Inductive JsQuantity :=
| Integer (z : Z)
| NotInteger.

Record UpdateBody := mkUpdateBody {
  upd_userId : option RawId;
  upd_productId : option RawId;
  upd_quantity : option JsQuantity   (* [None] when undefined *)
}.

Definition cart_update (now : Z) (req : Req UpdateBody) (st : Store) : Response * Store :=
  match cartIdentity (upd_userId (body req)) req with
  | NoIdentity => (Rejected 400 IdentityRequired, st)
  | who =>
    match upd_productId (body req), upd_quantity (body req) with
    | None, _ | _, None => (Rejected 400 ProductIdAndQuantityRequired, st)
    | Some rawProduct, Some rawQuantity =>
      match who, rawProduct with
      | NoIdentity, _ | BadUser, _ => (Rejected 400 InvalidUserId, st)
      | Known _, Malformed _ => (Rejected 400 InvalidProductId, st)
      | Known query, WellFormed pid =>
        match rawQuantity with
        | NotInteger => (Rejected 400 QuantityNotNonNegativeInteger, st)
        | Integer qty =>
          if qty <? 0 then (Rejected 400 QuantityNotNonNegativeInteger, st)
          else
            match findOne query (carts st) with
            | None => (Rejected 404 CartNotFound, st)
            | Some (slot, cart) =>
              match findIndex pid (items cart) with
              | None => (Rejected 404 ItemNotInCart, st)
              | Some itemIndex =>
                if qty =? 0 then
                  (* cart.items.splice(itemIndex, 1) *)
                  let items' := delete itemIndex (items cart) in
                  let cart' := mkCart (userId cart) (sessionId cart) items' (updatedAt cart) in
                  match saveCart now (Some slot) cart' (carts st) with
                  | None => (Rejected 500 ServerError, st)
                  | Some carts' =>
                    (CartReply ItemRemoved items' (itemCount items'),
                     mkStore (products st) carts' (orders st))
                  end
                else
                  match products st !! pid with
                  | None => (Rejected 404 ProductNotFound, st)
                  | Some product =>
                    if stock product <? qty then
                      (Rejected 400 (OnlyInStock (stock product)), st)
                    else
                      let items' :=
                        alter (fun line => mkCartItem (productId line) qty (addedAt line))
                              itemIndex (items cart) in
                      let cart' := mkCart (userId cart) (sessionId cart) items' (updatedAt cart) in
                      match saveCart now (Some slot) cart' (carts st) with
                      | None => (Rejected 500 ServerError, st)
                      | Some carts' =>
                        (CartReply CartUpdated items' (itemCount items'),
                         mkStore (products st) carts' (orders st))
                      end
                  end
              end
            end
        end
      end
    end
  end.

(** ** DELETE /cart/remove *)

Record RemoveBody := mkRemoveBody {
  rem_productId : option RawId
}.

(** This route is registered without [ensureGuestSession]; it reads
    [req.session?.userId || req.user?._id] and [req.sessionID]. *)
Definition cart_remove (now : Z) (req : Req RemoveBody) (st : Store) : Response * Store :=
  match sessionIdentity req with
  | NoIdentity => (Rejected 400 NoActiveSession, st)
  | who =>
    match rem_productId (body req) with
    | None => (Rejected 400 ProductIdRequired, st)
    | Some rawProduct =>
      match who, rawProduct with
      | NoIdentity, _ | BadUser, _ => (Rejected 400 InvalidUserId, st)
      | Known _, Malformed _ => (Rejected 400 InvalidProductId, st)
      | Known query, WellFormed pid =>
        match findOne query (carts st) with
        | None => (Rejected 404 CartNotFound, st)
        | Some (slot, cart) =>
          let items' := filter (fun it => productId it <> pid) (items cart) in
          let cart' := mkCart (userId cart) (sessionId cart) items' (updatedAt cart) in
          match saveCart now (Some slot) cart' (carts st) with
          | None => (Rejected 500 ServerError, st)
          | Some carts' =>
            (CartReply ItemRemoved items' (itemCount items'),
             mkStore (products st) carts' (orders st))
          end
        end
      end
    end
  end.

(** ** POST /cart/merge *)

Record MergeBody := mkMergeBody {
  mrg_userId : option RawId;
  mrg_sessionId : option string
}.

(** The [for (const guestItem of guestCart.items)] loop: a guest line whose
    product the user cart already has adds its quantity to that line, any
    other guest line is pushed. *)
Fixpoint mergeItems (guest user : list CartItem) : list CartItem :=
  match guest with
  | [] => user
  | guestItem :: rest =>
    match findIndex (productId guestItem) user with
    | Some existingItemIndex =>
      mergeItems rest
        (alter (fun line => mkCartItem (productId line)
                              (quantity line + quantity guestItem) (addedAt line))
               existingItemIndex user)
    | None => mergeItems rest (user ++ [guestItem])
    end
  end.

Definition cart_merge (now : Z) (req : Req MergeBody) (st : Store) : Response * Store :=
  match mrg_userId (body req), mrg_sessionId (body req) with
  | None, _ | _, None => (Rejected 400 BothIdsRequired, st)
  | Some (Malformed _), Some _ => (Rejected 400 InvalidUserId, st)
  | Some (WellFormed user), Some session =>
    let guestCart := findOne (BySession session) (carts st) in
    let userCart := findOne (ByUser user) (carts st) in
    let nothingToMerge :=
      match guestCart with
      | None => true
      | Some (_, g) => bool_decide (items g = [])
      end in
    if nothingToMerge then
      match userCart with
      | Some (_, u) => (CartReply NoItemsToMerge (items u) (itemCount (items u)), st)
      | None =>
        match saveCart now None (newCart (ByUser user) now) (carts st) with
        | None => (Rejected 500 ServerError, st)
        | Some carts' =>
          (CartReply NoItemsToMerge [] 0, mkStore (products st) carts' (orders st))
        end
      end
    else
      match guestCart, userCart with
      | None, _ => (Rejected 500 ServerError, st)
      | Some (gslot, g), None =>
        let rekeyed := mkCart (Some user) None (items g) (updatedAt g) in
        match saveCart now (Some gslot) rekeyed (carts st) with
        | None => (Rejected 500 ServerError, st)
        | Some carts' =>
          (CartReply CartMerged (items g) (itemCount (items g)),
           mkStore (products st) carts' (orders st))
        end
      | Some (_, g), Some (uslot, u) =>
        let merged := mergeItems (items g) (items u) in
        let userCart' := mkCart (userId u) (sessionId u) merged (updatedAt u) in
        match saveCart now (Some uslot) userCart' (carts st) with
        | None => (Rejected 500 ServerError, st)
        | Some carts' =>
          (CartReply CartMerged merged (itemCount merged),
           mkStore (products st) (deleteOne (BySession session) carts') (orders st))
        end
      end
  end.

(** ** The outside world of one request *)

Record Outside := mkOutside {
  clock : Z;                    (* Date.now() / new Date() *)
  generatedNumber : string;     (* generateOrderNumber() *)
  customerMailSent : bool;      (* (await sendOrderConfirmationEmail(order)).sent *)
  adminMailSent : bool          (* (await sendAdminOrderNotification(order)).sent *)
}.

(** ** The schema of models/Order.js *)

(** The [enum] of [paymentMethod]. The schema literal names this path
    twice; the later entry, with 'cod' and the default 'stripe', is the one
    the object keeps. *)
Definition paymentMethods : list string := ["stripe"; "paypal"; "cod"].

(** The [enum] of [paymentStatus]. *)
Definition paymentStatuses : list string :=
  ["pending"; "completed"; "failed"; "refunded"].

(** The [enum] of [orderStatus]. *)
Definition orderStatuses : list string :=
  ["pending"; "processing"; "shipped"; "delivered"; "cancelled"].

(** [required: true] on a String path: a value, and not the empty string. *)
Definition requiredString (v : option string) : bool :=
  match v with
  | Some s => bool_decide (s <> EmptyString)
  | None => false
  end.

(** [required: true] on a Number path. *)
Definition requiredNumber (v : option Z) : bool :=
  match v with Some _ => true | None => false end.

(** The validators of one element of [items]: [quantity] has [min: 1]
    ([productId], [quantity] and [price] are required, and present in every
    [StoredItem]). *)
Definition itemValid (item : StoredItem) : bool := 1 <=? si_quantity item.

(** The validators of [shippingAddress]: every path is required. *)
Definition addressValid (a : Address) : bool :=
  requiredString (fullName a) && requiredString (address a)
  && requiredString (city a) && requiredString (state a)
  && requiredString (zipCode a) && requiredString (country a)
  && requiredString (phone a).

(** All validators of the schema. *)
Definition orderValid (o : Order) : bool :=
  forallb itemValid (o_items o)
  && addressValid (shippingAddress o)
  && requiredString (contactEmail o)
  && bool_decide (paymentMethod o ∈ paymentMethods)
  && bool_decide (paymentStatus o ∈ paymentStatuses)
  && bool_decide (orderStatus o ∈ orderStatuses)
  && requiredNumber (o_subtotal o) && requiredNumber (shipping o)
  && requiredNumber (tax o) && requiredNumber (total o).

(** [await order.save()]: the document is validated and, when it passes,
    written at its position ([slot], for a document read from the ledger)
    or appended (a new document); [None] when validation throws. On a
    document it has loaded Mongoose validates the paths assigned since;
    every such save of the handlers follows an assignment to
    [paymentStatus], or a save of the same document that passed, so
    validating the whole document decides the same. *)
Definition saveOrder (slot : option nat) (o : Order) (os : list Order)
  : option (list Order) :=
  if orderValid o then
    Some (match slot with
          | Some i => <[i := o]> os
          | None => os ++ [o]
          end)
  else None.

(** The object literal the two placement handlers hand to [new Order]. *)
Record OrderFields := mkOrderFields {
  orderNumber : string;
  customerId : option RawId;
  customerInfo : CustomerInfo;
  f_items : list OrderItem;
  f_shippingAddress : Address;
  totalAmount : Z;
  shippingFee : Z;
  f_tax : Z;
  f_paymentMethod : option string;
  notes : option string;
  status : string;
  f_paymentStatus : string
}.

(** An element of [items] as the schema casts it: [productName] and
    [subtotal] are no paths of the element and are dropped. *)
Definition castItem (line : OrderItem) : StoredItem :=
  mkStoredItem (oi_productId line) (oi_quantity line) (oi_price line).

(** [new Order(fields)]. The schema is strict: of the keys of [fields] it
    keeps [items], [shippingAddress], [tax], [paymentMethod] and
    [paymentStatus], and drops [orderNumber], [customerId], [customerInfo],
    [totalAmount], [shippingFee], [notes] and [status], which are no paths
    of it. [paymentMethod] and [orderStatus] take their defaults when not
    given; [contactEmail], [subtotal], [shipping] and [total] have none. *)
Definition newOrder (fields : OrderFields) : Order :=
  mkOrder None (castItem <$> f_items fields) (f_shippingAddress fields) None
          (default "stripe" (f_paymentMethod fields)) (f_paymentStatus fields)
          None None None None "pending"
          None None (Some (f_tax fields)) None
          None None None None.

(** ** Order placement *)

Record ReqItem := mkReqItem {
  ri_productId : RawId;
  ri_quantity : Z
}.

(** Stock after [product.stock -= n]. *)
Definition withStock (product : Product) (s : Z) : Product :=
  mkProduct (name product) (price product) s (isActive product).

Definition snapshot (pid : ObjectId) (product : Product) (qty : Z) : OrderItem :=
  mkOrderItem pid (name product) qty (price product) (price product * qty).

(** The item loop of POST /orders. The result is either the reply of an
    early [return] (or of the [catch] block, when [Product.findById] throws
    on an identifier it cannot cast), or the accumulated [subtotal] and
    [orderItems]; the catalog comes back as the loop left it, since each
    round ends with [await product.save()]. *)
Fixpoint placeItems (its : list ReqItem) (ps : gmap ObjectId Product)
    (sub : Z) (orderItems : list OrderItem)
  : gmap ObjectId Product * (Response + Z * list OrderItem) :=
  match its with
  | [] => (ps, inr (sub, orderItems))
  | item :: rest =>
    match ri_productId item with
    | Malformed _ => (ps, inl (Rejected 500 ServerError))
    | WellFormed pid =>
      match ps !! pid with
      | None => (ps, inl (Rejected 404 (ProductNotFoundId (ri_productId item))))
      | Some product =>
        if stock product <? ri_quantity item then
          (ps, inl (Rejected 400 (InsufficientStockFor (name product))))
        else
          let line := snapshot pid product (ri_quantity item) in
          placeItems rest
            (<[pid := withStock product (stock product - ri_quantity item)]> ps)
            (sub + subtotal line) (orderItems ++ [line])
      end
    end
  end.

Record OrderBody := mkOrderBody {
  ord_customerId : option RawId;
  ord_customerInfo : option CustomerInfo;
  ord_items : option (list ReqItem);
  ord_shippingAddress : option Address;
  ord_shippingFee : option Z;
  ord_tax : option Z;
  ord_paymentMethod : option string;
  ord_notes : option string
}.

(** POST /orders. The [catch] block answers 500 when [order.save()]
    throws; what the item loop saved before stays saved. *)
Definition post_orders (out : Outside) (b : OrderBody) (st : Store) : Response * Store :=
  match ord_customerInfo b, ord_items b, ord_shippingAddress b with
  | Some info, Some (first :: others), Some shipTo =>
    match placeItems (first :: others) (products st) 0 [] with
    | (ps, inl reply) => (reply, mkStore ps (carts st) (orders st))
    | (ps, inr (sub, orderItems)) =>
      let fee := default 0 (ord_shippingFee b) in
      let tx := default 0 (ord_tax b) in
      let order :=
        newOrder (mkOrderFields (generatedNumber out) (ord_customerId b) info
                    orderItems shipTo (sub + fee + tx) fee tx
                    (ord_paymentMethod b) (ord_notes b) "pending" "unpaid") in
      match saveOrder None order (orders st) with
      | None => (Rejected 500 ServerError, mkStore ps (carts st) (orders st))
      | Some saved =>
        (OrderReply (length (orders st)) (paymentStatus order)
                    (customerMailSent out) (adminMailSent out),
         mkStore ps (carts st) saved)
      end
    end
  | _, _, _ => (Rejected 400 MissingRequiredFields, st)
  end.

(** The item loop of POST /orders/create-payment: the same checks and the
    same snapshot, without the stock decrement. *)
Fixpoint priceItems (its : list ReqItem) (ps : gmap ObjectId Product)
    (calculatedSubtotal : Z) (orderItems : list OrderItem)
  : Response + Z * list OrderItem :=
  match its with
  | [] => inr (calculatedSubtotal, orderItems)
  | item :: rest =>
    match ri_productId item with
    | Malformed _ => inl (Rejected 500 PaymentInitFailed)
    | WellFormed pid =>
      match ps !! pid with
      | None => inl (Rejected 404 (ProductNotFoundId (ri_productId item)))
      | Some product =>
        if stock product <? ri_quantity item then
          inl (Rejected 400 (InsufficientStockFor (name product)))
        else
          let line := snapshot pid product (ri_quantity item) in
          priceItems rest ps (calculatedSubtotal + subtotal line) (orderItems ++ [line])
      end
    end
  end.

Record PaymentBody := mkPaymentBody {
  pay_items : option (list ReqItem);
  pay_shippingAddress : option Address;
  pay_contactEmail : option string;
  pay_paymentMethod : option string;
  pay_orderNotes : option string;
  pay_subtotal : option Z;
  pay_shipping : option Z;
  pay_tax : option Z;
  pay_total : Z               (* the body's [total], taken to be a number *)
}.

(** A string of a request body where the handler tests it with [!]: the
    empty string counts as absent. *)
Definition truthy (v : option string) : option string :=
  match v with
  | Some s => if bool_decide (s = EmptyString) then None else Some s
  | None => None
  end.

(** What the processor SDK call of POST /orders/create-payment yields:
    [stripe.checkout.sessions.create] gives a session [id] and [url],
    [paypalClient().execute] an order [id] and the [href] of its approve
    link; either may throw. *)
Inductive ProcessorAnswer :=
| Opened (id : string) (url : option string)
| ProcessorThrows.

(** [order.stripeSessionId = session.id]. *)
Definition withStripeSession (session : string) (o : Order) : Order :=
  mkOrder (o_user o) (o_items o) (shippingAddress o) (contactEmail o)
          (paymentMethod o) (paymentStatus o)
          (stripePaymentIntentId o) (Some session) (paypalOrderId o) (paypalCaptureId o)
          (orderStatus o) (o_subtotal o) (shipping o) (tax o) (total o)
          (orderNotes o) (paidAt o) (shippedAt o) (deliveredAt o).

(** [order.paypalOrderId = paypalOrder.result.id]. *)
Definition withPaypalOrder (paypalId : string) (o : Order) : Order :=
  mkOrder (o_user o) (o_items o) (shippingAddress o) (contactEmail o)
          (paymentMethod o) (paymentStatus o)
          (stripePaymentIntentId o) (stripeSessionId o) (Some paypalId) (paypalCaptureId o)
          (orderStatus o) (o_subtotal o) (shipping o) (tax o) (total o)
          (orderNotes o) (paidAt o) (shippedAt o) (deliveredAt o).

(** POST /orders/create-payment. The [shippingAddress] of the order is the
    literal [{ street, city, state, zipCode, country }], of which [street]
    is no path of the schema; every throw inside the [try] ends in the
    [catch] block's 500. *)
Definition create_payment (out : Outside) (answer : ProcessorAnswer)
    (req : Req PaymentBody) (st : Store) : Response * Store :=
  let b := body req in
  match pay_items b with
  | None | Some [] => (Rejected 400 CartIsEmpty, st)
  | Some its =>
    match pay_shippingAddress b, truthy (pay_contactEmail b),
          truthy (pay_paymentMethod b) with
    | Some shipTo, Some email, Some method =>
      match priceItems its (products st) 0 [] with
      | inl reply => (reply, st)
      | inr (calculatedSubtotal, orderItems) =>
        let order :=
          newOrder (mkOrderFields (generatedNumber out) (user_id req)
                      (mkCustomerInfo (fullName shipTo) (Some email) (phone shipTo))
                      orderItems
                      (mkAddress None None (city shipTo) (state shipTo)
                                 (zipCode shipTo) (country shipTo) None)
                      (pay_total b) (default 0 (pay_shipping b)) (default 0 (pay_tax b))
                      (Some method) (pay_orderNotes b) "pending" "unpaid") in
        let id := length (orders st) in
        match saveOrder None order (orders st) with
        | None => (Rejected 500 PaymentInitFailed, st)
        | Some saved =>
          let kept := mkStore (products st) (carts st) saved in
          if bool_decide (method = "stripe") then
            match answer with
            | ProcessorThrows => (Rejected 500 PaymentInitFailed, kept)
            | Opened session url =>
              match saveOrder (Some id) (withStripeSession session order) saved with
              | None => (Rejected 500 PaymentInitFailed, kept)
              | Some resaved =>
                (StripeReply url id session,
                 mkStore (products st) (carts st) resaved)
              end
            end
          else if bool_decide (method = "paypal") then
            match answer with
            | ProcessorThrows => (Rejected 500 PaymentInitFailed, kept)
            | Opened paypalId link =>
              match saveOrder (Some id) (withPaypalOrder paypalId order) saved with
              | None => (Rejected 500 PaymentInitFailed, kept)
              | Some resaved =>
                let withId := mkStore (products st) (carts st) resaved in
                match link with
                | Some approvalUrl => (PaypalReply approvalUrl id paypalId, withId)
                | None => (Rejected 500 PaymentInitFailed, withId)
                end
              end
            end
          else (Unanswered, kept)
        end
      end
    | _, _, _ => (Rejected 400 MissingRequiredFields, st)
    end
  end.

(** ** Payment reconciliation *)

(** [Order.findById(id)]: the document and its position, nothing for an
    unknown (or undefined) identifier, or a cast error for a malformed one. *)
Inductive Lookup :=
| Found (i : nat) (order : Order)
| Missing
| CastError.

Definition findById (id : option RawId) (os : list Order) : Lookup :=
  match id with
  | None => Missing
  | Some (Malformed _) => CastError
  | Some (WellFormed i) =>
    match os !! i with
    | Some order => Found i order
    | None => Missing
    end
  end.

(** [Product.findByIdAndUpdate(item.productId, { $inc: { stock: -item.quantity } })]
    for every item of the order; an identifier without a product changes
    nothing. *)
Definition reduceStock (its : list StoredItem) (ps : gmap ObjectId Product)
  : gmap ObjectId Product :=
  fold_left
    (fun ps item =>
       alter (fun product => withStock product (stock product - si_quantity item))
             (si_productId item) ps)
    its ps.

(** [Cart.findOneAndUpdate({ userId }, { $set: { items: [] } })], run only
    when the handler reads a customer off the order. *)
Definition clearCartOf (customer : option ObjectId) (cs : list Cart) : list Cart :=
  match customer with
  | None => cs
  | Some u =>
    match findOne (ByUser u) cs with
    | Some (i, c) => <[i := mkCart (userId c) (sessionId c) [] (updatedAt c)]> cs
    | None => cs
    end
  end.

(** [order.customerId], as both callbacks read it: the schema has no such
    path (its reference to the customer is [user]), so the document gives
    [undefined]. *)
Definition customerIdOf (o : Order) : option ObjectId := None.

(** The document after the assignments of the card-processor callback.
    [paymentStatus], [paidAt] and [stripePaymentIntentId] are paths of the
    schema; [order.status = 'processing'] names none and sets nothing that
    [save] would write. *)
Definition paidByStripe (now : Z) (intent : option string) (o : Order) : Order :=
  mkOrder (o_user o) (o_items o) (shippingAddress o) (contactEmail o)
          (paymentMethod o) "paid"
          intent (stripeSessionId o) (paypalOrderId o) (paypalCaptureId o)
          (orderStatus o) (o_subtotal o) (shipping o) (tax o) (total o)
          (orderNotes o) (Some now) (shippedAt o) (deliveredAt o).

(** The document after the assignments of the wallet-processor callback. *)
Definition paidByPaypal (now : Z) (capture : string) (o : Order) : Order :=
  mkOrder (o_user o) (o_items o) (shippingAddress o) (contactEmail o)
          (paymentMethod o) "paid"
          (stripePaymentIntentId o) (stripeSessionId o) (paypalOrderId o) (Some capture)
          (orderStatus o) (o_subtotal o) (shipping o) (tax o) (total o)
          (orderNotes o) (Some now) (shippedAt o) (deliveredAt o).

Record CheckoutSession := mkCheckoutSession {
  cs_id : string;
  metadata_orderId : option RawId;
  payment_intent : option string
}.

Inductive StripeEvent :=
| CheckoutSessionCompleted (session : CheckoutSession)  (* 'checkout.session.completed' *)
| PaymentIntentFailed (id : string)            (* 'payment_intent.payment_failed' *)
| OtherEvent (type : string).

(** The handler of POST /payment/stripe-webhook. [event] is what
    [stripe.webhooks.constructEvent] returns, [None] when it throws. The
    handler has no [try] around the [switch]: a throw of [Order.findById]
    or of [order.save()] there rejects the handler's promise. *)
Definition stripe_webhook (out : Outside) (event : option StripeEvent) (st : Store)
  : Response * Store :=
  match event with
  | None => (WebhookError, st)
  | Some (CheckoutSessionCompleted session) =>
    match findById (metadata_orderId session) (orders st) with
    | CastError => (Threw, st)
    | Missing => (Received, st)
    | Found i order =>
      let order' := paidByStripe (clock out) (payment_intent session) order in
      match saveOrder (Some i) order' (orders st) with
      | None => (Threw, st)
      | Some saved =>
        (Received,
         mkStore (reduceStock (o_items order') (products st))
                 (clearCartOf (customerIdOf order') (carts st))
                 saved)
      end
    end
  | Some (PaymentIntentFailed _) => (Received, st)
  | Some (OtherEvent _) => (Received, st)
  end.

(** *** The route behind the application's body parsers *)

Inductive ContentType := Json | UrlEncoded | OtherType.

#[global] Instance ContentType_eq_dec : EqDecision ContentType.
Proof. solve_decision. Defined.

(** A request to POST /payment/stripe-webhook as it arrives: its content
    type, whether it has a body, whether the parser for its content type
    accepts the bytes, and what [stripe.webhooks.constructEvent] makes of
    the raw bytes, the [stripe-signature] header and the endpoint secret
    ([None] where it throws). The processor delivers application/json with
    a signature that verifies. *)
Record Delivery := mkDelivery {
  contentType : ContentType;
  hasBody : bool;
  wellFormed : bool;
  signedEvent : option StripeEvent
}.

(** [req.body] as a body parser leaves it. *)
Inductive Body :=
| Untouched        (* no parser has read the body: [{}] *)
| ParsedObject     (* the value [express.json] or [express.urlencoded] parsed *)
| RawBuffer.       (* the bytes, as [express.raw] hands them on *)

(** The request between two body parsers: [req.body] with the mark
    [req._body] a parser sets once it has read the body, or the error a
    parser passed to [next]. *)
Inductive Parsing :=
| Passed (b : Body) (read : bool)
| ParserError.

(** A body parser of Express: it lets a request through untouched when an
    earlier parser has read the body, when there is no body, or when the
    content type is not its own; otherwise it reads the body and replaces
    [req.body]. [strict] parsers refuse bytes they cannot parse. *)
Definition bodyParser (own : ContentType) (strict : bool) (result : Body)
    (d : Delivery) (p : Parsing) : Parsing :=
  match p with
  | ParserError => ParserError
  | Passed b true => Passed b true
  | Passed b false =>
    if hasBody d && bool_decide (contentType d = own) then
      if strict && negb (wellFormed d) then ParserError else Passed result true
    else Passed b false
  end.

(** [app.use(express.json())]. *)
Definition express_json : Delivery -> Parsing -> Parsing :=
  bodyParser Json true ParsedObject.

(** [app.use(express.urlencoded({ extended: true }))]. *)
Definition express_urlencoded : Delivery -> Parsing -> Parsing :=
  bodyParser UrlEncoded true ParsedObject.

(** [express.raw({ type: 'application/json' })], the route's own parser. *)
Definition express_raw : Delivery -> Parsing -> Parsing :=
  bodyParser Json false RawBuffer.

(** [stripe.webhooks.constructEvent(req.body, sig, endpointSecret)]: the
    signature is computed over the bytes of the payload, so the call
    verifies nothing but the bytes themselves; handed a parsed object, or
    the empty object of a request nobody read, it throws. *)
Definition constructEvent (d : Delivery) (b : Body) : option StripeEvent :=
  match b with
  | RawBuffer => signedEvent d
  | ParsedObject | Untouched => None
  end.

(** POST /payment/stripe-webhook as the application mounts it: the
    parsers of [app.use] run first, then the route's [express.raw], then
    the handler. An error of a parser goes to the error handler at the end
    of the application, which answers 500. *)
Definition webhook_route (out : Outside) (d : Delivery) (st : Store)
  : Response * Store :=
  match express_raw d (express_urlencoded d (express_json d (Passed Untouched false))) with
  | ParserError => (Rejected 500 InternalServerError, st)
  | Passed b _ => stripe_webhook out (constructEvent d b) st
  end.

(** What [paypalClient().execute(new OrdersCaptureRequest(token))] yields. *)
Inductive CaptureAnswer :=
| Captured (status : string) (id : string)
| CaptureThrows.

(** GET /payment/paypal-success?orderId&token. Every throw inside the
    [try], that of [order.save()] included, ends in the [catch] block's
    redirect to the error page. *)
Definition paypal_success (out : Outside) (capture : CaptureAnswer)
    (orderId : option RawId) (st : Store) : Response * Store :=
  match capture with
  | CaptureThrows => (Redirected PaymentErrorPage, st)
  | Captured captureStatus id =>
    if bool_decide (captureStatus = "COMPLETED") then
      match findById orderId (orders st) with
      | CastError => (Redirected PaymentErrorPage, st)
      | Missing => (Redirected (OrderSuccessPage orderId), st)
      | Found i order =>
        let order' := paidByPaypal (clock out) id order in
        match saveOrder (Some i) order' (orders st) with
        | None => (Redirected PaymentErrorPage, st)
        | Some saved =>
          (Redirected (OrderSuccessPage orderId),
           mkStore (reduceStock (o_items order') (products st))
                   (clearCartOf (customerIdOf order') (carts st))
                   saved)
        end
      end
    else (Redirected PaymentFailedPage, st)
  end.

(** ** The per-identity gate *)

Module Gate.

(** [lockKey = req.body.userId || req.sessionId]. *)
Definition Key := string.

(** The default of [acquireLock]'s [maxWait] and the timer of its loop. *)
Definition maxWait : Z := 5000.
Definition pollDelay : Z := 10.

(** [cartLocks.delete(key)]. *)
Definition releaseLock (key : Key) (cartLocks : gset Key) : gset Key :=
  cartLocks ∖ {[key]}.

(** One turn of the [while (cartLocks.has(key))] loop of [acquireLock],
    up to the next [await] or to the function's end. *)
Inductive Attempt :=
| Acquired (cartLocks : gset Key)   (* loop left, cartLocks.set(key, true) *)
| Sleeps                            (* await setTimeout(resolve, 10) *)
| Throws.                           (* throw new Error('Lock timeout') *)

Definition acquireLock (key : Key) (startTime now : Z) (cartLocks : gset Key) : Attempt :=
  if decide (key ∈ cartLocks) then
    if maxWait <? now - startTime then Throws else Sleeps
  else Acquired ({[key]} ∪ cartLocks).

(** Where one POST /cart/add request stands. *)
Inductive Phase :=
| Arriving                        (* not yet at [await acquireLock(lockKey)] *)
| Polling (startTime wake : Z)    (* suspended in the loop until [wake] *)
| InBody                          (* in the [try] body, past [acquireLock] *)
| Replied (timedOut : bool).      (* the [finally] block has run *)

Record Op := mkOp {
  lockKey : Key;
  phase : Phase
}.

(** The process: its clock, the [cartLocks] map and the requests it is
    serving, numbered by position. *)
Record World := mkWorld {
  now : Z;
  cartLocks : gset Key;
  ops : list Op
}.

(** What the event loop may do next. *)
Inductive Event :=
| Tick (ms : Z)     (* time passes *)
| Enter (r : nat)   (* request [r] calls [acquireLock] *)
| Wake (r : nat)    (* the timer of request [r] fires, its loop goes round *)
| Leave (r : nat).  (* the body of request [r] ends, by reply or by throw *)

(** The turn of the loop taken by request [r], and the [finally] block
    when the turn throws. *)
Definition attempt (r : nat) (key : Key) (startTime : Z) (w : World) : World :=
  match acquireLock key startTime (now w) (cartLocks w) with
  | Acquired locks => mkWorld (now w) locks (<[r := mkOp key InBody]> (ops w))
  | Sleeps =>
    mkWorld (now w) (cartLocks w)
            (<[r := mkOp key (Polling startTime (now w + pollDelay))]> (ops w))
  | Throws =>
    mkWorld (now w) (releaseLock key (cartLocks w))
            (<[r := mkOp key (Replied true)]> (ops w))
  end.

Definition fire (e : Event) (w : World) : option World :=
  match e with
  | Tick ms =>
    if 0 <=? ms then Some (mkWorld (now w + ms) (cartLocks w) (ops w)) else None
  | Enter r =>
    match ops w !! r with
    | Some (mkOp key Arriving) => Some (attempt r key (now w) w)
    | _ => None
    end
  | Wake r =>
    match ops w !! r with
    | Some (mkOp key (Polling startTime wake)) =>
      if wake <=? now w then Some (attempt r key startTime w) else None
    | _ => None
    end
  | Leave r =>
    match ops w !! r with
    | Some (mkOp key InBody) =>
      Some (mkWorld (now w) (releaseLock key (cartLocks w))
                    (<[r := mkOp key (Replied false)]> (ops w)))
    | _ => None
    end
  end.

(** A schedule, event after event. *)
Fixpoint run (schedule : list Event) (w : World) : option World :=
  match schedule with
  | [] => Some w
  | e :: rest =>
    match fire e w with
    | Some w' => run rest w'
    | None => None
    end
  end.

(** Request [r] is in the body, having passed [acquireLock] with [key]. *)
Definition holds (w : World) (r : nat) (key : Key) : Prop :=
  ops w !! r = Some (mkOp key InBody).

(** At most one request is in the body for any key. *)
Definition exclusive (w : World) : Prop :=
  forall r1 r2 key, holds w r1 key -> holds w r2 key -> r1 = r2.

(** Every request in the body has its key in [cartLocks]. *)
Definition covered (w : World) : Prop :=
  forall r key, holds w r key -> key ∈ cartLocks w.

(** A process that has just started: nothing locked, every request yet
    to call [acquireLock]. *)
Definition fresh (keys : list Key) : World :=
  mkWorld 0 ∅ ((fun key => mkOp key Arriving) <$> keys).

(** No request of the world has ended in a lock timeout. *)
Definition timeoutFree (w : World) : Prop :=
  forall r key, ops w !! r <> Some (mkOp key (Replied true)).

End Gate.

(** ** Measures the properties are stated with *)

(** Units of product [pid] on the lines of a cart. *)
Fixpoint cartQty (pid : ObjectId) (its : list CartItem) : Z :=
  match its with
  | [] => 0
  | it :: rest =>
    (if decide (productId it = pid) then quantity it else 0) + cartQty pid rest
  end.

(** Units of product [pid] asked for by the items of an order request. *)
Fixpoint requestedQty (pid : ObjectId) (its : list ReqItem) : Z :=
  match its with
  | [] => 0
  | item :: rest =>
    (if decide (ri_productId item = WellFormed pid) then ri_quantity item else 0)
    + requestedQty pid rest
  end.

(** The requested item finds its product with enough stock in [ps]. *)
Definition passes (item : ReqItem) (ps : gmap ObjectId Product) : Prop :=
  exists pid product,
    ri_productId item = WellFormed pid /\ ps !! pid = Some product
    /\ ri_quantity item <= stock product.

(** The requested item names a product that [ps] does not have, or has
    with too little stock. *)
Definition fails (item : ReqItem) (ps : gmap ObjectId Product) : Prop :=
  exists pid,
    ri_productId item = WellFormed pid
    /\ (ps !! pid = None
        \/ exists product, ps !! pid = Some product /\ stock product < ri_quantity item).

(** A product with [n] units taken off its stock, otherwise as it was. *)
Definition less (n : Z) (product : Product) : Product :=
  mkProduct (name product) (price product) (stock product - n) (isActive product).

(** The catalog with the quantity of one requested item taken off the
    stock of its product. *)
Definition decrement (ps : gmap ObjectId Product) (item : ReqItem) : gmap ObjectId Product :=
  match ri_productId item with
  | WellFormed pid => alter (less (ri_quantity item)) pid ps
  | Malformed _ => ps
  end.

Definition decrementAll (its : list ReqItem) (ps : gmap ObjectId Product)
  : gmap ObjectId Product :=
  fold_left decrement its ps.

(** Every item passes against the catalog as the items before it left it. *)
Fixpoint allPass (its : list ReqItem) (ps : gmap ObjectId Product) : Prop :=
  match its with
  | [] => True
  | item :: rest => passes item ps /\ allPass rest (decrement ps item)
  end.

(** Every item of [its] finds its product in [ps], with enough stock for
    itself and for what the items before it ask of the same product. *)
Definition passInTurn (its : list ReqItem) (ps : gmap ObjectId Product) : Prop :=
  forall j item,
    its !! j = Some item ->
    exists pid product,
      ri_productId item = WellFormed pid /\ ps !! pid = Some product
      /\ requestedQty pid (take j its) + ri_quantity item <= stock product.

(** [item] names a product that [ps] does not have, or has with too little
    stock once the items [before] have had theirs. *)
Definition failsAfter (before : list ReqItem) (item : ReqItem)
    (ps : gmap ObjectId Product) : Prop :=
  exists pid,
    ri_productId item = WellFormed pid
    /\ (ps !! pid = None
        \/ exists product,
             ps !! pid = Some product
             /\ stock product - requestedQty pid before < ri_quantity item).

(** ** Further handlers *)

(** Replies of the handlers of this part; a [message] is the text the
    handler sends. *)
Inductive Reply :=
| Failed (code : Z) (message : string)
    (* res.status(code).json({ success: false, message }) *)
| FailedWith (code : Z)
    (* the same with [message: error.message] of a thrown error *)
| CartShown (stored : bool) (shown : list CartItem) (count : Z)
    (* GET /cart: cart { id?, items, itemCount }; [stored] tells whether
       a cart document, and so an [id], exists *)
| CartEmptied (message : string)
    (* DELETE /cart/clear: cart { id, items: [], itemCount: 0 } *)
| ProductShown (product : Product)
| ProductSaved (message : string) (product : Product)
| StatusSaved (message : string) (shownName : string) (active : bool)
| Deleted (message : string)
| OrderSaved (message : string) (order : Order).

(** *** GET /cart *)

Record CartQuery := mkCartQuery {
  get_bodyUserId : option RawId;    (* req.body.userId, read by the middleware *)
  get_queryUserId : option RawId    (* req.query.userId, read by the handler *)
}.

(** GET /cart reads and never writes. A [userId] that does not cast makes
    [Cart.findOne] throw, which the [catch] block answers with status 500. *)
Definition cart_get (req : Req CartQuery) (st : Store) : Reply :=
  match cartIdentity (get_queryUserId (body req)) req with
  | NoIdentity => Failed 400 "userId or sessionId required"
  | BadUser => Failed 500 "Server error occurred"
  | Known query =>
    match findOne query (carts st) with
    | None => CartShown false [] 0
    | Some (_, cart) => CartShown true (items cart) (itemCount (items cart))
    end
  end.

(** *** DELETE /cart/clear *)

Record ClearBody := mkClearBody {
  clr_userId : option RawId;
  clr_sessionId : option string
}.

(** This route takes both keys from the body and runs no middleware. *)
Definition cart_clear (now : Z) (req : Req ClearBody) (st : Store) : Reply * Store :=
  match identify (clr_userId (body req)) (clr_sessionId (body req)) with
  | NoIdentity => (Failed 400 "userId or sessionId required", st)
  | BadUser => (Failed 400 "Invalid user ID format", st)
  | Known query =>
    match findOne query (carts st) with
    | None => (Failed 404 "Cart not found", st)
    | Some (slot, cart) =>
      let cart' := mkCart (userId cart) (sessionId cart) [] (updatedAt cart) in
      match saveCart now (Some slot) cart' (carts st) with
      | None => (Failed 500 "Server error occurred", st)
      | Some carts' =>
        (CartEmptied "Cart cleared", mkStore (products st) carts' (orders st))
      end
    end
  end.

(** *** Catalog administration *)

(** GET /products/:id. *)
Definition product_get (id : RawId) (st : Store) : Reply :=
  match id with
  | Malformed _ => Failed 500 "Server error occurred"
  | WellFormed pid =>
    match products st !! pid with
    | None => Failed 404 "Product not found"
    | Some product => ProductShown product
    end
  end.

(** PATCH /products/:id/status. [flag] is [req.body.isActive] when its
    [typeof] is 'boolean', [None] for any other value. The type test comes
    before the product is looked up. *)
Definition product_set_status (id : RawId) (flag : option bool) (st : Store)
  : Reply * Store :=
  match flag with
  | None => (Failed 400 "isActive must be a boolean value", st)
  | Some b =>
    match id with
    | Malformed _ => (FailedWith 500, st)
    | WellFormed pid =>
      match products st !! pid with
      | None => (Failed 404 "Product not found", st)
      | Some product =>
        let product' := mkProduct (name product) (price product) (stock product) b in
        (StatusSaved (if b then "Product activated successfully"
                      else "Product deactivated successfully")
                     (name product') (isActive product'),
         mkStore (<[pid := product']> (products st)) (carts st) (orders st))
      end
    end
  end.

(** The body of PATCH /products/:id: the three fields the handler lets
    through, each of its schema type when present, and the other keys of
    the body. *)
Record PatchBody := mkPatchBody {
  pat_isActive : option bool;
  pat_stock : option Z;
  pat_price : option Z;
  pat_others : list string
}.

Definition allowedUpdates : list string := ["isActive"; "stock"; "price"].

(** [Object.keys(req.body)]. *)
Definition patchKeys (b : PatchBody) : list string :=
  match pat_isActive b with Some _ => ["isActive"] | None => [] end
  ++ match pat_stock b with Some _ => ["stock"] | None => [] end
  ++ match pat_price b with Some _ => ["price"] | None => [] end
  ++ pat_others b.

(** PATCH /products/:id. The product is looked up first, the keys are
    checked next. *)
Definition product_patch (id : RawId) (b : PatchBody) (st : Store) : Reply * Store :=
  match id with
  | Malformed _ => (FailedWith 500, st)
  | WellFormed pid =>
    match products st !! pid with
    | None => (Failed 404 "Product not found", st)
    | Some product =>
      let isValidOperation :=
        forallb (fun update => bool_decide (update ∈ allowedUpdates)) (patchKeys b) in
      if isValidOperation then
        let product' :=
          mkProduct (name product)
                    (default (price product) (pat_price b))
                    (default (stock product) (pat_stock b))
                    (default (isActive product) (pat_isActive b)) in
        (ProductSaved "Product updated successfully" product',
         mkStore (<[pid := product']> (products st)) (carts st) (orders st))
      else
        (Failed 400
           "Invalid updates. Only isActive, stock, and price can be updated via PATCH",
         st)
    end
  end.

(** DELETE /products/:id. The removal of the image files is outside the
    store. *)
Definition product_delete (id : RawId) (st : Store) : Reply * Store :=
  match id with
  | Malformed _ => (Failed 500 "Server error occurred", st)
  | WellFormed pid =>
    match products st !! pid with
    | None => (Failed 404 "Product not found", st)
    | Some _ =>
      (Deleted "Product deleted successfully",
       mkStore (delete pid (products st)) (carts st) (orders st))
    end
  end.

(** *** PUT /orders/:id *)

(** The fields PUT /orders/:id copies into its update when they are
    truthy. *)
Record OrderUpdate := mkOrderUpdate {
  ou_status : option string;
  ou_paymentStatus : option string;
  ou_trackingNumber : option string
}.

(** [order.paymentStatus], set by an update. *)
Definition withPaymentStatus (value : string) (o : Order) : Order :=
  mkOrder (o_user o) (o_items o) (shippingAddress o) (contactEmail o)
          (paymentMethod o) value
          (stripePaymentIntentId o) (stripeSessionId o) (paypalOrderId o) (paypalCaptureId o)
          (orderStatus o) (o_subtotal o) (shipping o) (tax o) (total o)
          (orderNotes o) (paidAt o) (shippedAt o) (deliveredAt o).

(** PUT /orders/:id, through [Order.findByIdAndUpdate(id, updateData,
    { new: true })]. Of the keys of [updateData] only [paymentStatus] is a
    path of the schema; [status] and [trackingNumber] are dropped. The
    update runs no validators ([runValidators] is not set), so the value is
    written whether or not the [enum] has it. *)
Definition order_update (id : RawId) (b : OrderUpdate) (st : Store) : Reply * Store :=
  match findById (Some id) (orders st) with
  | CastError => (Failed 500 "Server error occurred", st)
  | Missing => (Failed 404 "Order not found", st)
  | Found i o =>
    let o' :=
      match truthy (ou_paymentStatus b) with
      | Some value => withPaymentStatus value o
      | None => o
      end in
    (OrderSaved "Order updated successfully" o',
     mkStore (products st) (carts st) (<[i := o']> (orders st)))
  end.

(** *** getCountryCode *)

Definition countryCodes : list (string * string) :=
  [("Nigeria", "NG"); ("United States", "US"); ("United Kingdom", "GB");
   ("Canada", "CA"); ("Australia", "AU"); ("Germany", "DE"); ("France", "FR");
   ("Italy", "IT"); ("Spain", "ES"); ("Netherlands", "NL"); ("Belgium", "BE");
   ("Switzerland", "CH"); ("Sweden", "SE"); ("Norway", "NO"); ("Denmark", "DK");
   ("Finland", "FI"); ("Poland", "PL"); ("Ireland", "IE"); ("Portugal", "PT");
   ("Austria", "AT"); ("Greece", "GR"); ("South Africa", "ZA"); ("Kenya", "KE");
   ("Ghana", "GH"); ("Egypt", "EG"); ("Morocco", "MA"); ("Brazil", "BR");
   ("Mexico", "MX"); ("Argentina", "AR"); ("Chile", "CL"); ("Japan", "JP");
   ("South Korea", "KR"); ("China", "CN"); ("India", "IN"); ("Singapore", "SG");
   ("Malaysia", "MY"); ("Thailand", "TH"); ("Indonesia", "ID");
   ("Philippines", "PH"); ("Vietnam", "VN"); ("New Zealand", "NZ");
   ("United Arab Emirates", "AE"); ("Saudi Arabia", "SA"); ("Israel", "IL");
   ("Turkey", "TR")].

(** The property names every object literal inherits from
    [Object.prototype]; [countryCodes[name]] finds them too, and what it
    finds there (a function, or the prototype itself) is truthy. *)
Definition inheritedKeys : list string :=
  ["constructor"; "__defineGetter__"; "__defineSetter__"; "hasOwnProperty";
   "__lookupGetter__"; "__lookupSetter__"; "isPrototypeOf";
   "propertyIsEnumerable"; "toString"; "valueOf"; "__proto__"; "toLocaleString"].

Fixpoint ownProperty (key : string) (table : list (string * string)) : option string :=
  match table with
  | [] => None
  | (k, v) :: rest => if bool_decide (k = key) then Some v else ownProperty key rest
  end.

(** What [getCountryCode] returns: a code, or the inherited member of the
    table object that the name happens to select. *)
Inductive CountryCode :=
| Code (c : string)
| Inherited (key : string).

(** [return countryCodes[countryName] || 'US']. *)
Definition getCountryCode (countryName : string) : CountryCode :=
  match ownProperty countryName countryCodes with
  | Some c => Code c
  | None =>
    if bool_decide (countryName ∈ inheritedKeys) then Inherited countryName
    else Code "US"
  end.

(** ** Sample data *)

Definition tea : Product := mkProduct "tea" 300 5 true.
Definition cup : Product := mkProduct "cup" 500 1 true.
Definition retired : Product := mkProduct "retired" 250 5 false.

Definition shelf : gmap ObjectId Product :=
  <[1%nat := tea]> (<[2%nat := cup]> (<[3%nat := retired]> ∅)).

Definition ada : CustomerInfo :=
  mkCustomerInfo (Some "Ada") (Some "ada@example.org") (Some "555").
Definition home : Address :=
  mkAddress (Some "Ada") (Some "1 Main St") (Some "Lagos") (Some "LA")
            (Some "100001") (Some "Nigeria") (Some "555").
Definition noon : Outside := mkOutside 1200 "YOS000001" true true.

(** An order of two units of tea awaiting payment, as the schema admits
    it: 600 of goods, 100 of shipping, 50 of tax. *)
Definition teaOrder : Order :=
  mkOrder None [mkStoredItem 1%nat 2 300] home (Some "ada@example.org")
          "stripe" "pending" None (Some "cs_1") None None "pending"
          (Some 600) (Some 100) (Some 50) (Some 750) None None None None.

Definition teaPaid : CheckoutSession :=
  mkCheckoutSession "cs_1" (Some (WellFormed 0%nat)) (Some "pi_1").

(** The processor's delivery of the checkout-completed event for
    [teaOrder]: application/json, well-formed, with a signature that
    verifies against the bytes. *)
Definition teaDelivery : Delivery :=
  mkDelivery Json true true (Some (CheckoutSessionCompleted teaPaid)).

(** A guest cart with one unit of the retired product and three of tea. *)
Definition guestCart : Cart :=
  mkCart None (Some "g1") [mkCartItem 3 1 0; mkCartItem 1 3 0] 0.

(** POST /cart/add of a guest carrying the cookie "g1". *)
Definition guestAdd (pid : ObjectId) (qty : Z) : Req AddBody :=
  ensureGuestSession add_userId "x"
    (incoming (mkAddBody None (Some (WellFormed pid)) (Some qty)) (Some "g1")).

(** PUT /cart/update of the same guest. *)
Definition guestUpdate (pid : ObjectId) (qty : JsQuantity) : Req UpdateBody :=
  ensureGuestSession upd_userId "x"
    (incoming (mkUpdateBody None (Some (WellFormed pid)) (Some qty)) (Some "g1")).

(** The guest cart {tea: 2, cup: 1} and the cart {tea: 1} of user 5. *)
Definition guestAB : Cart :=
  mkCart None (Some "g1") [mkCartItem 1 2 0; mkCartItem 2 1 0] 0.
Definition userA : Cart := mkCart (Some 5%nat) None [mkCartItem 1 1 0] 0.

(** POST /cart/merge of guest session "g1" into user 5. *)
Definition mergeG1 : Req MergeBody :=
  incoming (mkMergeBody (Some (WellFormed 5)) (Some "g1")) (Some "g1").

(** A checkout of two units of tea, with the payment method [method]. *)
Definition checkout (method : string) : PaymentBody :=
  mkPaymentBody (Some [mkReqItem (WellFormed 1) 2]) (Some home)
                (Some "ada@example.org") (Some method) None
                (Some 600) (Some 100) (Some 50) 750.

(** GET /cart of the guest carrying the cookie "g1". *)
Definition guestGet : Req CartQuery :=
  ensureGuestSession get_bodyUserId "x" (incoming (mkCartQuery None None) (Some "g1")).

(** DELETE /cart/clear naming the session "g1" in its body. *)
Definition guestClear : Req ClearBody :=
  incoming (mkClearBody None (Some "g1")) None.

(** * Properties *)

(** ** Catalog lemmas *)

Lemma alter_found (f : Product -> Product) pid product (ps : gmap ObjectId Product) :
  ps !! pid = Some product -> alter f pid ps = <[pid := f product]> ps.
Proof.
  intros Hfound. apply map_eq. intros j.
  destruct (decide (pid = j)) as [<- | Hne].
  - rewrite lookup_alter_eq, lookup_insert_eq, Hfound. reflexivity.
  - rewrite lookup_alter_ne, lookup_insert_ne by assumption. reflexivity.
Qed.

Lemma decrement_lookup item pid (ps : gmap ObjectId Product) :
  decrement ps item !! pid = less (requestedQty pid [item]) <$> ps !! pid.
Proof.
  unfold decrement, less. simpl. destruct (ri_productId item) as [i | s] eqn:Hid.
  - destruct (decide (i = pid)) as [-> | Hne].
    + rewrite lookup_alter_eq. rewrite decide_True by reflexivity.
      destruct (ps !! pid) as [product |]; simpl; [| reflexivity].
      do 2 f_equal. lia.
    + rewrite lookup_alter_ne by assumption.
      rewrite decide_False by congruence.
      destruct (ps !! pid) as [[n p s a] |]; simpl; [| reflexivity].
      do 2 f_equal. lia.
  - rewrite decide_False by congruence.
    destruct (ps !! pid) as [[n p s' a] |]; simpl; [| reflexivity].
    do 2 f_equal. lia.
Qed.

Lemma decrementAll_lookup its : forall pid (ps : gmap ObjectId Product),
  decrementAll its ps !! pid = less (requestedQty pid its) <$> ps !! pid.
Proof.
  induction its as [| item rest IH]; intros pid ps.
  - simpl. destruct (ps !! pid) as [[n p s a] |]; simpl; [| reflexivity].
    unfold less. simpl. do 2 f_equal. lia.
  - change (decrementAll (item :: rest) ps) with (decrementAll rest (decrement ps item)).
    rewrite IH, decrement_lookup.
    destruct (ps !! pid) as [product |]; simpl; [| reflexivity].
    unfold less. simpl. do 2 f_equal. lia.
Qed.

(** ** Order placement *)

(** The two ways of saying that the items pass one after the other agree:
    against the stock the items before left, or against the stock at the
    start less what the items before asked for. *)
Lemma passInTurn_allPass its : forall ps, passInTurn its ps -> allPass its ps.
Proof.
  induction its as [| item rest IH]; intros ps Hturn; [exact I |].
  split.
  - destruct (Hturn 0%nat item eq_refl) as (pid & product & Hid & Hfound & Hstock).
    exists pid, product. simpl in Hstock. repeat split; [assumption .. | lia].
  - apply IH. intros j item' Hj.
    destruct (Hturn (S j) item' Hj) as (pid & product & Hid & Hfound & Hstock).
    exists pid. rewrite decrement_lookup, Hfound. simpl.
    eexists. split; [exact Hid |]. split; [reflexivity |].
    simpl in *. lia.
Qed.

Lemma allPass_passInTurn its : forall ps, allPass its ps -> passInTurn its ps.
Proof.
  induction its as [| item rest IH]; intros ps Hpass j item' Hj; [discriminate |].
  destruct Hpass as [(pid & product & Hid & Hfound & Hstock) Hrest].
  destruct j as [| j].
  - injection Hj as <-. exists pid, product. simpl. repeat split; [assumption .. | lia].
  - destruct (IH _ Hrest j item' Hj) as (pid' & product' & Hid' & Hfound' & Hstock').
    rewrite decrement_lookup in Hfound'.
    destruct (ps !! pid') as [product0 |] eqn:Hfound0; [| discriminate].
    injection Hfound' as <-.
    exists pid', product0. split; [exact Hid' |]. split; [exact Hfound0 |].
    simpl in *. lia.
Qed.

Lemma failsAfter_fails before item ps :
  failsAfter before item ps -> fails item (decrementAll before ps).
Proof.
  intros (pid & Hid & [Hnone | (product & Hfound & Hlow)]); exists pid; (split; [exact Hid |]).
  - left. rewrite decrementAll_lookup, Hnone. reflexivity.
  - right. eexists. rewrite decrementAll_lookup, Hfound. split; [reflexivity |].
    simpl. exact Hlow.
Qed.

(** While the items pass, the loop of POST /orders walks on with the
    catalog decremented item by item. *)
Lemma placeItems_passing before : forall rest ps sub acc,
  allPass before ps ->
  exists sub' acc',
    placeItems (before ++ rest) ps sub acc
    = placeItems rest (decrementAll before ps) sub' acc'.
Proof.
  induction before as [| item before IH]; intros rest ps sub acc Hpass.
  - exists sub, acc. reflexivity.
  - destruct Hpass as [(pid & product & Hid & Hfound & Hstock) Hrest].
    simpl. rewrite Hid, Hfound.
    destruct (stock product <? ri_quantity item) eqn:Hlt; [apply Z.ltb_lt in Hlt; lia |].
    assert (Hdec : decrement ps item
                   = <[pid := withStock product (stock product - ri_quantity item)]> ps).
    { unfold decrement. rewrite Hid.
      rewrite (alter_found _ pid product ps Hfound). reflexivity. }
    rewrite <- Hdec.
    change (decrementAll (item :: before) ps) with (decrementAll before (decrement ps item)).
    apply IH. exact Hrest.
Qed.

(** C4: on the direct order-placement path, when every item before
    position k finds its product with enough stock (for itself and for
    what the items before it took of the same product) and the item at
    position k does not (product missing, or stock too small), the request
    is rejected with the matching error (404, respectively 400), no order
    is persisted, and every product is left with the quantities of the
    items before position k taken off its stock: nothing is rolled back. *)
Theorem post_orders_partial_decrement
    out b st info shipTo before failing after :
  ord_customerInfo b = Some info ->
  ord_shippingAddress b = Some shipTo ->
  ord_items b = Some (before ++ failing :: after) ->
  passInTurn before (products st) ->
  failsAfter before failing (products st) ->
  let '(reply, st') := post_orders out b st in
  orders st' = orders st
  /\ carts st' = carts st
  /\ (forall pid product,
        products st !! pid = Some product ->
        exists product',
          products st' !! pid = Some product'
          /\ stock product' = stock product - requestedQty pid before
          /\ name product' = name product
          /\ price product' = price product
          /\ isActive product' = isActive product)
  /\ (forall pid, products st !! pid = None -> products st' !! pid = None)
  /\ ((exists pid,
          ri_productId failing = WellFormed pid
          /\ products st !! pid = None
          /\ reply = Rejected 404 (ProductNotFoundId (ri_productId failing)))
      \/ (exists pid product,
            ri_productId failing = WellFormed pid
            /\ products st !! pid = Some product
            /\ stock product - requestedQty pid before < ri_quantity failing
            /\ reply = Rejected 400 (InsufficientStockFor (name product)))).
Proof.
  intros Hinfo Haddr Hitems Hturn Hfail.
  pose proof (passInTurn_allPass _ _ Hturn) as Hpass.
  assert (Hrun : exists reply,
             placeItems (before ++ failing :: after) (products st) 0 []
             = (decrementAll before (products st), inl reply)
             /\ ((exists pid,
                     ri_productId failing = WellFormed pid
                     /\ products st !! pid = None
                     /\ reply = Rejected 404 (ProductNotFoundId (ri_productId failing)))
                 \/ (exists pid product,
                       ri_productId failing = WellFormed pid
                       /\ products st !! pid = Some product
                       /\ stock product - requestedQty pid before < ri_quantity failing
                       /\ reply = Rejected 400 (InsufficientStockFor (name product))))).
  { destruct (placeItems_passing before (failing :: after) (products st) 0 [] Hpass)
      as (sub' & acc' & ->).
    destruct Hfail as (pid & Hid & [Hnone | (product & Hfound & Hlow)]).
    - eexists. simpl. rewrite Hid, decrementAll_lookup, Hnone. split; [reflexivity |].
      left. exists pid. repeat split; assumption || reflexivity.
    - eexists. simpl. rewrite Hid, decrementAll_lookup, Hfound. simpl.
      destruct (stock product - requestedQty pid before <? ri_quantity failing) eqn:Hlt;
        [| apply Z.ltb_ge in Hlt; lia].
      split; [reflexivity |].
      right. exists pid, product. repeat split; assumption. }
  destruct Hrun as (reply & Hrun & Hreply).
  unfold post_orders. rewrite Hinfo, Hitems, Haddr.
  destruct (before ++ failing :: after) as [| first others] eqn:Hshape.
  { destruct before; discriminate. }
  rewrite Hrun. simpl.
  split; [reflexivity |]. split; [reflexivity |].
  split; [| split; [| exact Hreply]].
  - intros pid product Hfound. rewrite decrementAll_lookup, Hfound. simpl.
    eexists. split; [reflexivity |]. repeat split.
  - intros pid Hnone. rewrite decrementAll_lookup, Hnone. reflexivity.
Qed.

Lemma post_orders_partial_decrement_witness :
  let b := mkOrderBody None (Some ada) (Some [mkReqItem (WellFormed 1) 2;
                                              mkReqItem (WellFormed 2) 3;
                                              mkReqItem (WellFormed 1) 1])
                       (Some home) None None (Some "cod") None in
  let st := mkStore shelf [] [] in
  let '(reply, st') := post_orders noon b st in
  orders st' = orders st
  /\ carts st' = carts st
  /\ (forall pid product,
        products st !! pid = Some product ->
        exists product',
          products st' !! pid = Some product'
          /\ stock product' = stock product - requestedQty pid [mkReqItem (WellFormed 1) 2]
          /\ name product' = name product
          /\ price product' = price product
          /\ isActive product' = isActive product)
  /\ (forall pid, products st !! pid = None -> products st' !! pid = None)
  /\ ((exists pid,
          ri_productId (mkReqItem (WellFormed 2) 3) = WellFormed pid
          /\ products st !! pid = None
          /\ reply = Rejected 404 (ProductNotFoundId (WellFormed 2)))
      \/ (exists pid product,
            ri_productId (mkReqItem (WellFormed 2) 3) = WellFormed pid
            /\ products st !! pid = Some product
            /\ stock product - requestedQty pid [mkReqItem (WellFormed 1) 2] < 3
            /\ reply = Rejected 400 (InsufficientStockFor (name product)))).
Proof.
  intros b st.
  apply (post_orders_partial_decrement noon b st ada home
           [mkReqItem (WellFormed 1) 2] (mkReqItem (WellFormed 2) 3)
           [mkReqItem (WellFormed 1) 1]).
  - reflexivity.
  - reflexivity.
  - reflexivity.
  - intros j item Hj. destruct j as [| j]; [| destruct j; discriminate].
    injection Hj as <-. exists 1%nat, tea. repeat split. simpl. lia.
  - exists 2%nat. split; [reflexivity |]. right. exists cup.
    split; [reflexivity | simpl; lia].
Defined.

(** ** What the schema refuses *)

Lemma unpaid_not_listed : bool_decide ("unpaid" ∈ paymentStatuses) = false.
Proof.
  apply bool_decide_eq_false_2. unfold paymentStatuses. intros H.
  repeat (apply elem_of_cons in H as [H | H]; [discriminate |]).
  apply elem_of_nil in H. exact H.
Qed.

Lemma paid_not_listed : bool_decide ("paid" ∈ paymentStatuses) = false.
Proof.
  apply bool_decide_eq_false_2. unfold paymentStatuses. intros H.
  repeat (apply elem_of_cons in H as [H | H]; [discriminate |]).
  apply elem_of_nil in H. exact H.
Qed.

(** A document whose [paymentStatus] the enum does not have is refused,
    whatever else it holds. *)
Lemma orderValid_paymentStatus o :
  bool_decide (paymentStatus o ∈ paymentStatuses) = false -> orderValid o = false.
Proof.
  intros Hstatus. unfold orderValid. rewrite Hstatus.
  rewrite andb_false_r. reflexivity.
Qed.

(** The document either placement handler builds is refused: its
    [paymentStatus] is 'unpaid', and the paths [total], [subtotal],
    [shipping] and [contactEmail] the schema requires are not among the
    keys the handlers give. *)
Lemma placement_refused fields (os : list Order) :
  f_paymentStatus fields = "unpaid" ->
  saveOrder None (newOrder fields) os = None.
Proof.
  intros Hunpaid. unfold saveOrder.
  rewrite orderValid_paymentStatus; [reflexivity |].
  simpl. rewrite Hunpaid. exact unpaid_not_listed.
Qed.

(** The document either callback saves is refused: it has just been given
    the [paymentStatus] 'paid'. *)
Lemma settlement_refused now intent capture i o (os : list Order) :
  saveOrder (Some i) (paidByStripe now intent o) os = None
  /\ saveOrder (Some i) (paidByPaypal now capture o) os = None.
Proof.
  unfold saveOrder.
  rewrite !orderValid_paymentStatus by exact paid_not_listed.
  split; reflexivity.
Qed.

(** The loop of POST /orders keeps the ledger and the carts out of it, and
    an early reply of it is a rejection. *)
Lemma placeItems_early its : forall ps sub acc ps' reply,
  placeItems its ps sub acc = (ps', inl reply) -> succeeded reply = false.
Proof.
  induction its as [| item rest IH]; intros ps sub acc ps' reply Hrun; [discriminate |].
  simpl in Hrun.
  destruct (ri_productId item) as [pid | s]; [| injection Hrun as _ <-; reflexivity].
  destruct (ps !! pid) as [product |]; [| injection Hrun as _ <-; reflexivity].
  destruct (stock product <? ri_quantity item); [injection Hrun as _ <-; reflexivity |].
  apply (IH _ _ _ _ _ Hrun).
Qed.

Lemma priceItems_early its : forall ps sub acc reply,
  priceItems its ps sub acc = inl reply ->
  exists code m, reply = Rejected code m /\ (code = 500 \/ code = 404 \/ code = 400).
Proof.
  induction its as [| item rest IH]; intros ps sub acc reply Hrun; [discriminate |].
  simpl in Hrun.
  destruct (ri_productId item) as [pid | s]; [| injection Hrun as <-; eauto 6].
  destruct (ps !! pid) as [product |]; [| injection Hrun as <-; eauto 6].
  destruct (stock product <? ri_quantity item); [injection Hrun as <-; eauto 6 |].
  apply (IH _ _ _ _ Hrun).
Qed.

(** POST /orders never writes the ledger and never answers with success. *)
Lemma post_orders_ledger out b st :
  orders (post_orders out b st).2 = orders st
  /\ carts (post_orders out b st).2 = carts st
  /\ succeeded (post_orders out b st).1 = false.
Proof.
  unfold post_orders.
  destruct (ord_customerInfo b) as [info |]; [| repeat split].
  destruct (ord_items b) as [[| first others] |]; try (repeat split; fail).
  destruct (ord_shippingAddress b) as [shipTo |]; [| repeat split].
  destruct (placeItems (first :: others) (products st) 0 [])
    as [ps [early | [sub lines]]] eqn:Hloop.
  - simpl. repeat split. apply (placeItems_early _ _ _ _ _ _ Hloop).
  - rewrite placement_refused by reflexivity. repeat split.
Qed.

(** POST /orders/create-payment leaves the whole store as it was, and its
    reply is a rejection with status 400, 404 or 500. *)
Lemma create_payment_store out answer req st :
  (create_payment out answer req st).2 = st
  /\ exists code m,
       (create_payment out answer req st).1 = Rejected code m
       /\ (code = 500 \/ code = 404 \/ code = 400).
Proof.
  unfold create_payment.
  destruct (pay_items (body req)) as [[| first others] |]; try (split; eauto 7; fail).
  destruct (pay_shippingAddress (body req)) as [shipTo |]; [| split; eauto 7].
  destruct (truthy (pay_contactEmail (body req))) as [email |]; [| split; eauto 7].
  destruct (truthy (pay_paymentMethod (body req))) as [method |]; [| split; eauto 7].
  destruct (priceItems (first :: others) (products st) 0 []) as [early | [sub lines]] eqn:Hloop.
  - split; [reflexivity |]. apply (priceItems_early _ _ _ _ _ Hloop).
  - rewrite placement_refused by reflexivity. split; eauto 7.
Qed.


(** ** Payment reconciliation *)

Lemma findById_found i order (os : list Order) :
  os !! i = Some order -> findById (Some (WellFormed i)) os = Found i order.
Proof. intros H. simpl. rewrite H. reflexivity. Qed.

(** The handler of the card-processor callback never writes the store,
    whatever [constructEvent] hands it. *)
Lemma stripe_webhook_store out event st : (stripe_webhook out event st).2 = st.
Proof.
  unfold stripe_webhook.
  destruct event as [[session | id | type] |]; try reflexivity.
  destruct (findById (metadata_orderId session) (orders st)) as [i order | |];
    try reflexivity.
  rewrite (proj1 (settlement_refused (clock out) (payment_intent session) EmptyString
                    i order (orders st))).
  reflexivity.
Qed.

(** The wallet-processor callback never writes the store either. *)
Lemma paypal_success_store out capture orderId st :
  (paypal_success out capture orderId st).2 = st.
Proof.
  unfold paypal_success.
  destruct capture as [captureStatus id |]; [| reflexivity].
  destruct (bool_decide (captureStatus = "COMPLETED")); [| reflexivity].
  destruct (findById orderId (orders st)) as [i order | |]; try reflexivity.
  rewrite (proj2 (settlement_refused (clock out) None id i order (orders st))).
  reflexivity.
Qed.

(** Behind [express.json] the route's [express.raw] never reads the body:
    what reaches the handler is not the bytes. *)
Lemma parsers_leave_no_bytes d :
  match express_raw d (express_urlencoded d (express_json d (Passed Untouched false))) with
  | Passed b _ => b <> RawBuffer
  | ParserError => True
  end.
Proof.
  destruct d as [[ | | ] [ | ] [ | ] event]; vm_compute; try exact I; discriminate.
Qed.

(** Every request to the webhook route is answered with the handler's 400,
    or with the 500 of the error handler when a body parser refused it; the
    store stays as it was. *)
Lemma webhook_route_rejects out d st :
  webhook_route out d st = (WebhookError, st)
  \/ webhook_route out d st = (Rejected 500 InternalServerError, st).
Proof.
  unfold webhook_route. pose proof (parsers_leave_no_bytes d) as Hbody.
  destruct (express_raw d (express_urlencoded d (express_json d (Passed Untouched false))))
    as [body read |]; [| right; reflexivity].
  left. destruct body; [reflexivity | reflexivity | contradiction].
Qed.

(** A delivery as the processor sends it, application/json with a body that
    parses, is answered with the handler's 400. *)
Lemma webhook_route_json out d st :
  contentType d = Json -> hasBody d = true -> wellFormed d = true ->
  webhook_route out d st = (WebhookError, st).
Proof.
  destruct d as [type body ok event]. simpl. intros -> -> ->. reflexivity.
Qed.

(** C1: the checkout-completed callback settles nothing, so its
    reconciliation does not decrement stock once. For an order of the
    ledger, the handler assigns [paymentStatus = 'paid'], a value the
    schema's enum does not list: [order.save()] throws before the stock loop,
    outside any [try], also where the handler is given the verified event.
    As the application mounts the route the handler is not given it:
    [express.json] has read the body, [constructEvent] throws, and each of
    the two deliveries is answered without [{ received: true }] and leaves
    the order and every stock as they were. *)
Theorem stripe_webhook_settles_nothing out1 out2 session d st i order :
  metadata_orderId session = Some (WellFormed i) ->
  orders st !! i = Some order ->
  signedEvent d = Some (CheckoutSessionCompleted session) ->
  stripe_webhook out1 (signedEvent d) st = (Threw, st)
  /\ let '(reply1, st1) := webhook_route out1 d st in
     let '(reply2, st2) := webhook_route out2 d st1 in
     reply1 <> Received /\ reply2 <> Received
     /\ (contentType d = Json -> hasBody d = true -> wellFormed d = true ->
         reply1 = WebhookError /\ reply2 = WebhookError)
     /\ orders st1 !! i = Some order /\ orders st2 !! i = Some order
     /\ forall pid, products st1 !! pid = products st !! pid
                    /\ products st2 !! pid = products st !! pid.
Proof.
  intros Hid Hfound Hsigned. split.
  - rewrite Hsigned. unfold stripe_webhook.
    rewrite Hid, (findById_found _ _ _ Hfound).
    rewrite (proj1 (settlement_refused (clock out1) (payment_intent session) EmptyString
                      i order (orders st))).
    reflexivity.
  - assert (Hone : forall out,
               webhook_route out d st = ((webhook_route out d st).1, st)
               /\ (webhook_route out d st).1 <> Received
               /\ (contentType d = Json -> hasBody d = true -> wellFormed d = true ->
                   (webhook_route out d st).1 = WebhookError)).
    { intros out. split; [| split].
      - destruct (webhook_route_rejects out d st) as [-> | ->]; reflexivity.
      - destruct (webhook_route_rejects out d st) as [-> | ->]; discriminate.
      - intros Hj Hb Hw. rewrite (webhook_route_json out d st Hj Hb Hw). reflexivity. }
    destruct (Hone out1) as (-> & Hr1 & Hj1).
    destruct (Hone out2) as (-> & Hr2 & Hj2).
    split; [exact Hr1 |]. split; [exact Hr2 |].
    split; [intros Hj Hb Hw; split; [apply Hj1 | apply Hj2]; assumption |].
    split; [exact Hfound |]. split; [exact Hfound |].
    intros pid. split; reflexivity.
Qed.

Lemma stripe_webhook_settles_nothing_witness :
  let st := mkStore shelf [] [teaOrder] in
  stripe_webhook noon (signedEvent teaDelivery) st = (Threw, st)
  /\ let '(reply1, st1) := webhook_route noon teaDelivery st in
     let '(reply2, st2) := webhook_route noon teaDelivery st1 in
     reply1 <> Received /\ reply2 <> Received
     /\ (contentType teaDelivery = Json -> hasBody teaDelivery = true ->
         wellFormed teaDelivery = true ->
         reply1 = WebhookError /\ reply2 = WebhookError)
     /\ orders st1 !! 0%nat = Some teaOrder /\ orders st2 !! 0%nat = Some teaOrder
     /\ forall pid, products st1 !! pid = products st !! pid
                    /\ products st2 !! pid = products st !! pid.
Proof.
  intros st.
  apply (stripe_webhook_settles_nothing noon noon teaPaid teaDelivery st 0%nat teaOrder).
  - reflexivity.
  - reflexivity.
  - reflexivity.
Defined.

(** C10: a checkout-completed callback whose metadata names an order that
    is not in the ledger changes no order, no stock and no cart, but it is
    not answered with [{ received: true }]. The handler's [if (order)] guard
    would fall through to that reply were it given the verified event; as the
    route is mounted [constructEvent] is handed the body [express.json] has
    parsed and throws, and the delivery is answered with status 400. *)
Theorem stripe_webhook_route_unknown_order out session d st i :
  signedEvent d = Some (CheckoutSessionCompleted session) ->
  metadata_orderId session = Some (WellFormed i) ->
  orders st !! i = None ->
  stripe_webhook out (signedEvent d) st = (Received, st)
  /\ let '(reply, st') := webhook_route out d st in
     st' = st
     /\ reply <> Received
     /\ (contentType d = Json -> hasBody d = true -> wellFormed d = true ->
         reply = WebhookError).
Proof.
  intros Hsigned Hid Hnone. split.
  - rewrite Hsigned. unfold stripe_webhook, findById. rewrite Hid, Hnone. reflexivity.
  - pose proof (webhook_route_json out d st) as Hjson.
    destruct (webhook_route_rejects out d st) as [Hr | Hr]; rewrite Hr in *.
    + repeat split. discriminate.
    + split; [reflexivity |]. split; [discriminate |].
      intros Hj Hb Hw. specialize (Hjson Hj Hb Hw). discriminate.
Qed.

Lemma stripe_webhook_route_unknown_order_witness :
  let st := mkStore shelf [] [teaOrder] in
  let d := mkDelivery Json true true
             (Some (CheckoutSessionCompleted
                      (mkCheckoutSession "cs_9" (Some (WellFormed 9)) (Some "pi_9")))) in
  stripe_webhook noon (signedEvent d) st = (Received, st)
  /\ let '(reply, st') := webhook_route noon d st in
     st' = st
     /\ reply <> Received
     /\ (contentType d = Json -> hasBody d = true -> wellFormed d = true ->
         reply = WebhookError).
Proof.
  intros st d.
  apply (stripe_webhook_route_unknown_order noon
           (mkCheckoutSession "cs_9" (Some (WellFormed 9)) (Some "pi_9")) d st 9%nat).
  - reflexivity.
  - reflexivity.
  - reflexivity.
Defined.

(** C8: when the capture request of the wallet-processor redirect callback
    returns a status other than "COMPLETED", the browser is redirected to
    the failure destination and the store is left as it was: every order
    keeps its payment status and its order status (pending and pending for
    an order awaiting payment), no stock changes and no cart is cleared. *)
Theorem paypal_success_not_completed out captureStatus captureId orderId st :
  captureStatus <> "COMPLETED" ->
  let '(reply, st') :=
    paypal_success out (Captured captureStatus captureId) orderId st in
  reply = Redirected PaymentFailedPage
  /\ st' = st
  /\ (forall i order,
        orders st !! i = Some order ->
        exists order',
          orders st' !! i = Some order'
          /\ paymentStatus order' = paymentStatus order
          /\ orderStatus order' = orderStatus order)
  /\ products st' = products st
  /\ carts st' = carts st.
Proof.
  intros Hstatus. unfold paypal_success.
  rewrite bool_decide_eq_false_2 by exact Hstatus.
  repeat split.
  intros i order Hfound. exists order. repeat split; assumption.
Qed.

Lemma paypal_success_not_completed_witness :
  let st := mkStore shelf [] [teaOrder] in
  let '(reply, st') :=
    paypal_success noon (Captured "PENDING" "cap_1") (Some (WellFormed 0)) st in
  reply = Redirected PaymentFailedPage
  /\ st' = st
  /\ (forall i order,
        orders st !! i = Some order ->
        exists order',
          orders st' !! i = Some order'
          /\ paymentStatus order' = paymentStatus order
          /\ orderStatus order' = orderStatus order)
  /\ products st' = products st
  /\ carts st' = carts st.
Proof.
  intros st.
  apply (paypal_success_not_completed noon "PENDING" "cap_1" (Some (WellFormed 0)) st).
  discriminate.
Defined.

(** ** DELETE /cart/remove *)

(** No application-level middleware gives a request a session identity. *)
Lemma incoming_anonymous {B} (b : B) cookie :
  session_userId (incoming b cookie) = None
  /\ user_id (incoming b cookie) = None
  /\ sessionID (incoming b cookie) = None.
Proof. repeat split. Qed.

(** [ensureGuestSession] writes [req.sessionId] only. *)
Lemma ensureGuestSession_identity {B} (bodyUser : B -> option RawId) stamp (req : Req B) :
  session_userId (ensureGuestSession bodyUser stamp req) = session_userId req
  /\ user_id (ensureGuestSession bodyUser stamp req) = user_id req
  /\ sessionID (ensureGuestSession bodyUser stamp req) = sessionID req.
Proof. unfold ensureGuestSession. destruct (bodyUser (body req)); repeat split. Qed.

Lemma cart_remove_needs_session now (req : Req RemoveBody) st :
  session_userId req = None -> user_id req = None -> sessionID req = None ->
  cart_remove now req st = (Rejected 400 NoActiveSession, st).
Proof.
  intros Hs Hu Hid. unfold cart_remove, sessionIdentity. rewrite Hs, Hu, Hid. reflexivity.
Qed.

(** C9: every DELETE /cart/remove request of a guest, whose identity is the
    [guestSessionId] cookie, is rejected with 400 'No active session found'
    and the store is unchanged: the handler reads [req.session?.userId],
    [req.user?._id] and [req.sessionID], which no middleware of the
    application sets; the same holds had [ensureGuestSession] run on the
    request, since it sets [req.sessionId]. *)
Theorem cart_remove_guest_rejected now (b : RemoveBody) (cookie : option string) stamp st :
  cart_remove now (incoming b cookie) st = (Rejected 400 NoActiveSession, st)
  /\ cart_remove now (ensureGuestSession (fun _ => None) stamp (incoming b cookie)) st
     = (Rejected 400 NoActiveSession, st).
Proof.
  destruct (incoming_anonymous b cookie) as (Hs & Hu & Hid).
  split.
  - apply cart_remove_needs_session; assumption.
  - destruct (ensureGuestSession_identity (fun _ : RemoveBody => None) stamp (incoming b cookie))
      as (Hs' & Hu' & Hid').
    apply cart_remove_needs_session; congruence.
Qed.

(** ** The gate *)

Lemma gate_replied_stays e w w' r key timedOut :
  Gate.fire e w = Some w' ->
  Gate.ops w !! r = Some (Gate.mkOp key (Gate.Replied timedOut)) ->
  Gate.ops w' !! r = Some (Gate.mkOp key (Gate.Replied timedOut)).
Proof.
  intros Hfire Hr.
  assert (Hkeep : forall r0 op,
             Gate.ops w !! r0 = Some op ->
             (forall b, op <> Gate.mkOp (Gate.lockKey op) (Gate.Replied b)) ->
             forall op', <[r0 := op']> (Gate.ops w) !! r
                         = Some (Gate.mkOp key (Gate.Replied timedOut))).
  { intros r0 op H0 Hphase op'.
    destruct (decide (r0 = r)) as [-> | Hne].
    - rewrite Hr in H0. injection H0 as <-. exfalso. apply (Hphase timedOut). reflexivity.
    - rewrite list_lookup_insert_ne by assumption. exact Hr. }
  destruct e as [ms | r0 | r0 | r0]; simpl in Hfire.
  - destruct (0 <=? ms); [| discriminate]. injection Hfire as <-. exact Hr.
  - destruct (Gate.ops w !! r0) as [[k [| s t | | b]] |] eqn:H0; try discriminate.
    injection Hfire as <-. unfold Gate.attempt.
    destruct (Gate.acquireLock k (Gate.now w) (Gate.now w) (Gate.cartLocks w));
      simpl; apply (Hkeep r0 _ H0); intros b; discriminate.
  - destruct (Gate.ops w !! r0) as [[k [| s t | | b]] |] eqn:H0; try discriminate.
    destruct (t <=? Gate.now w); [| discriminate].
    injection Hfire as <-. unfold Gate.attempt.
    destruct (Gate.acquireLock k s (Gate.now w) (Gate.cartLocks w));
      simpl; apply (Hkeep r0 _ H0); intros b; discriminate.
  - destruct (Gate.ops w !! r0) as [[k [| s t | | b]] |] eqn:H0; try discriminate.
    injection Hfire as <-. simpl. apply (Hkeep r0 _ H0). intros b; discriminate.
Qed.

Lemma gate_timeout_stays schedule : forall w w' r key,
  Gate.run schedule w = Some w' ->
  Gate.ops w !! r = Some (Gate.mkOp key (Gate.Replied true)) ->
  Gate.ops w' !! r = Some (Gate.mkOp key (Gate.Replied true)).
Proof.
  induction schedule as [| e rest IH]; intros w w' r key Hrun Hr.
  - injection Hrun as <-. exact Hr.
  - simpl in Hrun. destruct (Gate.fire e w) as [w1 |] eqn:Hfire; [| discriminate].
    apply (IH w1 w' r key Hrun). apply (gate_replied_stays e w w1 r key true Hfire Hr).
Qed.

(** A request that takes the key while nobody is in the body for it. *)
Lemma gate_take_key w r key :
  key ∉ Gate.cartLocks w ->
  Gate.covered w /\ Gate.exclusive w ->
  let w' := Gate.mkWorld (Gate.now w) ({[key]} ∪ Gate.cartLocks w)
                         (<[r := Gate.mkOp key Gate.InBody]> (Gate.ops w)) in
  Gate.covered w' /\ Gate.exclusive w'.
Proof.
  intros Hfree [Hcov Hexc] w'. unfold Gate.covered, Gate.exclusive, Gate.holds in *.
  simpl. split.
  - intros r1 k H1. apply list_lookup_insert_Some in H1.
    destruct H1 as [(_ & Heq & _) | (_ & H1)].
    + injection Heq as <-. set_solver.
    + apply Hcov in H1. set_solver.
  - intros r1 r2 k H1 H2.
    apply list_lookup_insert_Some in H1. apply list_lookup_insert_Some in H2.
    destruct H1 as [(<- & Heq1 & _) | (Hne1 & H1)];
      destruct H2 as [(<- & Heq2 & _) | (Hne2 & H2)].
    + reflexivity.
    + injection Heq1 as <-. apply Hcov in H2. contradiction.
    + injection Heq2 as <-. apply Hcov in H1. contradiction.
    + apply (Hexc _ _ _ H1 H2).
Qed.

(** A request that moves to a phase outside the body, the locks untouched. *)
Lemma gate_step_aside w r op :
  Gate.phase op <> Gate.InBody ->
  (forall key, ~ Gate.holds w r key) ->
  Gate.covered w /\ Gate.exclusive w ->
  let w' := Gate.mkWorld (Gate.now w) (Gate.cartLocks w) (<[r := op]> (Gate.ops w)) in
  Gate.covered w' /\ Gate.exclusive w'.
Proof.
  intros Hout Hnot [Hcov Hexc] w'. unfold Gate.covered, Gate.exclusive, Gate.holds in *.
  simpl.
  assert (Hold : forall r1 k,
             <[r := op]> (Gate.ops w) !! r1 = Some (Gate.mkOp k Gate.InBody) ->
             Gate.ops w !! r1 = Some (Gate.mkOp k Gate.InBody)).
  { intros r1 k H1. apply list_lookup_insert_Some in H1.
    destruct H1 as [(_ & Heq & _) | (_ & H1)]; [| exact H1].
    subst op. exfalso. apply Hout. reflexivity. }
  split.
  - intros r1 k H1. apply (Hcov r1 k (Hold _ _ H1)).
  - intros r1 r2 k H1 H2. apply (Hexc r1 r2 k (Hold _ _ H1) (Hold _ _ H2)).
Qed.

Lemma gate_attempt_safe w r key startTime :
  (forall k, ~ Gate.holds w r k) ->
  Gate.covered w /\ Gate.exclusive w ->
  Gate.timeoutFree (Gate.attempt r key startTime w) ->
  (r < length (Gate.ops w))%nat ->
  Gate.covered (Gate.attempt r key startTime w)
  /\ Gate.exclusive (Gate.attempt r key startTime w).
Proof.
  intros Hnot Hinv Hfree Hlen. unfold Gate.attempt, Gate.acquireLock in *.
  destruct (decide (key ∈ Gate.cartLocks w)) as [Hheld | Hopen].
  - destruct (Gate.maxWait <? Gate.now w - startTime).
    + exfalso. apply (Hfree r key). simpl.
      apply list_lookup_insert_eq. exact Hlen.
    + apply gate_step_aside; [discriminate | exact Hnot | exact Hinv].
  - apply gate_take_key; assumption.
Qed.

Lemma gate_fire_safe e w w' :
  Gate.fire e w = Some w' ->
  Gate.covered w /\ Gate.exclusive w ->
  Gate.timeoutFree w' ->
  Gate.covered w' /\ Gate.exclusive w'.
Proof.
  intros Hfire Hinv Hfree.
  destruct e as [ms | r | r | r]; simpl in Hfire.
  - destruct (0 <=? ms); [| discriminate]. injection Hfire as <-. exact Hinv.
  - destruct (Gate.ops w !! r) as [[k [| s t | | b]] |] eqn:Hr; try discriminate.
    injection Hfire as <-. apply gate_attempt_safe; try assumption.
    + intros k' Hk. unfold Gate.holds in Hk. congruence.
    + apply lookup_lt_Some in Hr. exact Hr.
  - destruct (Gate.ops w !! r) as [[k [| s t | | b]] |] eqn:Hr; try discriminate.
    destruct (t <=? Gate.now w); [| discriminate].
    injection Hfire as <-. apply gate_attempt_safe; try assumption.
    + intros k' Hk. unfold Gate.holds in Hk. congruence.
    + apply lookup_lt_Some in Hr. exact Hr.
  - destruct (Gate.ops w !! r) as [[k [| s t | | b]] |] eqn:Hr; try discriminate.
    injection Hfire as <-. destruct Hinv as [Hcov Hexc].
    unfold Gate.covered, Gate.exclusive, Gate.holds, Gate.releaseLock in *. simpl.
    assert (Hold : forall r1 k1,
               <[r := Gate.mkOp k (Gate.Replied false)]> (Gate.ops w) !! r1
               = Some (Gate.mkOp k1 Gate.InBody) ->
               r <> r1 /\ Gate.ops w !! r1 = Some (Gate.mkOp k1 Gate.InBody)).
    { intros r1 k1 H1. apply list_lookup_insert_Some in H1.
      destruct H1 as [(_ & Heq & _) | H1]; [discriminate | exact H1]. }
    split.
    + intros r1 k1 H1. destruct (Hold _ _ H1) as [Hne H1'].
      assert (k1 <> k).
      { intros ->. apply Hne. apply (Hexc r r1 k Hr H1'). }
      apply elem_of_difference. split; [apply (Hcov _ _ H1') |].
      rewrite elem_of_singleton. assumption.
    + intros r1 r2 k1 H1 H2.
      destruct (Hold _ _ H1) as [_ H1']. destruct (Hold _ _ H2) as [_ H2'].
      apply (Hexc r1 r2 k1 H1' H2').
Qed.

(** As long as no request has run into the lock timeout, the gate keeps
    the requests apart: along every schedule from a fresh process, at most
    one request is in the body for a key. *)
Lemma gate_exclusive_without_timeout schedule : forall w w',
  Gate.run schedule w = Some w' ->
  Gate.covered w /\ Gate.exclusive w ->
  Gate.timeoutFree w' ->
  Gate.covered w' /\ Gate.exclusive w'.
Proof.
  induction schedule as [| e rest IH]; intros w w' Hrun Hinv Hfree.
  - injection Hrun as <-. exact Hinv.
  - simpl in Hrun. destruct (Gate.fire e w) as [w1 |] eqn:Hfire; [| discriminate].
    apply (IH w1 w' Hrun); [| exact Hfree].
    apply (gate_fire_safe e w w1 Hfire Hinv).
    intros r key Hr. apply (Hfree r key).
    apply (gate_timeout_stays rest w1 w' r key Hrun Hr).
Qed.

Lemma gate_fresh_safe keys : Gate.covered (Gate.fresh keys) /\ Gate.exclusive (Gate.fresh keys).
Proof.
  assert (Hnone : forall r key, ~ Gate.holds (Gate.fresh keys) r key).
  { intros r key. unfold Gate.holds, Gate.fresh. simpl.
    rewrite list_lookup_fmap. destruct (keys !! r); simpl; congruence. }
  split.
  - intros r key H. destruct (Hnone r key H).
  - intros r1 r2 key H. destruct (Hnone r1 key H).
Qed.

(** C2: the gate does not keep the requests apart once an acquire attempt
    times out. Three POST /cart/add requests share the key "u": request 0
    takes the key; request 1 polls, times out after more than 5000 ms, and
    its [finally] block deletes the key that request 0 still holds; request
    2 then finds the key free. Requests 0 and 2 are in the body together. *)
Theorem gate_timeout_breaks_exclusion :
  exists w,
    Gate.run [Gate.Enter 0; Gate.Enter 1; Gate.Tick 5001; Gate.Wake 1; Gate.Enter 2]
             (Gate.fresh ["u"; "u"; "u"])
    = Some w
    /\ Gate.ops w !! 1%nat = Some (Gate.mkOp "u" (Gate.Replied true))
    /\ Gate.holds w 0 "u" /\ Gate.holds w 2 "u"
    /\ ~ Gate.exclusive w.
Proof.
  eexists. split; [vm_compute; reflexivity |].
  split; [reflexivity |].
  split; [reflexivity |].
  split; [reflexivity |].
  intros Hexc. specialize (Hexc 0%nat 2%nat "u" eq_refl eq_refl). discriminate.
Qed.

(** ** Carts *)

Lemma cartValid_spec its :
  cartValid its = true
  <-> Forall (fun it => 1 <= quantity it) its /\ NoDup (productId <$> its).
Proof.
  unfold cartValid. rewrite andb_true_iff, bool_decide_eq_true.
  rewrite forallb_forall, Forall_forall.
  split; intros [Hq Hd]; (split; [| exact Hd]); intros it Hin.
  - apply Z.leb_le. apply Hq. apply list_elem_of_In. exact Hin.
  - apply Z.leb_le. apply Hq. apply list_elem_of_In. exact Hin.
Qed.

(** In a cart without duplicates the line of a product is the one
    [findIndex] stops at. *)
Lemma find_line its k line :
  NoDup (productId <$> its) -> its !! k = Some line ->
  list_find (fun it => productId it = productId line) its = Some (k, line).
Proof.
  intros Hd Hk. apply list_find_Some. split; [exact Hk |]. split; [reflexivity |].
  intros j other Hj Hlt Hsame.
  assert (j = k); [| lia].
  apply (NoDup_lookup _ j k (productId line) Hd).
  - rewrite list_lookup_fmap, Hj. simpl. congruence.
  - rewrite list_lookup_fmap, Hk. reflexivity.
Qed.

Lemma findIndex_line its k line :
  NoDup (productId <$> its) -> its !! k = Some line ->
  findIndex (productId line) its = Some k.
Proof. intros Hd Hk. unfold findIndex. rewrite (find_line its k line Hd Hk). reflexivity. Qed.

(** Rewriting the quantity of a line keeps the cart within its schema. *)
Lemma cartValid_requantify its k line q t :
  cartValid its = true -> its !! k = Some line -> 1 <= q ->
  cartValid (<[k := mkCartItem (productId line) q t]> its) = true.
Proof.
  rewrite !cartValid_spec. intros [Hq Hd] Hk Hone. split.
  - apply Forall_insert; [exact Hq | exact Hone].
  - rewrite list_fmap_insert. simpl.
    rewrite list_insert_id; [exact Hd |].
    rewrite list_lookup_fmap, Hk. reflexivity.
Qed.

Lemma alter_as_insert {A} (f : A -> A) (l : list A) k x :
  l !! k = Some x -> alter f k l = <[k := f x]> l.
Proof.
  revert k. induction l as [| y l IH]; intros [| k] Hk; try discriminate.
  - injection Hk as ->. reflexivity.
  - simpl. f_equal. apply IH. exact Hk.
Qed.

Lemma cartValid_delete its k :
  cartValid its = true -> cartValid (delete k its) = true.
Proof.
  rewrite !cartValid_spec. intros [Hq Hd]. split.
  - apply Forall_delete. exact Hq.
  - rewrite list_fmap_delete.
    apply (sublist_NoDup (delete k (productId <$> its)) (productId <$> its));
      [exact Hd | apply sublist_delete].
Qed.

Lemma filter_absent pid (its : list CartItem) :
  pid ∉ productId <$> its -> filter (fun it => productId it <> pid) its = its.
Proof.
  induction its as [| it rest IH]; intros Hfresh; [reflexivity |].
  rewrite fmap_cons in Hfresh. apply not_elem_of_cons in Hfresh as [Hne Hrest].
  rewrite filter_cons_True by congruence. f_equal. apply IH. exact Hrest.
Qed.

(** Without duplicates, [splice(itemIndex, 1)] at the line of a product is
    the [filter] of DELETE /cart/remove. *)
Lemma delete_line_is_filter (its : list CartItem) : forall k line,
  NoDup (productId <$> its) -> its !! k = Some line ->
  delete k its = filter (fun it => productId it <> productId line) its.
Proof.
  induction its as [| it rest IH]; intros k line Hd Hk; [discriminate |].
  rewrite fmap_cons in Hd. apply NoDup_cons in Hd as [Hfresh Hd].
  destruct k as [| k]; simpl in Hk.
  - injection Hk as ->. simpl.
    rewrite filter_cons_False by (intros H; apply H; reflexivity).
    symmetry. apply filter_absent. exact Hfresh.
  - simpl. rewrite filter_cons_True.
    + f_equal. apply (IH k line Hd Hk).
    + intros Hsame. apply Hfresh. rewrite Hsame.
      apply list_elem_of_fmap_2. apply list_elem_of_lookup. exists k. exact Hk.
Qed.

Lemma saveCart_valid now slot c cs :
  cartValid (items c) = true ->
  saveCart now slot c cs
  = Some (match slot with
          | Some i => <[i := mkCart (userId c) (sessionId c) (items c) now]> cs
          | None => cs ++ [mkCart (userId c) (sessionId c) (items c) now]
          end).
Proof. intros Hv. unfold saveCart. rewrite Hv. reflexivity. Qed.

Lemma saveCart_invalid now slot c cs :
  cartValid (items c) = false -> saveCart now slot c cs = None.
Proof. intros Hv. unfold saveCart. rewrite Hv. reflexivity. Qed.

(** C5 (as the code has it): for a cart within its schema that already
    holds quantity p of an existing product with stock s, and a request to
    add q of it. A product that is not active is refused with status 400,
    the store unchanged, whatever p, q and s. For an active product the
    request succeeds only if p + q <= s, and when p + q >= 1, as for every
    q >= 1, it succeeds if and only if p + q <= s; when p + q > s it is
    rejected with status 400 and the store is unchanged; when it succeeds
    the line's quantity becomes p + q, the other lines are untouched and the
    cart still has one line per product. *)
Theorem cart_add_existing_line
    now (req : Req AddBody) st query pid product slot cart k line q :
  cartIdentity (add_userId (body req)) req = Known query ->
  add_productId (body req) = Some (WellFormed pid) ->
  default 1 (add_quantity (body req)) = q ->
  products st !! pid = Some product ->
  findOne query (carts st) = Some (slot, cart) ->
  cartValid (items cart) = true ->
  items cart !! k = Some line ->
  productId line = pid ->
  let p := quantity line in
  let s := stock product in
  let '(reply, st') := cart_add now req st in
  (isActive product = false ->
   reply = Rejected 400 ProductNotAvailable /\ st' = st)
  /\ (isActive product = true ->
      (succeeded reply = true -> p + q <= s)
      /\ (1 <= p + q -> (succeeded reply = true <-> p + q <= s))
      /\ (1 <= q -> (succeeded reply = true <-> p + q <= s))
      /\ (s < p + q -> reply = Rejected 400 (OnlyInStock s) /\ st' = st)
      /\ (1 <= p + q -> p + q <= s ->
          let items' := <[k := mkCartItem pid (p + q) now]> (items cart) in
          reply = CartReply CartQuantityUpdated items' (itemCount items')
          /\ st' = mkStore (products st)
                     (<[slot := mkCart (userId cart) (sessionId cart) items' now]> (carts st))
                     (orders st)
          /\ items' !! k = Some (mkCartItem pid (p + q) now)
          /\ (forall j, j <> k -> items' !! j = items cart !! j)
          /\ NoDup (productId <$> items'))).
Proof.
  intros Hwho Hpid Hq Hproduct Hcart Hvalid Hline Hsame p s.
  assert (Hp : 1 <= p).
  { apply cartValid_spec in Hvalid as [Hall _].
    rewrite Forall_forall in Hall. apply (Hall line).
    apply list_elem_of_lookup. exists k. exact Hline. }
  assert (Hnodup : NoDup (productId <$> items cart)).
  { apply cartValid_spec in Hvalid as [_ Hd]. exact Hd. }
  assert (Hfind : list_find (fun it => productId it = pid) (items cart) = Some (k, line)).
  { rewrite <- Hsame. apply find_line; assumption. }
  unfold cart_add. rewrite Hwho, Hpid, Hq, Hproduct.
  destruct (isActive product) eqn:Hactive; simpl;
    [| split; [intros _; split; reflexivity | discriminate]].
  destruct (stock product <? q) eqn:Hfirst.
  { apply Z.ltb_lt in Hfirst. fold s in Hfirst.
    split; [discriminate |]. intros _.
    split; [discriminate |].
    split; [intros _; split; [discriminate | lia] |].
    split; [intros _; split; [discriminate | lia] |].
    split; [intros _; split; reflexivity | lia]. }
  apply Z.ltb_ge in Hfirst.
  rewrite Hcart, Hfind. fold p.
  destruct (stock product <? p + q) eqn:Hsecond.
  { apply Z.ltb_lt in Hsecond. fold s in Hsecond.
    split; [discriminate |]. intros _.
    split; [discriminate |].
    split; [intros _; split; [discriminate | lia] |].
    split; [intros _; split; [discriminate | lia] |].
    split; [intros _; split; reflexivity | lia]. }
  apply Z.ltb_ge in Hsecond. fold s in Hsecond.
  assert (Hgood : 1 <= p + q ->
            saveCart now (Some slot)
              (mkCart (userId cart) (sessionId cart)
                 (<[k := mkCartItem (productId line) (p + q) now]> (items cart)) now)
              (carts st)
            = Some (<[slot := mkCart (userId cart) (sessionId cart)
                                (<[k := mkCartItem (productId line) (p + q) now]> (items cart))
                                now]> (carts st))
            /\ NoDup (productId <$> <[k := mkCartItem (productId line) (p + q) now]> (items cart))).
  { intros Hone.
    assert (Hnew : cartValid (<[k := mkCartItem (productId line) (p + q) now]> (items cart))
                   = true).
    { apply cartValid_requantify; assumption. }
    split; [apply (saveCart_valid now (Some slot)); exact Hnew |].
    apply cartValid_spec in Hnew as [_ Hd]. exact Hd. }
  destruct (saveCart now (Some slot)
              (mkCart (userId cart) (sessionId cart)
                 (<[k := mkCartItem (productId line) (p + q) now]> (items cart)) now)
              (carts st)) as [carts' |] eqn:Hsave.
  - split; [discriminate |]. intros _.
    split; [intros _; exact Hsecond |].
    split; [intros _; split; [intros _; exact Hsecond | reflexivity] |].
    split; [intros _; split; [intros _; exact Hsecond | reflexivity] |].
    split; [lia |].
    intros Hone _. destruct (Hgood Hone) as [Hsaved Hd].
    injection Hsaved as ->. rewrite Hsame in *.
    split; [reflexivity |]. split; [reflexivity |].
    split; [apply list_lookup_insert_eq; apply lookup_lt_Some in Hline; exact Hline |].
    split; [intros j Hj; apply list_lookup_insert_ne; congruence | exact Hd].
  - split; [discriminate |]. intros _.
    split; [discriminate |].
    split; [intros Hone; destruct (Hgood Hone) as [Hsaved _]; discriminate |].
    split; [intros Hone; assert (Hsum : 1 <= p + q) by lia;
            destruct (Hgood Hsum) as [Hsaved _]; discriminate |].
    split; [lia |].
    intros Hone _. destruct (Hgood Hone) as [Hsaved _]. discriminate.
Qed.

Lemma cart_add_existing_line_witness :
  let st := mkStore shelf [guestCart] [] in
  let '(reply, st') := cart_add 7 (guestAdd 1 2) st in
  (isActive tea = false ->
   reply = Rejected 400 ProductNotAvailable /\ st' = st)
  /\ (isActive tea = true ->
      (succeeded reply = true -> 3 + 2 <= 5)
      /\ (1 <= 3 + 2 -> (succeeded reply = true <-> 3 + 2 <= 5))
      /\ (1 <= 2 -> (succeeded reply = true <-> 3 + 2 <= 5))
      /\ (5 < 3 + 2 -> reply = Rejected 400 (OnlyInStock 5) /\ st' = st)
      /\ (1 <= 3 + 2 -> 3 + 2 <= 5 ->
          let items' := <[1%nat := mkCartItem 1 (3 + 2) 7]> (items guestCart) in
          reply = CartReply CartQuantityUpdated items' (itemCount items')
          /\ st' = mkStore (products st)
                     (<[0%nat := mkCart (userId guestCart) (sessionId guestCart) items' 7]>
                        (carts st))
                     (orders st)
          /\ items' !! 1%nat = Some (mkCartItem 1 (3 + 2) 7)
          /\ (forall j, j <> 1%nat -> items' !! j = items guestCart !! j)
          /\ NoDup (productId <$> items'))).
Proof.
  intros st.
  apply (cart_add_existing_line 7 (guestAdd 1 2) st (BySession "g1") 1%nat tea
           0%nat guestCart 1%nat (mkCartItem 1 3 0) 2).
  - reflexivity.
  - reflexivity.
  - reflexivity.
  - reflexivity.
  - reflexivity.
  - reflexivity.
  - reflexivity.
  - reflexivity.
Defined.

(** C5, the claim as stated fails: adding one unit of a product the cart
    holds one unit of, with five in stock, is rejected when the product is
    not active, although 1 + 1 <= 5. *)
Lemma cart_add_stock_rule_counterexample :
  let st := mkStore shelf [guestCart] [] in
  cart_add 7 (guestAdd 3 1) st = (Rejected 400 ProductNotAvailable, st)
  /\ cartQty 3%nat (items guestCart) = 1
  /\ stock retired = 5
  /\ 1 + 1 <= stock retired.
Proof.
  repeat split; try reflexivity; vm_compute; discriminate.
Qed.

(** C7: PUT /cart/update. A negative or non-integer quantity is rejected
    with a 400 validation error and the store is unchanged, whatever else
    the request holds. For a request whose identity and product resolve to a
    line of a cart within its schema: quantity zero removes that line, with
    the reply and the store DELETE /cart/remove gives for the same product
    and cart; a positive quantity is checked against the product's current
    stock, overwrites the line's quantity when it does not exceed the stock,
    and is rejected with status 400, the store unchanged, when it does. *)
Theorem cart_update_quantity_rules now (req : Req UpdateBody) st :
  ((upd_quantity (body req) = Some NotInteger
    \/ exists z, upd_quantity (body req) = Some (Integer z) /\ z < 0) ->
   exists m, cart_update now req st = (Rejected 400 m, st))
  /\ (forall query pid slot cart k line,
        cartIdentity (upd_userId (body req)) req = Known query ->
        upd_productId (body req) = Some (WellFormed pid) ->
        findOne query (carts st) = Some (slot, cart) ->
        cartValid (items cart) = true ->
        items cart !! k = Some line ->
        productId line = pid ->
        (upd_quantity (body req) = Some (Integer 0) ->
         let items' := filter (fun it => productId it <> pid) (items cart) in
         cart_update now req st
         = (CartReply ItemRemoved items' (itemCount items'),
            mkStore (products st)
                    (<[slot := mkCart (userId cart) (sessionId cart) items' now]> (carts st))
                    (orders st))
         /\ items' = delete k (items cart)
         /\ forall removal : Req RemoveBody,
              sessionIdentity removal = Known query ->
              rem_productId (body removal) = Some (WellFormed pid) ->
              cart_remove now removal st = cart_update now req st)
        /\ (forall z product,
              upd_quantity (body req) = Some (Integer z) ->
              0 < z ->
              products st !! pid = Some product ->
              (z <= stock product ->
               let items' := <[k := mkCartItem pid z (addedAt line)]> (items cart) in
               cart_update now req st
               = (CartReply CartUpdated items' (itemCount items'),
                  mkStore (products st)
                          (<[slot := mkCart (userId cart) (sessionId cart) items' now]>
                             (carts st))
                          (orders st)))
              /\ (stock product < z ->
                  cart_update now req st
                  = (Rejected 400 (OnlyInStock (stock product)), st)))).
Proof.
  split.
  - intros Hbad. unfold cart_update.
    destruct (cartIdentity (upd_userId (body req)) req) as [| | query];
      [eexists; reflexivity | |];
      (destruct (upd_productId (body req)) as [[pid | s] |]; [| | eexists; reflexivity ]);
      destruct Hbad as [-> | (z & -> & Hneg)];
      try (eexists; reflexivity).
    apply Z.ltb_lt in Hneg. rewrite Hneg. eexists; reflexivity.
  - intros query pid slot cart k line Hwho Hpid Hcart Hvalid Hline Hsame.
    assert (Hnodup : NoDup (productId <$> items cart)).
    { apply cartValid_spec in Hvalid as [_ Hd]. exact Hd. }
    assert (Hindex : findIndex pid (items cart) = Some k).
    { rewrite <- Hsame. apply findIndex_line; assumption. }
    split.
    + intros Hzero items'.
      assert (Hitems : items' = delete k (items cart)).
      { unfold items'. rewrite <- Hsame. symmetry. apply delete_line_is_filter; assumption. }
      assert (Hsaved : cartValid items' = true).
      { rewrite Hitems. apply cartValid_delete. exact Hvalid. }
      assert (Hupdate :
                cart_update now req st
                = (CartReply ItemRemoved items' (itemCount items'),
                   mkStore (products st)
                           (<[slot := mkCart (userId cart) (sessionId cart) items' now]>
                              (carts st))
                           (orders st))).
      { unfold cart_update. rewrite Hwho, Hpid, Hzero. simpl.
        rewrite Hcart, Hindex. simpl. rewrite <- Hitems.
        rewrite (saveCart_valid now (Some slot)) by exact Hsaved. reflexivity. }
      split; [exact Hupdate |]. split; [exact Hitems |].
      intros removal Hsession Hproduct. rewrite Hupdate.
      unfold cart_remove. rewrite Hsession, Hproduct, Hcart. fold items'.
      rewrite (saveCart_valid now (Some slot)) by exact Hsaved. reflexivity.
    + intros z product Hq Hpos Hproduct.
      assert (Hz0 : (z <? 0) = false) by (apply Z.ltb_ge; lia).
      assert (Hz1 : (z =? 0) = false) by (apply Z.eqb_neq; lia).
      split.
      * intros Hfits items'.
        unfold cart_update. rewrite Hwho, Hpid, Hq. simpl.
        rewrite Hz0, Hcart, Hindex, Hz1, Hproduct.
        assert (Hle : (stock product <? z) = false) by (apply Z.ltb_ge; lia).
        rewrite Hle.
        rewrite (alter_as_insert _ _ _ _ Hline). rewrite Hsame. fold items'.
        rewrite (saveCart_valid now (Some slot)); [reflexivity |].
        simpl. unfold items'. rewrite <- Hsame.
        apply cartValid_requantify; [assumption | assumption | lia].
      * intros Hover.
        unfold cart_update. rewrite Hwho, Hpid, Hq. simpl.
        rewrite Hz0, Hcart, Hindex, Hz1, Hproduct.
        assert (Hgt : (stock product <? z) = true) by (apply Z.ltb_lt; lia).
        rewrite Hgt. reflexivity.
Qed.

Lemma cart_update_quantity_rules_witness :
  let st := mkStore shelf [guestCart] [] in
  (exists m, cart_update 7 (guestUpdate 1 (Integer (-2))) st = (Rejected 400 m, st))
  /\ cart_update 7 (guestUpdate 1 (Integer 0)) st
     = (CartReply ItemRemoved [mkCartItem 3 1 0] 1,
        mkStore shelf [mkCart None (Some "g1") [mkCartItem 3 1 0] 7] [])
  /\ cart_update 7 (guestUpdate 1 (Integer 5)) st
     = (CartReply CartUpdated [mkCartItem 3 1 0; mkCartItem 1 5 0] 6,
        mkStore shelf [mkCart None (Some "g1") [mkCartItem 3 1 0; mkCartItem 1 5 0] 7] [])
  /\ cart_update 7 (guestUpdate 1 (Integer 6)) st = (Rejected 400 (OnlyInStock 5), st).
Proof.
  intros st.
  split.
  { apply (proj1 (cart_update_quantity_rules 7 (guestUpdate 1 (Integer (-2))) st)).
    right. exists (-2). split; [reflexivity | lia]. }
  split.
  { destruct (proj2 (cart_update_quantity_rules 7 (guestUpdate 1 (Integer 0)) st)
                (BySession "g1") 1%nat 0%nat guestCart 1%nat (mkCartItem 1 3 0)
                eq_refl eq_refl eq_refl eq_refl eq_refl eq_refl) as [Hzero _].
    destruct (Hzero eq_refl) as [Hreply _]. exact Hreply. }
  split.
  { destruct (proj2 (cart_update_quantity_rules 7 (guestUpdate 1 (Integer 5)) st)
                (BySession "g1") 1%nat 0%nat guestCart 1%nat (mkCartItem 1 3 0)
                eq_refl eq_refl eq_refl eq_refl eq_refl eq_refl) as [_ Hpositive].
    destruct (Hpositive 5 tea eq_refl ltac:(lia) eq_refl) as [Hfits _].
    apply Hfits. simpl. lia. }
  { destruct (proj2 (cart_update_quantity_rules 7 (guestUpdate 1 (Integer 6)) st)
                (BySession "g1") 1%nat 0%nat guestCart 1%nat (mkCartItem 1 3 0)
                eq_refl eq_refl eq_refl eq_refl eq_refl eq_refl) as [_ Hpositive].
    destruct (Hpositive 6 tea eq_refl ltac:(lia) eq_refl) as [_ Hover].
    apply Hover. simpl. lia. }
Defined.

(** *** Merging *)

Lemma cartQty_app pid a b : cartQty pid (a ++ b) = cartQty pid a + cartQty pid b.
Proof. induction a as [| it a IH]; simpl; [reflexivity | rewrite IH; lia]. Qed.

Lemma cartQty_add_to_line pid n u : forall k line,
  u !! k = Some line ->
  cartQty pid (alter (fun l => mkCartItem (productId l) (quantity l + n) (addedAt l)) k u)
  = cartQty pid u + (if decide (productId line = pid) then n else 0).
Proof.
  induction u as [| it u IH]; intros [| k] line Hk; try discriminate.
  - injection Hk as ->. simpl. destruct (decide (productId line = pid)); lia.
  - pose proof (IH k line Hk) as Hrest. unfold alter in Hrest. simpl. lia.
Qed.

Lemma findIndex_Some pid its k :
  findIndex pid its = Some k ->
  exists line, its !! k = Some line /\ productId line = pid.
Proof.
  unfold findIndex. destruct (list_find _ its) as [[j line] |] eqn:Hfind; [| discriminate].
  simpl. intros [= <-]. apply list_find_Some in Hfind as (Hj & Hp & _).
  exists line. split; assumption.
Qed.

Lemma findIndex_None pid (its : list CartItem) :
  findIndex pid its = None -> pid ∉ productId <$> its.
Proof.
  unfold findIndex. destruct (list_find _ its) as [[j line] |] eqn:Hfind; [discriminate |].
  intros _ Hin. apply list_find_None in Hfind. rewrite Forall_forall in Hfind.
  apply list_elem_of_fmap in Hin as (it & -> & Hit). apply (Hfind it Hit). reflexivity.
Qed.

(** The merge loop sums quantities per product. *)
Lemma mergeItems_qty pid guest : forall user,
  cartQty pid (mergeItems guest user) = cartQty pid user + cartQty pid guest.
Proof.
  induction guest as [| guestItem rest IH]; intros user; simpl; [lia |].
  destruct (findIndex (productId guestItem) user) as [k |] eqn:Hindex.
  - destruct (findIndex_Some _ _ _ Hindex) as (line & Hk & Hsame).
    rewrite IH, (cartQty_add_to_line pid (quantity guestItem) user k line Hk), Hsame. lia.
  - rewrite IH, cartQty_app. simpl. lia.
Qed.

(** The merge loop keeps the user cart within its schema. *)
Lemma mergeItems_valid guest : forall user,
  Forall (fun it => 1 <= quantity it) guest ->
  cartValid user = true ->
  cartValid (mergeItems guest user) = true.
Proof.
  induction guest as [| guestItem rest IH]; intros user Hguest Huser; simpl; [exact Huser |].
  apply Forall_cons in Hguest as [Hone Hrest].
  destruct (findIndex (productId guestItem) user) as [k |] eqn:Hindex.
  - destruct (findIndex_Some _ _ _ Hindex) as (line & Hk & Hsame).
    apply IH; [exact Hrest |].
    rewrite (alter_as_insert _ _ _ _ Hk).
    apply cartValid_requantify; [exact Huser | exact Hk |].
    apply cartValid_spec in Huser as [Hall _]. rewrite Forall_forall in Hall.
    assert (1 <= quantity line); [| lia].
    apply Hall. apply list_elem_of_lookup. exists k. exact Hk.
  - apply IH; [exact Hrest |].
    apply findIndex_None in Hindex.
    apply cartValid_spec in Huser as [Hall Hd]. apply cartValid_spec. split.
    + apply Forall_app. split; [exact Hall |]. apply Forall_cons. split; [exact Hone | apply Forall_nil; exact I].
    + rewrite fmap_app. apply NoDup_app. split; [exact Hd |]. split.
      * intros x Hx Hin. apply list_elem_of_singleton in Hin. subst x. contradiction.
      * apply NoDup_singleton.
Qed.

(** Saving a cart over itself under the same keys does not move the first
    match of a query. *)
Lemma findOne_resaved f c' : forall (cs : list Cart) i c,
  cs !! i = Some c ->
  userId c' = userId c -> sessionId c' = sessionId c ->
  fst <$> findOne f (<[i := c']> cs) = fst <$> findOne f cs.
Proof.
  assert (Hsame : forall c, userId c' = userId c -> sessionId c' = sessionId c ->
                            (matches f c' <-> matches f c)).
  { intros c Hu Hs. destruct f; simpl; rewrite ?Hu, ?Hs; reflexivity. }
  unfold findOne.
  induction cs as [| x cs IH]; intros [| i] c Hi Hu Hs; try discriminate.
  - injection Hi as ->. simpl.
    destruct (decide (matches f c')) as [Hc' | Hc'];
      destruct (decide (matches f c)) as [Hc | Hc]; try reflexivity.
    + exfalso. apply Hc. apply (Hsame c Hu Hs). exact Hc'.
    + exfalso. apply Hc'. apply (Hsame c Hu Hs). exact Hc.
  - simpl. destruct (decide (matches f x)); [reflexivity |].
    specialize (IH i c Hi Hu Hs).
    destruct (list_find (matches f) (<[i := c']> cs)) as [[j1 y1] |];
      destruct (list_find (matches f) cs) as [[j2 y2] |]; simpl in *; congruence.
Qed.

Lemma deleteOne_resaved f c' (cs : list Cart) i c :
  cs !! i = Some c ->
  userId c' = userId c -> sessionId c' = sessionId c ->
  deleteOne f (<[i := c']> cs)
  = match findOne f cs with
    | Some (j, _) => delete j (<[i := c']> cs)
    | None => <[i := c']> cs
    end.
Proof.
  intros Hi Hu Hs. unfold deleteOne.
  pose proof (findOne_resaved f c' cs i c Hi Hu Hs) as Hfst.
  destruct (findOne f (<[i := c']> cs)) as [[j1 y1] |];
    destruct (findOne f cs) as [[j2 y2] |]; simpl in Hfst; try discriminate; try reflexivity.
  injection Hfst as ->. reflexivity.
Qed.

(** C6 (as the code has it): POST /cart/merge with a well-formed user id
    and a session id. When both carts exist and the guest cart has items,
    each product's resulting quantity is the sum of its quantities in the
    two carts and the guest cart is deleted. When the guest cart has items
    and there is no user cart, the guest cart is re-keyed to the user with
    its lines unchanged. When the guest cart is absent or empty: if a user
    cart exists the store is unchanged and that cart is returned; if none
    exists a new empty cart of the user is created and saved. *)
Theorem cart_merge_cases now (req : Req MergeBody) st user session :
  mrg_userId (body req) = Some (WellFormed user) ->
  mrg_sessionId (body req) = Some session ->
  (forall gslot g uslot u,
      findOne (BySession session) (carts st) = Some (gslot, g) ->
      items g <> [] ->
      findOne (ByUser user) (carts st) = Some (uslot, u) ->
      cartValid (items g) = true ->
      cartValid (items u) = true ->
      let merged := mergeItems (items g) (items u) in
      cart_merge now req st
      = (CartReply CartMerged merged (itemCount merged),
         mkStore (products st)
                 (delete gslot
                    (<[uslot := mkCart (userId u) (sessionId u) merged now]> (carts st)))
                 (orders st))
      /\ forall pid,
           cartQty pid merged = cartQty pid (items u) + cartQty pid (items g))
  /\ (forall gslot g,
        findOne (BySession session) (carts st) = Some (gslot, g) ->
        items g <> [] ->
        findOne (ByUser user) (carts st) = None ->
        cartValid (items g) = true ->
        cart_merge now req st
        = (CartReply CartMerged (items g) (itemCount (items g)),
           mkStore (products st)
                   (<[gslot := mkCart (Some user) None (items g) now]> (carts st))
                   (orders st)))
  /\ ((findOne (BySession session) (carts st) = None
       \/ exists gslot g,
            findOne (BySession session) (carts st) = Some (gslot, g) /\ items g = []) ->
      (forall uslot u,
          findOne (ByUser user) (carts st) = Some (uslot, u) ->
          cart_merge now req st
          = (CartReply NoItemsToMerge (items u) (itemCount (items u)), st))
      /\ (findOne (ByUser user) (carts st) = None ->
          cart_merge now req st
          = (CartReply NoItemsToMerge [] 0,
             mkStore (products st) (carts st ++ [mkCart (Some user) None [] now])
                     (orders st)))).
Proof.
  intros Huser Hsession.
  split; [| split].
  - intros gslot g uslot u Hg Hitems Hu Hgv Huv merged.
    assert (Hmv : cartValid merged = true).
    { apply mergeItems_valid; [| exact Huv].
      apply cartValid_spec in Hgv as [Hall _]. exact Hall. }
    split; [| intros pid; apply mergeItems_qty].
    unfold cart_merge. rewrite Huser, Hsession, Hg, Hu.
    rewrite bool_decide_eq_false_2 by exact Hitems. fold merged.
    rewrite (saveCart_valid now (Some uslot)) by exact Hmv. simpl.
    assert (Hthere : carts st !! uslot = Some u).
    { apply list_find_Some in Hu as (Hk & _). exact Hk. }
    rewrite (deleteOne_resaved (BySession session)
               (mkCart (userId u) (sessionId u) merged now)
               (carts st) uslot u Hthere eq_refl eq_refl).
    rewrite Hg. reflexivity.
  - intros gslot g Hg Hitems Hu Hgv.
    unfold cart_merge. rewrite Huser, Hsession, Hg, Hu.
    rewrite bool_decide_eq_false_2 by exact Hitems.
    rewrite (saveCart_valid now (Some gslot)) by exact Hgv. reflexivity.
  - intros Hnothing. split.
    + intros uslot u Hu. unfold cart_merge. rewrite Huser, Hsession, Hu.
      destruct Hnothing as [-> | (gslot & g & -> & Hempty)]; [reflexivity |].
      rewrite bool_decide_eq_true_2 by exact Hempty. reflexivity.
    + intros Hu. unfold cart_merge. rewrite Huser, Hsession, Hu.
      destruct Hnothing as [-> | (gslot & g & -> & Hempty)]; [reflexivity |].
      rewrite bool_decide_eq_true_2 by exact Hempty. reflexivity.
Qed.

Lemma cart_merge_cases_witness :
  cart_merge 7 mergeG1 (mkStore shelf [guestAB; userA] [])
  = (CartReply CartMerged [mkCartItem 1 3 0; mkCartItem 2 1 0] 4,
     mkStore shelf [mkCart (Some 5%nat) None [mkCartItem 1 3 0; mkCartItem 2 1 0] 7] [])
  /\ cart_merge 7 mergeG1 (mkStore shelf [guestAB] [])
     = (CartReply CartMerged [mkCartItem 1 2 0; mkCartItem 2 1 0] 3,
        mkStore shelf [mkCart (Some 5%nat) None [mkCartItem 1 2 0; mkCartItem 2 1 0] 7] [])
  /\ cart_merge 7 mergeG1 (mkStore shelf [userA] [])
     = (CartReply NoItemsToMerge [mkCartItem 1 1 0] 1, mkStore shelf [userA] []).
Proof.
  split; [| split].
  - destruct (cart_merge_cases 7 mergeG1 (mkStore shelf [guestAB; userA] []) 5%nat "g1"
                eq_refl eq_refl) as (Hboth & _ & _).
    destruct (Hboth 0%nat guestAB 1%nat userA eq_refl ltac:(discriminate) eq_refl
                eq_refl eq_refl) as [Hreply _].
    exact Hreply.
  - destruct (cart_merge_cases 7 mergeG1 (mkStore shelf [guestAB] []) 5%nat "g1"
                eq_refl eq_refl) as (_ & Hguest & _).
    exact (Hguest 0%nat guestAB eq_refl ltac:(discriminate) eq_refl eq_refl).
  - destruct (cart_merge_cases 7 mergeG1 (mkStore shelf [userA] []) 5%nat "g1"
                eq_refl eq_refl) as (_ & _ & Hnothing).
    destruct (Hnothing (or_introl eq_refl)) as [Hkept _].
    exact (Hkept 0%nat userA eq_refl).
Defined.

(** C6, the claim as stated fails: when neither cart has items and the
    user has no cart, the merge is not a no-op: it creates and saves an
    empty cart for the user. *)
Lemma cart_merge_creates_user_cart :
  let st := mkStore shelf [] [] in
  findOne (BySession "g1") (carts st) = None
  /\ findOne (ByUser 5%nat) (carts st) = None
  /\ cart_merge 7 mergeG1 st
     = (CartReply NoItemsToMerge [] 0,
        mkStore shelf [mkCart (Some 5%nat) None [] 7] [])
  /\ (cart_merge 7 mergeG1 st).2 <> st.
Proof.
  repeat split. intros Heq. apply (f_equal carts) in Heq. discriminate.
Qed.

(** ** The cart schema as an invariant of the store *)

(** Every cart of the store is within the schema. *)
Definition cartsValid (st : Store) : Prop :=
  Forall (fun c => cartValid (items c) = true) (carts st).

Lemma saveCart_keeps now slot c cs cs' :
  Forall (fun c => cartValid (items c) = true) cs ->
  saveCart now slot c cs = Some cs' ->
  Forall (fun c => cartValid (items c) = true) cs'.
Proof.
  unfold saveCart. intros Hall Hsave.
  destruct (cartValid (items c)) eqn:Hv; [| discriminate].
  injection Hsave as <-. destruct slot as [i |].
  - apply Forall_insert; [exact Hall | exact Hv].
  - apply Forall_app. split; [exact Hall |].
    apply Forall_cons. split; [exact Hv | apply Forall_nil; exact I].
Qed.

Lemma deleteOne_keeps f cs :
  Forall (fun c => cartValid (items c) = true) cs ->
  Forall (fun c => cartValid (items c) = true) (deleteOne f cs).
Proof.
  intros Hall. unfold deleteOne.
  destruct (findOne f cs) as [[i c] |]; [apply Forall_delete |]; exact Hall.
Qed.

Ltac keep_schema :=
  repeat case_match; simpl; try assumption;
  try (eapply saveCart_keeps; [| eassumption]; assumption).

(** X2: The handlers that write carts go through [cart.save()], whose
    validation keeps every stored cart within the schema; the order
    handlers and the payment callbacks leave the carts as they find them. *)
Lemma handlers_keep_schema now out st :
  cartsValid st ->
  (forall req, cartsValid (cart_add now req st).2)
  /\ (forall req, cartsValid (cart_update now req st).2)
  /\ (forall req, cartsValid (cart_remove now req st).2)
  /\ (forall req, cartsValid (cart_merge now req st).2)
  /\ (forall event, cartsValid (stripe_webhook out event st).2)
  /\ (forall capture orderId, cartsValid (paypal_success out capture orderId st).2)
  /\ (forall b, cartsValid (post_orders out b st).2)
  /\ (forall answer req, cartsValid (create_payment out answer req st).2).
Proof.
  unfold cartsValid. intros Hall.
  repeat split; intros.
  - unfold cart_add. keep_schema.
  - unfold cart_update. keep_schema.
  - unfold cart_remove. keep_schema.
  - unfold cart_merge. keep_schema.
    apply deleteOne_keeps. eapply saveCart_keeps; [| eassumption]. assumption.
  - rewrite stripe_webhook_store. assumption.
  - rewrite paypal_success_store. assumption.
  - rewrite (proj1 (proj2 (post_orders_ledger out b st))). assumption.
  - rewrite (proj1 (create_payment_store out answer req st)). assumption.
Qed.

(** A guest request that went through [ensureGuestSession] has a session
    identity: the cookie's, or a generated one. *)
Lemma ensureGuestSession_known {B} (bodyUser : B -> option RawId) stamp (req : Req B) :
  bodyUser (body req) = None ->
  exists session,
    cartIdentity (bodyUser (body req)) (ensureGuestSession bodyUser stamp req)
    = Known (BySession session).
Proof.
  intros Hguest. unfold cartIdentity, ensureGuestSession. rewrite Hguest. simpl.
  eexists. reflexivity.
Qed.

(** * Further properties *)

(** ** POST /orders *)

(** The loop of POST /orders runs to its end when every item passes
    against the catalog the items before it left, and leaves the catalog
    with all of them taken off. *)
Lemma placeItems_through its ps :
  allPass its ps ->
  exists sub lines, placeItems its ps 0 [] = (decrementAll its ps, inr (sub, lines)).
Proof.
  intros Hpass.
  destruct (placeItems_passing its [] ps 0 [] Hpass) as (sub & lines & Hrun).
  rewrite app_nil_r in Hrun. exists sub, lines. exact Hrun.
Qed.

(** X3: POST /orders takes the stock and places no order. A request that
    names a customer, an address and at least one item, every item finding
    its product with enough stock (for itself and for what the items before
    it took), has every requested quantity taken off the stock; then
    [order.save()] is refused by the schema and the request is answered
    with status 500. The ledger and the carts are as before, and the stock
    is not given back. *)
Theorem post_orders_takes_stock_without_order out b st info shipTo its :
  ord_customerInfo b = Some info ->
  ord_shippingAddress b = Some shipTo ->
  ord_items b = Some its -> its <> [] ->
  passInTurn its (products st) ->
  let '(reply, st') := post_orders out b st in
  reply = Rejected 500 ServerError
  /\ orders st' = orders st
  /\ carts st' = carts st
  /\ (forall pid product,
        products st !! pid = Some product ->
        exists product',
          products st' !! pid = Some product'
          /\ stock product' = stock product - requestedQty pid its
          /\ name product' = name product
          /\ price product' = price product
          /\ isActive product' = isActive product)
  /\ (forall pid, products st !! pid = None -> products st' !! pid = None).
Proof.
  intros Hinfo Haddr Hits Hne Hturn.
  destruct (placeItems_through its (products st) (passInTurn_allPass _ _ Hturn))
    as (sub & lines & Hrun).
  unfold post_orders. rewrite Hinfo, Hits, Haddr.
  destruct its as [| first others]; [contradiction |].
  rewrite Hrun. rewrite placement_refused by reflexivity. cbn [products carts orders].
  split; [reflexivity |]. split; [reflexivity |]. split; [reflexivity |]. split.
  - intros pid product Hfound. rewrite decrementAll_lookup, Hfound. simpl.
    eexists. split; [reflexivity |]. repeat split.
  - intros pid Hnone. rewrite decrementAll_lookup, Hnone. reflexivity.
Qed.

Lemma post_orders_takes_stock_without_order_witness :
  let b := mkOrderBody None (Some ada)
             (Some [mkReqItem (WellFormed 1) 2; mkReqItem (WellFormed 1) 3])
             (Some home) (Some 100) (Some 50) (Some "cod") None in
  let st := mkStore shelf [] [] in
  let '(reply, st') := post_orders noon b st in
  reply = Rejected 500 ServerError
  /\ orders st' = orders st
  /\ carts st' = carts st
  /\ (forall pid product,
        products st !! pid = Some product ->
        exists product',
          products st' !! pid = Some product'
          /\ stock product'
             = stock product
               - requestedQty pid [mkReqItem (WellFormed 1) 2; mkReqItem (WellFormed 1) 3]
          /\ name product' = name product
          /\ price product' = price product
          /\ isActive product' = isActive product)
  /\ (forall pid, products st !! pid = None -> products st' !! pid = None).
Proof.
  intros b st.
  apply (post_orders_takes_stock_without_order noon b st ada home
           [mkReqItem (WellFormed 1) 2; mkReqItem (WellFormed 1) 3]).
  - reflexivity.
  - reflexivity.
  - reflexivity.
  - discriminate.
  - intros j item Hj.
    destruct j as [| [| j]]; [| | discriminate]; injection Hj as <-;
      exists 1%nat, tea; (split; [reflexivity |]); (split; [reflexivity |]);
      simpl; lia.
Defined.

(** No product of the catalog has negative stock. *)
Definition stockNonNegative (ps : gmap ObjectId Product) : Prop :=
  map_Forall (fun _ product => 0 <= stock product) ps.

Lemma placeItems_nonNegative its : forall ps sub acc,
  stockNonNegative ps -> stockNonNegative (placeItems its ps sub acc).1.
Proof.
  induction its as [| item rest IH]; intros ps sub acc Hps; [exact Hps |].
  simpl.
  destruct (ri_productId item) as [pid | s]; [| exact Hps].
  destruct (ps !! pid) as [product |] eqn:Hfound; [| exact Hps].
  destruct (stock product <? ri_quantity item) eqn:Hlt; [exact Hps |].
  apply Z.ltb_ge in Hlt. apply IH.
  apply map_Forall_insert_2; [simpl; lia | exact Hps].
Qed.

(** X4: POST /orders never drives a stock below zero, also when it fails
    half way through the items. *)
Theorem post_orders_stock_nonNegative out b st :
  stockNonNegative (products st) ->
  stockNonNegative (products (post_orders out b st).2).
Proof.
  intros Hps. unfold post_orders.
  destruct (ord_customerInfo b); [| exact Hps].
  destruct (ord_items b) as [[| first others] |]; try exact Hps.
  destruct (ord_shippingAddress b); [| exact Hps].
  pose proof (placeItems_nonNegative (first :: others) (products st) 0 [] Hps) as Hloop.
  destruct (placeItems (first :: others) (products st) 0 []) as [ps [early | [sub lines]]];
    [exact Hloop |].
  destruct (saveOrder _ _ _); exact Hloop.
Qed.

Lemma post_orders_stock_nonNegative_witness :
  stockNonNegative
    (products (post_orders noon
                 (mkOrderBody None (Some ada)
                    (Some [mkReqItem (WellFormed 1) 5; mkReqItem (WellFormed 2) 3])
                    (Some home) None None (Some "cod") None)
                 (mkStore shelf [] [])).2).
Proof.
  apply (post_orders_stock_nonNegative noon _ (mkStore shelf [] [])).
  intros pid product Hfound. simpl in Hfound. unfold shelf in Hfound.
  repeat (apply lookup_insert_Some in Hfound as [[_ <-] | [_ Hfound]]; [simpl; lia |]).
  rewrite lookup_empty in Hfound. discriminate.
Defined.

(** ** POST /orders/create-payment *)

(** The loop of POST /orders/create-payment runs to its end exactly when
    every item passes against the catalog as it stands; nothing is taken
    off between two items. *)
Lemma priceItems_inr its : forall ps sub acc,
  (exists r, priceItems its ps sub acc = inr r)
  <-> Forall (fun item => passes item ps) its.
Proof.
  induction its as [| item rest IH]; intros ps sub acc.
  - simpl. split; [intros _; apply Forall_nil; exact I | intros _; eauto].
  - simpl. rewrite Forall_cons. split.
    + intros (r & Hrun).
      destruct (ri_productId item) as [pid | s] eqn:Hid; [| discriminate].
      destruct (ps !! pid) as [product |] eqn:Hfound; [| discriminate].
      destruct (stock product <? ri_quantity item) eqn:Hlt; [discriminate |].
      apply Z.ltb_ge in Hlt. split.
      * exists pid, product. repeat split; assumption.
      * apply (IH ps (sub + subtotal (snapshot pid product (ri_quantity item)))
                 (acc ++ [snapshot pid product (ri_quantity item)])).
        eauto.
    + intros [(pid & product & Hid & Hfound & Hstock) Hrest].
      rewrite Hid, Hfound.
      destruct (stock product <? ri_quantity item) eqn:Hlt;
        [apply Z.ltb_lt in Hlt; lia |].
      apply IH. exact Hrest.
Qed.

(** X5: POST /orders/create-payment never touches the catalog or the carts:
    no stock is taken at this point. It leaves the ledger as it was too, and
    its reply is a rejection with status 400, 404 or 500: a request that
    passes every check has its order refused by the schema at
    [order.save()] and is answered 500 before any processor is called,
    whatever the payment method and whatever the processor would answer. *)
Theorem create_payment_frame out answer req st :
  let '(reply, st') := create_payment out answer req st in
  products st' = products st
  /\ carts st' = carts st
  /\ orders st' = orders st
  /\ (forall code m, reply = Rejected code m -> code <> 500 -> st' = st)
  /\ (exists code m,
        reply = Rejected code m /\ (code = 500 \/ code = 404 \/ code = 400))
  /\ (forall its shipTo email method,
        pay_items (body req) = Some its -> its <> [] ->
        pay_shippingAddress (body req) = Some shipTo ->
        truthy (pay_contactEmail (body req)) = Some email ->
        truthy (pay_paymentMethod (body req)) = Some method ->
        Forall (fun item => passes item (products st)) its ->
        reply = Rejected 500 PaymentInitFailed).
Proof.
  pose proof (create_payment_store out answer req st) as (Hstore & Hreply).
  assert (Hpassing : forall its shipTo email method,
             pay_items (body req) = Some its -> its <> [] ->
             pay_shippingAddress (body req) = Some shipTo ->
             truthy (pay_contactEmail (body req)) = Some email ->
             truthy (pay_paymentMethod (body req)) = Some method ->
             Forall (fun item => passes item (products st)) its ->
             (create_payment out answer req st).1 = Rejected 500 PaymentInitFailed).
  { intros its shipTo email method Hits Hne Haddr Hmail Hmethod Hpass.
    apply (priceItems_inr its (products st) 0 []) in Hpass as [[sub lines] Hloop].
    unfold create_payment. rewrite Hits, Haddr, Hmail, Hmethod, Hloop.
    destruct its as [| first others]; [contradiction |].
    rewrite placement_refused by reflexivity. reflexivity. }
  destruct (create_payment out answer req st) as [reply st']. simpl in *. subst st'.
  repeat split; assumption.
Qed.

Lemma create_payment_frame_witness :
  let st := mkStore shelf [guestCart] [teaOrder] in
  create_payment noon (Opened "PAY-1" (Some "https://wallet.example/approve"))
                 (incoming (checkout "paypal") (Some "g1")) st
  = (Rejected 500 PaymentInitFailed, st).
Proof.
  intros st.
  pose proof (create_payment_frame noon
                (Opened "PAY-1" (Some "https://wallet.example/approve"))
                (incoming (checkout "paypal") (Some "g1")) st) as Hrun.
  destruct (create_payment noon (Opened "PAY-1" (Some "https://wallet.example/approve"))
              (incoming (checkout "paypal") (Some "g1")) st) as [reply st'].
  destruct Hrun as (Hp & Hc & Ho & _ & _ & Hpassing).
  rewrite (Hpassing [mkReqItem (WellFormed 1) 2] home "ada@example.org" "paypal"
             eq_refl ltac:(discriminate) eq_refl eq_refl eq_refl).
  - destruct st'. simpl in *. subst. reflexivity.
  - apply Forall_cons. split; [| apply Forall_nil; exact I].
    exists 1%nat, tea. repeat split. simpl. lia.
Defined.

(** ** Reconciliation: what the callbacks leave alone *)

(** [st'] differs from [st] at most by what a payment confirmation may
    write: no order, product or cart is added or removed; an order keeps
    its lines, its amounts, its customer and its contact; a product keeps its
    name, price and active flag; a cart keeps its keys, and a guest cart its
    lines. *)
Definition reconciled (st st' : Store) : Prop :=
  length (orders st') = length (orders st)
  /\ (forall i order,
        orders st !! i = Some order ->
        exists order',
          orders st' !! i = Some order'
          /\ o_items order' = o_items order
          /\ total order' = total order
          /\ o_subtotal order' = o_subtotal order
          /\ shipping order' = shipping order
          /\ tax order' = tax order
          /\ o_user order' = o_user order
          /\ contactEmail order' = contactEmail order)
  /\ dom (products st') = dom (products st)
  /\ (forall pid product,
        products st !! pid = Some product ->
        exists product',
          products st' !! pid = Some product'
          /\ name product' = name product
          /\ price product' = price product
          /\ isActive product' = isActive product)
  /\ length (carts st') = length (carts st)
  /\ (forall j cart,
        carts st !! j = Some cart ->
        exists cart',
          carts st' !! j = Some cart'
          /\ userId cart' = userId cart
          /\ sessionId cart' = sessionId cart
          /\ (userId cart = None -> cart' = cart)).

Lemma reconciled_refl st : reconciled st st.
Proof.
  repeat split; eauto 12.
Qed.

(** X7: Whatever callback arrives, and whatever the capture answers, payment
    reconciliation adds or removes no order, product or cart, never changes
    the lines, the total, the subtotal, the shipping, the tax, the customer
    or the contact of an order, never changes a product's name, price or
    active flag, and never touches a guest cart. *)
Theorem reconciliation_frame out st :
  (forall event, reconciled st (stripe_webhook out event st).2)
  /\ (forall capture orderId, reconciled st (paypal_success out capture orderId st).2).
Proof.
  split.
  - intros event. rewrite stripe_webhook_store. apply reconciled_refl.
  - intros capture orderId. rewrite paypal_success_store. apply reconciled_refl.
Qed.

(** ** GET /payment/paypal-success *)

(** X8: A capture answered "COMPLETED" marks no order paid. For an order
    found by the [orderId] of the query the handler assigns
    [paymentStatus = 'paid'], [order.save()] is refused by the schema, and
    the [catch] block sends the browser to the error page: the order, the
    stock and the carts stay as they were. When the [orderId] names no order
    of the ledger the browser is sent to the success page all the same; a
    malformed [orderId] ends on the error page. *)
Theorem paypal_success_completed_settles_nothing out captureId orderId st :
  let '(reply, st') :=
    paypal_success out (Captured "COMPLETED" captureId) orderId st in
  st' = st
  /\ (forall i order,
        orderId = Some (WellFormed i) ->
        orders st !! i = Some order ->
        reply = Redirected PaymentErrorPage)
  /\ (findById orderId (orders st) = Missing ->
      reply = Redirected (OrderSuccessPage orderId))
  /\ (forall s,
        orderId = Some (Malformed s) ->
        reply = Redirected PaymentErrorPage).
Proof.
  pose proof (paypal_success_store out (Captured "COMPLETED" captureId) orderId st) as Hstore.
  unfold paypal_success in *.
  rewrite bool_decide_eq_true_2 in * by reflexivity.
  destruct (findById orderId (orders st)) as [i order | |] eqn:Hfind.
  - rewrite (proj2 (settlement_refused (clock out) None captureId i order (orders st))).
    split; [reflexivity |]. split; [reflexivity |].
    split; [discriminate | reflexivity].
  - split; [reflexivity |]. split; [| split; [reflexivity |]].
    + intros i order -> Hfound. rewrite (findById_found _ _ _ Hfound) in Hfind.
      discriminate.
    + intros s ->. discriminate.
  - split; [reflexivity |]. split; [| split; [discriminate | reflexivity]].
    intros i order -> Hfound. rewrite (findById_found _ _ _ Hfound) in Hfind.
    discriminate.
Qed.

Lemma paypal_success_completed_settles_nothing_witness :
  let st := mkStore shelf [userA] [teaOrder] in
  paypal_success noon (Captured "COMPLETED" "cap_1") (Some (WellFormed 0)) st
  = (Redirected PaymentErrorPage, st)
  /\ paypal_success noon (Captured "COMPLETED" "cap_1") (Some (WellFormed 7)) st
     = (Redirected (OrderSuccessPage (Some (WellFormed 7))), st).
Proof.
  intros st. split.
  - pose proof (paypal_success_completed_settles_nothing noon "cap_1"
                  (Some (WellFormed 0)) st) as Hrun.
    destruct (paypal_success noon (Captured "COMPLETED" "cap_1") (Some (WellFormed 0)) st)
      as [reply st'].
    destruct Hrun as (-> & Hfound & _).
    rewrite (Hfound 0%nat teaOrder eq_refl eq_refl). reflexivity.
  - pose proof (paypal_success_completed_settles_nothing noon "cap_1"
                  (Some (WellFormed 7)) st) as Hrun.
    destruct (paypal_success noon (Captured "COMPLETED" "cap_1") (Some (WellFormed 7)) st)
      as [reply st'].
    destruct Hrun as (-> & _ & Hmissing & _).
    rewrite (Hmissing eq_refl). reflexivity.
Defined.

(** ** More on carts *)

Lemma findOne_appended query (cs : list Cart) c :
  findOne query cs = None -> matches query c ->
  findOne query (cs ++ [c]) = Some (length cs, c).
Proof.
  intros Hnone Hc. unfold findOne in *.
  rewrite (list_find_app_r _ _ _ Hnone). simpl.
  rewrite decide_True by exact Hc. reflexivity.
Qed.

Lemma findOne_replaced query (cs : list Cart) i c c' :
  findOne query cs = Some (i, c) -> matches query c' ->
  findOne query (<[i := c']> cs) = Some (i, c').
Proof.
  unfold findOne. intros Hfind Hc'.
  apply list_find_Some in Hfind as (Hi & _ & Hleast).
  apply list_find_Some. split; [| split; [exact Hc' |]].
  - apply list_lookup_insert_eq. apply lookup_lt_Some in Hi. exact Hi.
  - intros j y Hj Hlt. rewrite list_lookup_insert_ne in Hj by lia.
    apply (Hleast j y Hj Hlt).
Qed.

Lemma matches_newCart query now : matches query (newCart query now).
Proof. destruct query; reflexivity. Qed.

Lemma newCart_keys query now its t :
  matches query (mkCart (userId (newCart query now)) (sessionId (newCart query now)) its t).
Proof. destruct query; reflexivity. Qed.

Lemma cartValid_push its pid q t :
  cartValid its = true -> pid ∉ productId <$> its -> 1 <= q ->
  cartValid (its ++ [mkCartItem pid q t]) = true.
Proof.
  rewrite !cartValid_spec. intros [Hall Hd] Hfresh Hq. split.
  - apply Forall_app. split; [exact Hall |].
    apply Forall_cons. split; [exact Hq | apply Forall_nil; exact I].
  - rewrite fmap_app. apply NoDup_app. split; [exact Hd |]. split.
    + intros x Hx Hin. apply list_elem_of_singleton in Hin. subst x. contradiction.
    + apply NoDup_singleton.
Qed.

Lemma list_find_absent pid (its : list CartItem) :
  findIndex pid its = None -> list_find (fun it => productId it = pid) its = None.
Proof.
  unfold findIndex. destruct (list_find _ its) as [[j line] |]; [discriminate | reflexivity].
Qed.

(** X10: Adding a product the requester's cart does not hold yet, for an active
    product with stock s and a quantity q of at least one: the request
    succeeds if and only if q <= s. With no cart on record, a cart holding
    the one line is created under the requester's key; with a cart on
    record, the line is pushed after the lines it has, which stay as they
    are. A quantity above the stock is rejected with status 400 and nothing
    is written. *)
Theorem cart_add_new_line now (req : Req AddBody) st query pid product q :
  cartIdentity (add_userId (body req)) req = Known query ->
  add_productId (body req) = Some (WellFormed pid) ->
  default 1 (add_quantity (body req)) = q ->
  products st !! pid = Some product ->
  isActive product = true ->
  1 <= q ->
  let line := mkCartItem pid q now in
  (stock product < q ->
   cart_add now req st = (Rejected 400 (OnlyInStock (stock product)), st))
  /\ (q <= stock product ->
      findOne query (carts st) = None ->
      exists created,
        cart_add now req st
        = (CartReply ItemAdded [line] q,
           mkStore (products st) (carts st ++ [created]) (orders st))
        /\ items created = [line] /\ matches query created
        /\ findOne query (carts st ++ [created]) = Some (length (carts st), created))
  /\ (q <= stock product ->
      forall slot cart,
        findOne query (carts st) = Some (slot, cart) ->
        cartValid (items cart) = true ->
        findIndex pid (items cart) = None ->
        cart_add now req st
        = (CartReply ItemAdded (items cart ++ [line]) (itemCount (items cart ++ [line])),
           mkStore (products st)
                   (<[slot := mkCart (userId cart) (sessionId cart)
                                     (items cart ++ [line]) now]> (carts st))
                   (orders st))).
Proof.
  intros Hwho Hpid Hq Hproduct Hactive Hone line.
  split; [| split].
  - intros Hover. unfold cart_add. rewrite Hwho, Hpid, Hq, Hproduct, Hactive. simpl.
    assert (Hlt : (stock product <? q) = true) by (apply Z.ltb_lt; lia).
    rewrite Hlt. reflexivity.
  - intros Hfits Hnone.
    assert (Hlt : (stock product <? q) = false) by (apply Z.ltb_ge; lia).
    exists (mkCart (userId (newCart query now)) (sessionId (newCart query now)) [line] now).
    split; [| split; [reflexivity | split; [apply newCart_keys |]]].
    + unfold cart_add. rewrite Hwho, Hpid, Hq, Hproduct, Hactive. simpl.
      rewrite Hlt, Hnone.
      replace (items (newCart query now)) with (@nil CartItem) by (destruct query; reflexivity).
      simpl. fold line.
      rewrite (saveCart_valid now None);
        [| apply (cartValid_push [] pid q now eq_refl); [apply not_elem_of_nil | exact Hone]].
      simpl. unfold itemCount. simpl. reflexivity.
    + apply findOne_appended; [exact Hnone | apply newCart_keys].
  - intros Hfits slot cart Hcart Hvalid Habsent.
    assert (Hlt : (stock product <? q) = false) by (apply Z.ltb_ge; lia).
    unfold cart_add. rewrite Hwho, Hpid, Hq, Hproduct, Hactive. simpl.
    rewrite Hlt, Hcart, (list_find_absent _ _ Habsent). fold line.
    rewrite (saveCart_valid now (Some slot)); [reflexivity |].
    simpl. apply cartValid_push; [exact Hvalid | apply findIndex_None; exact Habsent | exact Hone].
Qed.

Lemma cart_add_new_line_witness :
  let st := mkStore shelf [] [] in
  let line := mkCartItem 1 3 7 in
  (stock tea < 3 ->
   cart_add 7 (guestAdd 1 3) st = (Rejected 400 (OnlyInStock (stock tea)), st))
  /\ (3 <= stock tea ->
      findOne (BySession "g1") (carts st) = None ->
      exists created,
        cart_add 7 (guestAdd 1 3) st
        = (CartReply ItemAdded [line] 3,
           mkStore (products st) (carts st ++ [created]) (orders st))
        /\ items created = [line] /\ matches (BySession "g1") created
        /\ findOne (BySession "g1") (carts st ++ [created])
           = Some (length (carts st), created))
  /\ (3 <= stock tea ->
      forall slot cart,
        findOne (BySession "g1") (carts st) = Some (slot, cart) ->
        cartValid (items cart) = true ->
        findIndex 1%nat (items cart) = None ->
        cart_add 7 (guestAdd 1 3) st
        = (CartReply ItemAdded (items cart ++ [line]) (itemCount (items cart ++ [line])),
           mkStore (products st)
                   (<[slot := mkCart (userId cart) (sessionId cart)
                                     (items cart ++ [line]) 7]> (carts st))
                   (orders st))).
Proof.
  intros st.
  apply (cart_add_new_line 7 (guestAdd 1 3) st (BySession "g1") 1%nat tea 3).
  - reflexivity.
  - reflexivity.
  - reflexivity.
  - reflexivity.
  - reflexivity.
  - lia.
Defined.

(** A cart request leaves the catalog and the ledger alone, and writes
    nothing at all when it is rejected. *)
Definition cartOnly (st : Store) (result : Response * Store) : Prop :=
  products result.2 = products st
  /\ orders result.2 = orders st
  /\ (succeeded result.1 = false -> result.2 = st).

Ltac cart_only :=
  repeat case_match; simpl;
  (split; [reflexivity | split; [reflexivity | intros; first [reflexivity | discriminate]]]).

(** X11: POST /cart/add, PUT /cart/update, DELETE /cart/remove and
    POST /cart/merge never change a product or an order, and a request
    they reject, whatever the reason, leaves the whole store as it was. *)
Theorem cart_requests_frame now st :
  (forall req, cartOnly st (cart_add now req st))
  /\ (forall req, cartOnly st (cart_update now req st))
  /\ (forall req, cartOnly st (cart_remove now req st))
  /\ (forall req, cartOnly st (cart_merge now req st)).
Proof.
  unfold cartOnly. split; [| split; [| split]]; intros req.
  - unfold cart_add. cart_only.
  - unfold cart_update. cart_only.
  - unfold cart_remove. cart_only.
  - unfold cart_merge. cart_only.
Qed.

Lemma saveCart_others now slot c (cs cs' : list Cart) j x :
  saveCart now slot c cs = Some cs' ->
  cs !! j = Some x -> slot <> Some j -> cs' !! j = Some x.
Proof.
  unfold saveCart. intros Hsave Hj Hslot.
  destruct (cartValid (items c)); [| discriminate]. injection Hsave as <-.
  destruct slot as [i |].
  - rewrite list_lookup_insert_ne by congruence. exact Hj.
  - apply lookup_app_l_Some. exact Hj.
Qed.

Lemma findOne_slot query (cs : list Cart) slot cart j x :
  findOne query cs = Some (slot, cart) ->
  cs !! j = Some x -> ~ matches query x -> Some slot <> Some j.
Proof.
  intros Hfind Hj Hno [= ->].
  apply list_find_Some in Hfind as (Hslot & Hmatch & _).
  rewrite Hslot in Hj. injection Hj as <-. contradiction.
Qed.

Ltac own_cart query :=
  repeat case_match; simpl; subst; try assumption;
  try discriminate;
  repeat match goal with
         | H : Known _ = Known _ |- _ => injection H as <-
         | H : (_, _) = (_, _) |- _ => injection H as <- <-
         end;
  try (eapply saveCart_others; [eassumption | assumption |];
       first [discriminate | eapply findOne_slot; eassumption]).

(** X12: POST /cart/add, PUT /cart/update and DELETE /cart/remove write at most
    the cart of the requester: every stored cart that the requester's key
    does not select is found unchanged at its place afterwards. *)
Theorem cart_requests_touch_own_cart now st query j other :
  carts st !! j = Some other ->
  ~ matches query other ->
  (forall req : Req AddBody,
      cartIdentity (add_userId (body req)) req = Known query ->
      carts (cart_add now req st).2 !! j = Some other)
  /\ (forall req : Req UpdateBody,
        cartIdentity (upd_userId (body req)) req = Known query ->
        carts (cart_update now req st).2 !! j = Some other)
  /\ (forall req : Req RemoveBody,
        sessionIdentity req = Known query ->
        carts (cart_remove now req st).2 !! j = Some other).
Proof.
  intros Hj Hother. repeat split; intros req Hwho.
  - unfold cart_add. rewrite Hwho. own_cart query.
  - unfold cart_update. rewrite Hwho. own_cart query.
  - unfold cart_remove. rewrite Hwho. own_cart query.
Qed.

Lemma cart_requests_touch_own_cart_witness :
  let st := mkStore shelf [guestAB; userA] [] in
  (forall req : Req AddBody,
      cartIdentity (add_userId (body req)) req = Known (BySession "g1") ->
      carts (cart_add 7 req st).2 !! 1%nat = Some userA)
  /\ (forall req : Req UpdateBody,
        cartIdentity (upd_userId (body req)) req = Known (BySession "g1") ->
        carts (cart_update 7 req st).2 !! 1%nat = Some userA)
  /\ (forall req : Req RemoveBody,
        sessionIdentity req = Known (BySession "g1") ->
        carts (cart_remove 7 req st).2 !! 1%nat = Some userA).
Proof.
  intros st.
  apply (cart_requests_touch_own_cart 7 st (BySession "g1") 1%nat userA).
  - reflexivity.
  - simpl. discriminate.
Defined.

Lemma handlers_keep_schema_witness :
  let st := mkStore shelf [guestAB; userA] [] in
  (forall req, cartsValid (cart_add 7 req st).2)
  /\ (forall req, cartsValid (cart_update 7 req st).2)
  /\ (forall req, cartsValid (cart_remove 7 req st).2)
  /\ (forall req, cartsValid (cart_merge 7 req st).2)
  /\ (forall event, cartsValid (stripe_webhook noon event st).2)
  /\ (forall capture orderId, cartsValid (paypal_success noon capture orderId st).2)
  /\ (forall b, cartsValid (post_orders noon b st).2)
  /\ (forall answer req, cartsValid (create_payment noon answer req st).2).
Proof.
  intros st. apply (handlers_keep_schema 7 noon st).
  repeat (apply Forall_cons; split; [reflexivity |]). apply Forall_nil. exact I.
Defined.

(** ** Two guest requests, one cart *)

(** X13: A guest without a cookie adds q1 units of an active product and is
    issued a session identifier; the next request carries it back as the
    cookie and adds q2 units of the same product. The second request finds
    the cart the first one created: when q1 + q2 is within the stock the
    store holds one cart for the guest with one line of q1 + q2 units, and
    when it is not, the second request is rejected with status 400 and the
    cart keeps its q1 units. *)
Theorem guest_session_accumulates now1 now2 stamp stamp' st pid product q1 q2 :
  let session := append "session_" stamp in
  let first := ensureGuestSession add_userId stamp
                 (incoming (mkAddBody None (Some (WellFormed pid)) (Some q1)) None) in
  let second := ensureGuestSession add_userId stamp'
                  (incoming (mkAddBody None (Some (WellFormed pid)) (Some q2))
                            (Some session)) in
  findOne (BySession session) (carts st) = None ->
  products st !! pid = Some product ->
  isActive product = true ->
  1 <= q1 <= stock product ->
  1 <= q2 ->
  let st1 := (cart_add now1 first st).2 in
  let '(reply2, st2) := cart_add now2 second st1 in
  carts st1 = carts st ++ [mkCart None (Some session) [mkCartItem pid q1 now1] now1]
  /\ (q1 + q2 <= stock product ->
      reply2 = CartReply CartQuantityUpdated [mkCartItem pid (q1 + q2) now2] (q1 + q2)
      /\ carts st2
         = carts st ++ [mkCart None (Some session) [mkCartItem pid (q1 + q2) now2] now2])
  /\ (stock product < q1 + q2 ->
      reply2 = Rejected 400 (OnlyInStock (stock product)) /\ st2 = st1).
Proof.
  intros session first second Hnone Hproduct Hactive [Hq1 Hfits1] Hq2 st1.
  assert (Hfirst : cart_add now1 first st
                   = (CartReply ItemAdded [mkCartItem pid q1 now1] q1,
                      mkStore (products st)
                              (carts st ++ [mkCart None (Some session)
                                                   [mkCartItem pid q1 now1] now1])
                              (orders st))).
  { unfold cart_add, first, cartIdentity, ensureGuestSession. simpl.
    rewrite Hproduct, Hactive. simpl.
    assert (Hlt : (stock product <? q1) = false) by (apply Z.ltb_ge; lia).
    rewrite Hlt. fold session. rewrite Hnone. simpl.
    rewrite (saveCart_valid now1 None);
      [| apply (cartValid_push [] pid q1 now1 eq_refl); [apply not_elem_of_nil | exact Hq1]].
    simpl. unfold itemCount. simpl. reflexivity. }
  assert (Hst1 : st1 = mkStore (products st)
                         (carts st ++ [mkCart None (Some session)
                                              [mkCartItem pid q1 now1] now1])
                         (orders st)).
  { unfold st1. rewrite Hfirst. reflexivity. }
  assert (Hcart : findOne (BySession session) (carts st1)
                  = Some (length (carts st),
                          mkCart None (Some session) [mkCartItem pid q1 now1] now1)).
  { rewrite Hst1. simpl. apply findOne_appended; [exact Hnone | reflexivity]. }
  unfold cart_add, second, cartIdentity, ensureGuestSession. simpl.
  fold session.
  replace (products st1) with (products st) by (rewrite Hst1; reflexivity).
  rewrite Hproduct, Hactive. simpl.
  destruct (stock product <? q2) eqn:Hlt2.
  { apply Z.ltb_lt in Hlt2. simpl.
    split; [rewrite Hst1; reflexivity |].
    split; [lia | intros _; split; reflexivity]. }
  rewrite Hcart. simpl. rewrite decide_True by reflexivity. simpl.
  destruct (stock product <? q1 + q2) eqn:Hlt.
  { apply Z.ltb_lt in Hlt. simpl.
    split; [rewrite Hst1; reflexivity |].
    split; [lia | intros _; split; reflexivity]. }
  apply Z.ltb_ge in Hlt.
  rewrite (saveCart_valid now2 (Some (length (carts st))));
    [| apply (cartValid_push [] pid (q1 + q2) now2 eq_refl); [apply not_elem_of_nil | lia]].
  simpl.
  split; [rewrite Hst1; reflexivity |].
  split; [| lia]. intros _. split.
  - unfold itemCount. simpl. reflexivity.
  - rewrite Hst1. simpl.
    rewrite insert_app_r_alt by reflexivity. rewrite Nat.sub_diag. reflexivity.
Qed.

Lemma guest_session_accumulates_witness :
  let session := append "session_" "17_ab" in
  let first := ensureGuestSession add_userId "17_ab"
                 (incoming (mkAddBody None (Some (WellFormed 1)) (Some 3)) None) in
  let second := ensureGuestSession add_userId "18_cd"
                  (incoming (mkAddBody None (Some (WellFormed 1)) (Some 3))
                            (Some session)) in
  let st := mkStore shelf [] [] in
  let st1 := (cart_add 7 first st).2 in
  let '(reply2, st2) := cart_add 8 second st1 in
  carts st1 = carts st ++ [mkCart None (Some session) [mkCartItem 1 3 7] 7]
  /\ (3 + 3 <= stock tea ->
      reply2 = CartReply CartQuantityUpdated [mkCartItem 1 (3 + 3) 8] (3 + 3)
      /\ carts st2
         = carts st ++ [mkCart None (Some session) [mkCartItem 1 (3 + 3) 8] 8])
  /\ (stock tea < 3 + 3 ->
      reply2 = Rejected 400 (OnlyInStock (stock tea)) /\ st2 = st1).
Proof.
  intros session first second st.
  apply (guest_session_accumulates 7 8 "17_ab" "18_cd" st 1%nat tea 3 3).
  - reflexivity.
  - reflexivity.
  - reflexivity.
  - simpl. lia.
  - lia.
Defined.

(** ** The gate, while nobody times out *)

(** X14: From a process that has just started, along every schedule of
    arrivals, timer wake-ups, body ends and clock ticks in which no request
    has run into the lock timeout, at most one request is in the body of
    POST /cart/add for any key, and the key of every request in the body is
    in [cartLocks]. *)
Theorem gate_excludes_until_timeout keys schedule w :
  Gate.run schedule (Gate.fresh keys) = Some w ->
  Gate.timeoutFree w ->
  Gate.exclusive w /\ Gate.covered w.
Proof.
  intros Hrun Hfree.
  destruct (gate_exclusive_without_timeout schedule (Gate.fresh keys) w Hrun
              (gate_fresh_safe keys) Hfree) as [Hcov Hexc].
  split; assumption.
Qed.

Lemma gate_excludes_until_timeout_witness :
  exists w,
    Gate.run [Gate.Enter 0; Gate.Enter 1; Gate.Tick 20; Gate.Wake 1; Gate.Leave 0;
              Gate.Tick 10; Gate.Wake 1]
             (Gate.fresh ["u"; "u"])
    = Some w
    /\ Gate.holds w 1 "u"
    /\ Gate.exclusive w /\ Gate.covered w.
Proof.
  eexists. split; [vm_compute; reflexivity |]. split; [reflexivity |].
  apply (gate_excludes_until_timeout ["u"; "u"]
           [Gate.Enter 0; Gate.Enter 1; Gate.Tick 20; Gate.Wake 1; Gate.Leave 0;
            Gate.Tick 10; Gate.Wake 1]).
  - vm_compute. reflexivity.
  - intros r key Hr. destruct r as [| [| r]]; vm_compute in Hr; discriminate.
Defined.

(** ** GET /cart and DELETE /cart/clear *)

(** What [cart.save()] wrote is what the requester's key selects next. *)
Lemma saveCart_selected query now slot c (cs cs' : list Cart) :
  saveCart now slot c cs = Some cs' ->
  matches query c ->
  match slot with
  | Some i => exists c0, findOne query cs = Some (i, c0)
  | None => findOne query cs = None
  end ->
  exists j, findOne query cs' = Some (j, mkCart (userId c) (sessionId c) (items c) now).
Proof.
  unfold saveCart. intros Hsave Hc Hslot.
  destruct (cartValid (items c)); [| discriminate]. injection Hsave as <-.
  assert (Hc' : matches query (mkCart (userId c) (sessionId c) (items c) now)).
  { destruct query; exact Hc. }
  destruct slot as [i |].
  - destruct Hslot as [c0 Hfind]. exists i. apply (findOne_replaced _ _ _ c0); assumption.
  - eexists. apply findOne_appended; assumption.
Qed.

Lemma findOne_matches query (cs : list Cart) slot cart :
  findOne query cs = Some (slot, cart) -> matches query cart.
Proof. intros Hfind. apply list_find_Some in Hfind as (_ & Hm & _). exact Hm. Qed.

Lemma matches_rekeyed query cart its t :
  matches query cart -> matches query (mkCart (userId cart) (sessionId cart) its t).
Proof. destruct query; intros H; exact H. Qed.

(** X15: GET /cart shows what the last successful write replied: after a
    POST /cart/add or a PUT /cart/update that succeeded, a GET /cart under
    the same identity shows a stored cart with the lines and the item count
    of that reply. *)
Theorem cart_get_after_write now st query (viewer : Req CartQuery) m shown count st' :
  cartIdentity (get_queryUserId (body viewer)) viewer = Known query ->
  ((exists req : Req AddBody,
       cartIdentity (add_userId (body req)) req = Known query
       /\ cart_add now req st = (CartReply m shown count, st'))
   \/ (exists req : Req UpdateBody,
         cartIdentity (upd_userId (body req)) req = Known query
         /\ cart_update now req st = (CartReply m shown count, st'))) ->
  cart_get viewer st' = CartShown true shown count.
Proof.
  intros Hviewer Hwrite.
  assert (Hsel : exists j c, findOne query (carts st') = Some (j, c)
                             /\ items c = shown /\ itemCount (items c) = count).
  { destruct Hwrite as [(req & Hwho & Hrun) | (req & Hwho & Hrun)].
    - unfold cart_add in Hrun. rewrite Hwho in Hrun.
      repeat case_match; try discriminate; subst;
        injection Hrun as <- <- <- <-; simpl;
        match goal with
        | Hsave : saveCart _ _ _ _ = Some _ |- _ =>
          eapply saveCart_selected in Hsave as [j Hj];
            [exists j; eexists; split; [exact Hj | split; reflexivity] | |]
        end;
        repeat match goal with
               | H : (_, _) = (_, _) |- _ => injection H as <- <-
               end;
        try (apply matches_rekeyed; first [eapply findOne_matches; eassumption
                                          | apply matches_newCart]);
        try (eexists; eassumption); try assumption.
    - unfold cart_update in Hrun. rewrite Hwho in Hrun.
      repeat case_match; try discriminate; subst;
        injection Hrun as <- <- <- <-; simpl;
        match goal with
        | Hsave : saveCart _ _ _ _ = Some _ |- _ =>
          eapply saveCart_selected in Hsave as [j Hj];
            [exists j; eexists; split; [exact Hj | split; reflexivity] | |]
        end;
        try (apply matches_rekeyed; eapply findOne_matches; eassumption);
        try (eexists; eassumption). }
  destruct Hsel as (j & c & Hfind & <- & <-).
  unfold cart_get. rewrite Hviewer, Hfind. reflexivity.
Qed.

Lemma cart_get_after_write_witness :
  cart_get guestGet (cart_add 7 (guestAdd 1 2) (mkStore shelf [guestCart] [])).2
  = CartShown true [mkCartItem 3 1 0; mkCartItem 1 5 7] 6.
Proof.
  apply (cart_get_after_write 7 (mkStore shelf [guestCart] []) (BySession "g1") guestGet
           CartQuantityUpdated [mkCartItem 3 1 0; mkCartItem 1 5 7] 6
           (cart_add 7 (guestAdd 1 2) (mkStore shelf [guestCart] [])).2).
  - reflexivity.
  - left. exists (guestAdd 1 2). split; reflexivity.
Defined.

(** X16: GET /cart for a requester without a cart document shows the empty cart
    without creating one; DELETE /cart/clear for a requester with a cart
    empties it and keeps the document, whatever lines it held, so that
    GET /cart then shows a stored, empty cart; clearing changes no other
    cart, no product and no order, and clearing again changes nothing
    more. *)
Theorem cart_clear_empties now (req : Req ClearBody) st query :
  identify (clr_userId (body req)) (clr_sessionId (body req)) = Known query ->
  (findOne query (carts st) = None ->
   cart_clear now req st = (Failed 404 "Cart not found", st)
   /\ forall viewer : Req CartQuery,
        cartIdentity (get_queryUserId (body viewer)) viewer = Known query ->
        cart_get viewer st = CartShown false [] 0)
  /\ (forall slot cart,
        findOne query (carts st) = Some (slot, cart) ->
        let emptied := mkCart (userId cart) (sessionId cart) [] now in
        let st' := mkStore (products st) (<[slot := emptied]> (carts st)) (orders st) in
        cart_clear now req st = (CartEmptied "Cart cleared", st')
        /\ cart_clear now req st' = (CartEmptied "Cart cleared", st')
        /\ (forall j, j <> slot -> carts st' !! j = carts st !! j)
        /\ forall viewer : Req CartQuery,
             cartIdentity (get_queryUserId (body viewer)) viewer = Known query ->
             cart_get viewer st' = CartShown true [] 0).
Proof.
  intros Hwho. split.
  - intros Hnone. split.
    + unfold cart_clear. rewrite Hwho, Hnone. reflexivity.
    + intros viewer Hviewer. unfold cart_get. rewrite Hviewer, Hnone. reflexivity.
  - intros slot cart Hfind emptied st'.
    assert (Hagain : findOne query (carts st') = Some (slot, emptied)).
    { apply (findOne_replaced query (carts st) slot cart emptied Hfind).
      apply matches_rekeyed. apply (findOne_matches _ _ _ _ Hfind). }
    split; [| split; [| split]].
    + unfold cart_clear. rewrite Hwho, Hfind. reflexivity.
    + unfold cart_clear. rewrite Hwho, Hagain.
      unfold saveCart. simpl. rewrite list_insert_insert_eq. reflexivity.
    + intros j Hj. simpl. apply list_lookup_insert_ne. congruence.
    + intros viewer Hviewer. unfold cart_get. rewrite Hviewer, Hagain. reflexivity.
Qed.

Lemma cart_clear_empties_witness :
  let st := mkStore shelf [guestCart; userA] [] in
  (findOne (BySession "g1") (carts st) = None ->
   cart_clear 7 guestClear st = (Failed 404 "Cart not found", st)
   /\ forall viewer : Req CartQuery,
        cartIdentity (get_queryUserId (body viewer)) viewer = Known (BySession "g1") ->
        cart_get viewer st = CartShown false [] 0)
  /\ (forall slot cart,
        findOne (BySession "g1") (carts st) = Some (slot, cart) ->
        let emptied := mkCart (userId cart) (sessionId cart) [] 7 in
        let st' := mkStore (products st) (<[slot := emptied]> (carts st)) (orders st) in
        cart_clear 7 guestClear st = (CartEmptied "Cart cleared", st')
        /\ cart_clear 7 guestClear st' = (CartEmptied "Cart cleared", st')
        /\ (forall j, j <> slot -> carts st' !! j = carts st !! j)
        /\ forall viewer : Req CartQuery,
             cartIdentity (get_queryUserId (body viewer)) viewer = Known (BySession "g1") ->
             cart_get viewer st' = CartShown true [] 0).
Proof.
  intros st.
  apply (cart_clear_empties 7 guestClear st (BySession "g1")).
  reflexivity.
Defined.

(** ** Catalog administration and the cart *)

(** X17: PATCH /products/:id/status on a product of the catalog changes its
    active flag and nothing else: name, price and stock stay, and so do the
    other products, the carts and the orders. Once a product is switched
    off, POST /cart/add for it is rejected with status 400 under every
    identity and whatever the stock, and the store stays as it is; switching
    a product off and on again gives back the store it started from when it
    was active. A value that is not a boolean is rejected before the
    product is looked up. *)
Theorem product_status_switch pid product st :
  products st !! pid = Some product ->
  let off := mkProduct (name product) (price product) (stock product) false in
  let st' := mkStore (<[pid := off]> (products st)) (carts st) (orders st) in
  product_set_status (WellFormed pid) (Some false) st
  = (StatusSaved "Product deactivated successfully" (name product) false, st')
  /\ (forall other, other <> pid -> products st' !! other = products st !! other)
  /\ (forall now (req : Req AddBody) query,
        cartIdentity (add_userId (body req)) req = Known query ->
        add_productId (body req) = Some (WellFormed pid) ->
        cart_add now req st' = (Rejected 400 ProductNotAvailable, st'))
  /\ (isActive product = true ->
      (product_set_status (WellFormed pid) (Some true) st').2 = st)
  /\ (forall id, product_set_status id None st
                 = (Failed 400 "isActive must be a boolean value", st)).
Proof.
  intros Hfound off st'. split; [| split; [| split; [| split]]].
  - unfold product_set_status. rewrite Hfound. reflexivity.
  - intros other Hne. simpl. apply lookup_insert_ne. congruence.
  - intros now req query Hwho Hpid. unfold cart_add. rewrite Hwho, Hpid. simpl.
    rewrite lookup_insert_eq. reflexivity.
  - intros Hactive. unfold product_set_status. simpl. rewrite lookup_insert_eq. simpl.
    rewrite insert_insert_eq.
    rewrite insert_id; [destruct st; reflexivity |].
    rewrite Hfound. destruct product as [n p s a]. simpl in *. subst a. reflexivity.
  - intros id. reflexivity.
Qed.

Lemma product_status_switch_witness :
  let st := mkStore shelf [guestCart] [] in
  let off := mkProduct (name tea) (price tea) (stock tea) false in
  let st' := mkStore (<[1%nat := off]> (products st)) (carts st) (orders st) in
  product_set_status (WellFormed 1) (Some false) st
  = (StatusSaved "Product deactivated successfully" (name tea) false, st')
  /\ (forall other, other <> 1%nat -> products st' !! other = products st !! other)
  /\ (forall now (req : Req AddBody) query,
        cartIdentity (add_userId (body req)) req = Known query ->
        add_productId (body req) = Some (WellFormed 1) ->
        cart_add now req st' = (Rejected 400 ProductNotAvailable, st'))
  /\ (isActive tea = true ->
      (product_set_status (WellFormed 1) (Some true) st').2 = st)
  /\ (forall id, product_set_status id None st
                 = (Failed 400 "isActive must be a boolean value", st)).
Proof.
  intros st.
  apply (product_status_switch 1%nat tea st).
  reflexivity.
Defined.

(** X18: PATCH /products/:id on a product of the catalog is rejected with
    status 400, nothing written, exactly when the body has a key other than
    isActive, stock and price; otherwise the product keeps its name, takes
    the values the body gives and keeps the others, and no other product, no
    cart and no order changes. An empty body leaves the store as it is. *)
Theorem product_patch_allow_list pid product b st :
  products st !! pid = Some product ->
  let '(reply, st') := product_patch (WellFormed pid) b st in
  ((exists key, key ∈ pat_others b /\ key ∉ allowedUpdates)
   <-> reply
       = Failed 400
           "Invalid updates. Only isActive, stock, and price can be updated via PATCH")
  /\ ((exists key, key ∈ pat_others b /\ key ∉ allowedUpdates) -> st' = st)
  /\ ((forall key, key ∈ pat_others b -> key ∈ allowedUpdates) ->
      exists product',
        reply = ProductSaved "Product updated successfully" product'
        /\ st' = mkStore (<[pid := product']> (products st)) (carts st) (orders st)
        /\ name product' = name product
        /\ price product' = default (price product) (pat_price b)
        /\ stock product' = default (stock product) (pat_stock b)
        /\ isActive product' = default (isActive product) (pat_isActive b)
        /\ (pat_price b = None -> pat_stock b = None -> pat_isActive b = None ->
            st' = st)).
Proof.
  intros Hfound. unfold product_patch. rewrite Hfound.
  assert (Hkeys : forallb (fun update => bool_decide (update ∈ allowedUpdates)) (patchKeys b)
                  = forallb (fun update => bool_decide (update ∈ allowedUpdates)) (pat_others b)).
  { unfold patchKeys.
    destruct (pat_isActive b), (pat_stock b), (pat_price b); reflexivity. }
  rewrite Hkeys.
  destruct (forallb _ (pat_others b)) eqn:Hall.
  - assert (Hin : forall key, key ∈ pat_others b -> key ∈ allowedUpdates).
    { intros key Hkey. rewrite forallb_forall in Hall.
      apply list_elem_of_In in Hkey. apply Hall in Hkey.
      apply bool_decide_eq_true in Hkey. exact Hkey. }
    split; [split; [| discriminate] |].
    + intros (key & Hkey & Hno). destruct (Hno (Hin key Hkey)).
    + split; [intros (key & Hkey & Hno); destruct (Hno (Hin key Hkey)) |].
      intros _. eexists. split; [reflexivity |]. split; [reflexivity |].
      repeat split. intros -> -> ->. simpl.
      rewrite insert_id; [destruct st; reflexivity |].
      rewrite Hfound. destruct product; reflexivity.
  - assert (Hout : exists key, key ∈ pat_others b /\ key ∉ allowedUpdates).
    { apply not_true_iff_false in Hall.
      destruct (decide (Forall (fun key => key ∈ allowedUpdates) (pat_others b)))
        as [Hyes | Hno].
      - exfalso. apply Hall. apply forallb_forall. intros key Hkey.
        apply bool_decide_eq_true. rewrite Forall_forall in Hyes.
        apply Hyes. apply list_elem_of_In. exact Hkey.
      - apply not_Forall_Exists in Hno; [| intros key; apply _].
        apply Exists_exists in Hno as (key & Hkey & Hbad). eauto. }
    split; [split; [reflexivity | intros _; exact Hout] |].
    split; [reflexivity |].
    intros Hin. destruct Hout as (key & Hkey & Hno). destruct (Hno (Hin key Hkey)).
Qed.

Lemma product_patch_allow_list_witness :
  let st := mkStore shelf [] [] in
  let b := mkPatchBody None (Some 9) None ["name"] in
  let '(reply, st') := product_patch (WellFormed 1) b st in
  ((exists key, key ∈ pat_others b /\ key ∉ allowedUpdates)
   <-> reply
       = Failed 400
           "Invalid updates. Only isActive, stock, and price can be updated via PATCH")
  /\ ((exists key, key ∈ pat_others b /\ key ∉ allowedUpdates) -> st' = st)
  /\ ((forall key, key ∈ pat_others b -> key ∈ allowedUpdates) ->
      exists product',
        reply = ProductSaved "Product updated successfully" product'
        /\ st' = mkStore (<[1%nat := product']> (products st)) (carts st) (orders st)
        /\ name product' = name tea
        /\ price product' = default (price tea) (pat_price b)
        /\ stock product' = default (stock tea) (pat_stock b)
        /\ isActive product' = default (isActive tea) (pat_isActive b)
        /\ (pat_price b = None -> pat_stock b = None -> pat_isActive b = None ->
            st' = st)).
Proof.
  intros st b.
  apply (product_patch_allow_list 1%nat tea b st).
  reflexivity.
Defined.

(** X19: DELETE /products/:id removes the product and nothing else: the carts
    keep their lines for it. From then on GET /products/:id and a second
    DELETE answer 404, POST /cart/add for the product is rejected with 404
    under every identity, and a cart line for it can no longer be given a
    new positive quantity (404). *)
Theorem product_delete_then pid product st :
  products st !! pid = Some product ->
  let st' := mkStore (delete pid (products st)) (carts st) (orders st) in
  product_delete (WellFormed pid) st = (Deleted "Product deleted successfully", st')
  /\ product_get (WellFormed pid) st' = Failed 404 "Product not found"
  /\ product_delete (WellFormed pid) st' = (Failed 404 "Product not found", st')
  /\ (forall other, other <> pid -> products st' !! other = products st !! other)
  /\ (forall now (req : Req AddBody) query,
        cartIdentity (add_userId (body req)) req = Known query ->
        add_productId (body req) = Some (WellFormed pid) ->
        cart_add now req st' = (Rejected 404 ProductNotFound, st'))
  /\ (forall now (req : Req UpdateBody) query slot cart k z,
        cartIdentity (upd_userId (body req)) req = Known query ->
        upd_productId (body req) = Some (WellFormed pid) ->
        upd_quantity (body req) = Some (Integer z) -> 0 < z ->
        findOne query (carts st) = Some (slot, cart) ->
        findIndex pid (items cart) = Some k ->
        cart_update now req st' = (Rejected 404 ProductNotFound, st')).
Proof.
  intros Hfound st'. split; [| split; [| split; [| split; [| split]]]].
  - unfold product_delete. rewrite Hfound. reflexivity.
  - unfold product_get. simpl. rewrite lookup_delete_eq. reflexivity.
  - unfold product_delete. simpl. rewrite lookup_delete_eq. reflexivity.
  - intros other Hne. simpl. apply lookup_delete_ne. congruence.
  - intros now req query Hwho Hpid. unfold cart_add. rewrite Hwho, Hpid. simpl.
    rewrite lookup_delete_eq. reflexivity.
  - intros now req query slot cart k z Hwho Hpid Hq Hpos Hcart Hindex.
    unfold cart_update. rewrite Hwho, Hpid, Hq. simpl.
    assert (Hz0 : (z <? 0) = false) by (apply Z.ltb_ge; lia).
    assert (Hz1 : (z =? 0) = false) by (apply Z.eqb_neq; lia).
    rewrite Hz0, Hcart, Hindex, Hz1, lookup_delete_eq. reflexivity.
Qed.

Lemma product_delete_then_witness :
  let st := mkStore shelf [guestCart] [] in
  let st' := mkStore (delete 1%nat (products st)) (carts st) (orders st) in
  product_delete (WellFormed 1) st = (Deleted "Product deleted successfully", st')
  /\ product_get (WellFormed 1) st' = Failed 404 "Product not found"
  /\ product_delete (WellFormed 1) st' = (Failed 404 "Product not found", st')
  /\ (forall other, other <> 1%nat -> products st' !! other = products st !! other)
  /\ (forall now (req : Req AddBody) query,
        cartIdentity (add_userId (body req)) req = Known query ->
        add_productId (body req) = Some (WellFormed 1) ->
        cart_add now req st' = (Rejected 404 ProductNotFound, st'))
  /\ (forall now (req : Req UpdateBody) query slot cart k z,
        cartIdentity (upd_userId (body req)) req = Known query ->
        upd_productId (body req) = Some (WellFormed 1) ->
        upd_quantity (body req) = Some (Integer z) -> 0 < z ->
        findOne query (carts st) = Some (slot, cart) ->
        findIndex 1%nat (items cart) = Some k ->
        cart_update now req st' = (Rejected 404 ProductNotFound, st')).
Proof.
  intros st.
  apply (product_delete_then 1%nat tea st).
  reflexivity.
Defined.

(** ** PUT /orders/:id *)

(** X21: PUT /orders/:id writes the payment status and nothing else. A
    [status] or a [trackingNumber] in the body is dropped, being no path of
    the schema; every other path of the order, the other orders, the catalog
    and the carts stay. The value is written without validation, so one the
    schema's enum does not list leaves a document in the ledger that
    [save] would refuse. A body without payment status leaves the store as
    it is, an unknown id is answered 404 and a malformed one 500, nothing
    written. *)
Theorem order_update_writes_payment_status id b st :
  let '(reply, st') := order_update id b st in
  products st' = products st
  /\ carts st' = carts st
  /\ length (orders st') = length (orders st)
  /\ (forall i order,
        id = WellFormed i -> orders st !! i = Some order ->
        exists order',
          reply = OrderSaved "Order updated successfully" order'
          /\ orders st' !! i = Some order'
          /\ (forall j, j <> i -> orders st' !! j = orders st !! j)
          /\ paymentStatus order'
             = default (paymentStatus order) (truthy (ou_paymentStatus b))
          /\ (o_user order', o_items order', shippingAddress order', contactEmail order',
              paymentMethod order', orderStatus order')
             = (o_user order, o_items order, shippingAddress order, contactEmail order,
                paymentMethod order, orderStatus order)
          /\ (o_subtotal order', shipping order', tax order', total order', orderNotes order')
             = (o_subtotal order, shipping order, tax order, total order, orderNotes order)
          /\ (stripePaymentIntentId order', stripeSessionId order', paypalOrderId order',
              paypalCaptureId order', paidAt order', shippedAt order', deliveredAt order')
             = (stripePaymentIntentId order, stripeSessionId order, paypalOrderId order,
                paypalCaptureId order, paidAt order, shippedAt order, deliveredAt order)
          /\ (truthy (ou_paymentStatus b) = None -> st' = st)
          /\ (forall value,
                truthy (ou_paymentStatus b) = Some value ->
                value ∉ paymentStatuses ->
                orderValid order' = false))
  /\ (forall i,
        id = WellFormed i -> orders st !! i = None ->
        reply = Failed 404 "Order not found" /\ st' = st)
  /\ (forall s,
        id = Malformed s ->
        reply = Failed 500 "Server error occurred" /\ st' = st).
Proof.
  unfold order_update, findById.
  destruct id as [i | s].
  - destruct (orders st !! i) as [order |] eqn:Hi.
    + assert (Hlen : (i < length (orders st))%nat) by (apply lookup_lt_Some in Hi; exact Hi).
      split; [reflexivity |]. split; [reflexivity |].
      split; [apply length_insert |]. split; [| split].
      * intros i' order0 [= <-] Hfound.
        assert (Hsame : Some order = Some order0) by exact (eq_trans (eq_sym Hi) Hfound).
        injection Hsame as <-.
        eexists. split; [reflexivity |].
        split; [apply list_lookup_insert_eq; exact Hlen |].
        split; [intros j Hj; apply list_lookup_insert_ne; congruence |].
        destruct (truthy (ou_paymentStatus b)) as [value |]; simpl.
        -- repeat split; try discriminate.
           intros value' [= <-] Hout. apply orderValid_paymentStatus.
           apply bool_decide_eq_false_2. exact Hout.
        -- repeat split; try discriminate.
           intros _. rewrite list_insert_id; [destruct st; reflexivity |].
           exact Hi.
      * intros i' [= <-] Hnone.
        assert (Hsame : Some order = None) by exact (eq_trans (eq_sym Hi) Hnone).
        discriminate.
      * intros s Heq. discriminate.
    + split; [reflexivity |]. split; [reflexivity |]. split; [reflexivity |].
      split; [| split].
      * intros i' order [= <-] Hfound.
        assert (Hsame : None = Some order) by exact (eq_trans (eq_sym Hi) Hfound).
        discriminate.
      * intros _ _ _. split; reflexivity.
      * intros s Heq. discriminate.
  - split; [reflexivity |]. split; [reflexivity |]. split; [reflexivity |].
    split; [| split].
    + intros i order Heq. discriminate.
    + intros i Heq. discriminate.
    + intros s' _. split; reflexivity.
Qed.

Lemma order_update_writes_payment_status_witness :
  let st := mkStore shelf [] [teaOrder] in
  let b := mkOrderUpdate (Some "shipped") (Some "paid") (Some "TRK1") in
  exists order',
    order_update (WellFormed 0) b st
    = (OrderSaved "Order updated successfully" order', mkStore shelf [] [order'])
    /\ paymentStatus order' = "paid"
    /\ orderStatus order' = "pending"
    /\ total order' = Some 750
    /\ orderValid teaOrder = true
    /\ orderValid order' = false.
Proof.
  intros st b.
  pose proof (order_update_writes_payment_status (WellFormed 0) b st) as Hrun.
  destruct (order_update (WellFormed 0) b st) as [reply st'] eqn:Hcall.
  destruct Hrun as (_ & _ & _ & Hfound & _).
  destruct (Hfound 0%nat teaOrder eq_refl eq_refl)
    as (order' & -> & _ & _ & Hpay & Hsame & Hamounts & _ & _ & Hrefused).
  exists order'. split.
  - vm_compute in Hcall. injection Hcall as <- <-. reflexivity.
  - split; [exact Hpay |].
    split; [injection Hsame as _ _ _ _ _ ->; reflexivity |].
    split; [injection Hamounts as _ _ _ -> _; reflexivity |].
    split; [vm_compute; reflexivity |].
    apply (Hrefused "paid"); [reflexivity |].
    intros Hin. unfold paymentStatuses in Hin.
    repeat (apply elem_of_cons in Hin as [Hin | Hin]; [discriminate |]).
    apply elem_of_nil in Hin. exact Hin.
Defined.

(** ** getCountryCode *)

Lemma ownProperty_listed key table c :
  ownProperty key table = Some c -> (key, c) ∈ table.
Proof.
  induction table as [| [k v] rest IH]; [discriminate |]. simpl.
  destruct (decide (k = key)) as [-> | Hne].
  - rewrite bool_decide_eq_true_2 by reflexivity. intros [= ->]. apply list_elem_of_here.
  - rewrite bool_decide_eq_false_2 by exact Hne. intros H.
    apply list_elem_of_further. apply IH. exact H.
Qed.

Lemma code_names_one (table : list (string * string)) :
  NoDup table.*2 ->
  forall a b c, (a, c) ∈ table -> (b, c) ∈ table -> a = b.
Proof.
  induction table as [| [k v] rest IH]; intros Hd a b c Ha Hb.
  - apply elem_of_nil in Ha. destruct Ha.
  - rewrite fmap_cons in Hd. apply NoDup_cons in Hd as [Hfresh Hd]. simpl in Hfresh.
    apply elem_of_cons in Ha as [Ha | Ha]; apply elem_of_cons in Hb as [Hb | Hb].
    + congruence.
    + exfalso. apply Hfresh. replace v with c by congruence.
      apply (list_elem_of_fmap_2 snd rest (b, c) Hb).
    + exfalso. apply Hfresh. replace v with c by congruence.
      apply (list_elem_of_fmap_2 snd rest (a, c) Ha).
    + apply (IH Hd a b c Ha Hb).
Qed.

Lemma countryCodes_two_letters :
  Forall (fun entry => String.length entry.2 = 2%nat) countryCodes.
Proof. unfold countryCodes. repeat (apply Forall_cons; split; [reflexivity |]). apply Forall_nil. exact I. Qed.

Lemma countryCodes_distinct : NoDup countryCodes.*2.
Proof. refine (bool_decide_unpack (NoDup countryCodes.*2) _). vm_compute. exact I. Qed.

Lemma inheritedKeys_not_countries name :
  name ∈ inheritedKeys -> ownProperty name countryCodes = None.
Proof.
  unfold inheritedKeys. intros Hin.
  repeat (apply elem_of_cons in Hin as [-> | Hin]; [vm_compute; reflexivity |]).
  apply elem_of_nil in Hin. destruct Hin.
Qed.

(** X23: What [getCountryCode] hands to the wallet processor. Whenever it is a
    code it has two letters; a code other than US is the table's entry for
    the name and belongs to that name alone, so only US, the fallback of
    every name the table does not list, is shared. A name that is one of the
    members every object inherits ('constructor', 'toString', ...) selects
    that member: no code comes back, not even the fallback. *)
Theorem getCountryCode_codes name :
  match getCountryCode name with
  | Code c =>
    String.length c = 2%nat
    /\ (name ∉ inheritedKeys)
    /\ (c <> "US" ->
        (name, c) ∈ countryCodes
        /\ forall other, getCountryCode other = Code c -> other = name)
  | Inherited key => key = name /\ name ∈ inheritedKeys
  end.
Proof.
  assert (Hlisted : forall n c, getCountryCode n = Code c -> c <> "US" ->
                                (n, c) ∈ countryCodes).
  { intros n c. unfold getCountryCode.
    destruct (ownProperty n countryCodes) as [c' |] eqn:Hown.
    - intros [= <-] _. apply ownProperty_listed. exact Hown.
    - destruct (bool_decide (n ∈ inheritedKeys)); [discriminate |].
      intros [= <-] Hus. destruct (Hus eq_refl). }
  destruct (getCountryCode name) as [c | key] eqn:Hcode.
  - split; [| split].
    + unfold getCountryCode in Hcode.
      destruct (ownProperty name countryCodes) as [c' |] eqn:Hown.
      * injection Hcode as <-. apply ownProperty_listed in Hown.
        pose proof countryCodes_two_letters as Hall. rewrite Forall_forall in Hall.
        apply (Hall _ Hown).
      * destruct (bool_decide (name ∈ inheritedKeys)); [discriminate |].
        injection Hcode as <-. reflexivity.
    + intros Hin. unfold getCountryCode in Hcode.
      rewrite (inheritedKeys_not_countries name Hin) in Hcode.
      rewrite bool_decide_eq_true_2 in Hcode by exact Hin. discriminate.
    + intros Hus. split; [apply (Hlisted name c Hcode Hus) |].
      intros other Hother.
      apply (code_names_one countryCodes countryCodes_distinct other name c).
      * apply (Hlisted other c Hother Hus).
      * apply (Hlisted name c Hcode Hus).
  - unfold getCountryCode in Hcode.
    destruct (ownProperty name countryCodes); [discriminate |].
    destruct (bool_decide (name ∈ inheritedKeys)) eqn:Hin; [| discriminate].
    injection Hcode as <-. apply bool_decide_eq_true in Hin. split; [reflexivity | exact Hin].
Qed.

(** ** DELETE /cart/remove under a session identity *)

(** X24: For a request that does carry a session identity, DELETE /cart/remove
    drops the line of the named product from the requester's cart and
    keeps every other line in its order; a product the cart does not hold is
    not an error, the cart is saved as it is; and removing the same product
    again shows the same lines. *)
Theorem cart_remove_filters now (req : Req RemoveBody) st query pid slot cart :
  sessionIdentity req = Known query ->
  rem_productId (body req) = Some (WellFormed pid) ->
  findOne query (carts st) = Some (slot, cart) ->
  cartValid (items cart) = true ->
  let kept := filter (fun it => productId it <> pid) (items cart) in
  let st' := mkStore (products st)
               (<[slot := mkCart (userId cart) (sessionId cart) kept now]> (carts st))
               (orders st) in
  cart_remove now req st = (CartReply ItemRemoved kept (itemCount kept), st')
  /\ findIndex pid kept = None
  /\ (forall it, it ∈ kept <-> it ∈ items cart /\ productId it <> pid)
  /\ (findIndex pid (items cart) = None -> kept = items cart)
  /\ cart_remove now req st' = (CartReply ItemRemoved kept (itemCount kept), st').
Proof.
  intros Hwho Hpid Hcart Hvalid kept st'.
  assert (Hkept : cartValid kept = true).
  { apply cartValid_spec in Hvalid as [Hall Hd]. apply cartValid_spec. split.
    - apply Forall_forall. intros it Hit. apply list_elem_of_filter in Hit as [_ Hit].
      rewrite Forall_forall in Hall. apply (Hall it Hit).
    - apply (sublist_NoDup (productId <$> kept) (productId <$> items cart)); [exact Hd |].
      apply fmap_sublist. apply sublist_filter. }
  assert (Hgone : filter (fun it => productId it <> pid) kept = kept).
  { unfold kept. rewrite list_filter_filter. apply list_filter_iff. intros it. tauto. }
  split; [| split; [| split; [| split]]].
  - unfold cart_remove. rewrite Hwho, Hpid, Hcart. fold kept.
    rewrite (saveCart_valid now (Some slot)) by exact Hkept. reflexivity.
  - unfold findIndex.
    destruct (list_find (fun it => productId it = pid) kept) as [[j it] |] eqn:Hfind;
      [| reflexivity].
    apply list_find_Some in Hfind as (Hj & Hp & _).
    apply list_elem_of_lookup_2 in Hj. apply list_elem_of_filter in Hj as [Hne _].
    contradiction.
  - intros it. unfold kept. rewrite list_elem_of_filter. tauto.
  - intros Habsent. unfold kept. apply filter_absent. apply findIndex_None. exact Habsent.
  - assert (Hagain : findOne query (carts st')
                     = Some (slot, mkCart (userId cart) (sessionId cart) kept now)).
    { apply (findOne_replaced query (carts st) slot cart _ Hcart).
      apply matches_rekeyed. apply (findOne_matches _ _ _ _ Hcart). }
    unfold cart_remove. rewrite Hwho, Hpid, Hagain. simpl. rewrite Hgone.
    rewrite (saveCart_valid now (Some slot)) by exact Hkept. simpl.
    rewrite list_insert_insert_eq. reflexivity.
Qed.

Lemma cart_remove_filters_witness :
  let req := mkReq (mkRemoveBody (Some (WellFormed 1))) None None None None (Some "g1") in
  let st := mkStore shelf [guestCart] [] in
  let kept := filter (fun it => productId it <> 1%nat) (items guestCart) in
  let st' := mkStore (products st)
               (<[0%nat := mkCart (userId guestCart) (sessionId guestCart) kept 7]> (carts st))
               (orders st) in
  cart_remove 7 req st = (CartReply ItemRemoved kept (itemCount kept), st')
  /\ findIndex 1%nat kept = None
  /\ (forall it, it ∈ kept <-> it ∈ items guestCart /\ productId it <> 1%nat)
  /\ (findIndex 1%nat (items guestCart) = None -> kept = items guestCart)
  /\ cart_remove 7 req st' = (CartReply ItemRemoved kept (itemCount kept), st').
Proof.
  intros req st.
  apply (cart_remove_filters 7 req st (BySession "g1") 1%nat 0%nat guestCart).
  - reflexivity.
  - reflexivity.
  - reflexivity.
  - reflexivity.
Defined.
